(** * MELBA: the dataset utilities of [utils/dataset.py]

    A shallow embedding of the CT-scan dataset code: the two dataset
    adapters ([RSNAICHDataset], [PhysioNetICHDataset]), the collate
    functions, the window stacking helper, the planar and volumetric
    readers and the train/validation split builder, together with the
    properties the specification states about them and further
    properties of the code.

    Conventions of the embedding.
    - A Python call that may raise returns a [result]: [Ok v] or
      [Raise e] with the exception that escapes.
    - A torch float tensor is a nested list of [float]; a [float] is an
      exact rational or one of the three non-finite values.  Rounding,
      overflow and signed zeros of tensor entries are not modelled.  The
      sizes of a split, which the code computes with Python floats, are
      computed with binary64 rounding.
    - The file system is a finite map from paths to file contents plus a
      table of directory listings.  Readers are functions of the file
      system; the split builder, which also writes, threads a [world]
      (file system and a log of the I/O calls it made). *)

From Stdlib Require Import QArith Qround Qpower Ascii String.
From stdpp Require Import gmap strings list fin_maps.

Close Scope Q_scope.
Open Scope string_scope.

(** ** Python exceptions and results *)

(** The exceptions the program can meet.  [InvalidFileError] stands for
    what a reader raises on a file of another format (pydicom's
    [InvalidDicomError], nibabel's [ImageFileError], pickle's
    [UnpicklingError]). *)
Inductive exn : Type :=
| AssertionError (msg : string)
| KeyError (key : string)
| IndexError
| ValueError
| TypeError
| OverflowError
| RuntimeError (msg : string)
| FileNotFoundError (path : string)
| InvalidFileError (path : string).

Inductive result (A : Type) : Type :=
| Ok (a : A)
| Raise (e : exn).
Arguments Ok {A} a.
Arguments Raise {A} e.

#[global] Instance result_ret : MRet result := fun A a => Ok a.
#[global] Instance result_bind : MBind result := fun A B f m =>
  match m with
  | Ok a => f a
  | Raise e => Raise e
  end.

Definition is_ok {A} (r : result A) : bool :=
  match r with Ok _ => true | Raise _ => false end.

(** [[f(x) for x in xs]]: the calls run left to right and the first
    exception escapes. *)
Fixpoint mapR {A B} (f : A → result B) (xs : list A) : result (list B) :=
  match xs with
  | [] => Ok []
  | x :: xs' => y ← f x; ys ← mapR f xs'; Ok (y :: ys)
  end.

(** A loop that updates an accumulator and may raise. *)
Fixpoint foldlR {A B} (f : A → B → result A) (a : A) (xs : list B) : result A :=
  match xs with
  | [] => Ok a
  | x :: xs' => a' ← f a x; foldlR f a' xs'
  end.

(** [l[i]] on a Python list: a negative index counts from the end. *)
Definition py_getitem {A} (l : list A) (i : Z) : result A :=
  let n := Z.of_nat (length l) in
  let j := (if i <? 0 then i + n else i)%Z in
  if (j <? 0)%Z then Raise IndexError
  else match l !! Z.to_nat j with
       | Some x => Ok x
       | None => Raise IndexError
       end.

(** ** Floating-point values

    The entries of tensors and labels.  Their arithmetic is exact:
    the rounding of a result to the nearest float and its overflow to
    an infinity are not modelled, so what is proved below about
    results of arithmetic is about which operations are applied to
    which entries, and about the values no rounding changes
    ([x - x = 0], [0 / 0 = NaN]), not about the size of a result. *)

Inductive float : Type :=
| Fin (q : Q)
| PInf
| NInf
| NaN.

Definition Qsgn (q : Q) : Z := Z.sgn (Qnum q).

Definition fneg (x : float) : float :=
  match x with
  | Fin q => Fin (Qred (- q))
  | PInf => NInf
  | NInf => PInf
  | NaN => NaN
  end.

Definition fadd (x y : float) : float :=
  match x, y with
  | NaN, _ | _, NaN => NaN
  | Fin a, Fin b => Fin (Qred (a + b))
  | PInf, NInf | NInf, PInf => NaN
  | PInf, _ | _, PInf => PInf
  | NInf, _ | _, NInf => NInf
  end.

Definition fsub (x y : float) : float := fadd x (fneg y).

Definition inf_of_sign (s : Z) : float :=
  match s with
  | Z0 => NaN
  | Zpos _ => PInf
  | Zneg _ => NInf
  end.

Definition fsign (x : float) : Z :=
  match x with
  | Fin q => Qsgn q
  | PInf => 1
  | NInf => -1
  | NaN => 0
  end.

Definition fmul (x y : float) : float :=
  match x, y with
  | NaN, _ | _, NaN => NaN
  | Fin a, Fin b => Fin (Qred (a * b))
  | _, _ => inf_of_sign (fsign x * fsign y)
  end.

Definition fdiv (x y : float) : float :=
  match x, y with
  | NaN, _ | _, NaN => NaN
  | Fin a, Fin b =>
      if Qeq_bool b 0 then inf_of_sign (Qsgn a) else Fin (Qred (a / b))
  | Fin _, _ => Fin 0
  | _, Fin b => inf_of_sign (fsign x * (if Qeq_bool b 0 then 1 else Qsgn b))
  | _, _ => NaN
  end.

(** [x < y]; every comparison with NaN is false. *)
Definition flt (x y : float) : bool :=
  match x, y with
  | NaN, _ | _, NaN => false
  | Fin a, Fin b => negb (Qle_bool b a)
  | NInf, NInf | PInf, _ => false
  | NInf, _ => true
  | Fin _, PInf => true
  | Fin _, NInf => false
  end.

(** The maximum and minimum torch reductions use: NaN propagates. *)
Definition fmax (x y : float) : float :=
  match x, y with
  | NaN, _ | _, NaN => NaN
  | _, _ => if flt x y then y else x
  end.

Definition fmin (x y : float) : float :=
  match x, y with
  | NaN, _ | _, NaN => NaN
  | _, _ => if flt y x then y else x
  end.

Definition float_of_Z (z : Z) : float := Fin (inject_Z z).

(** ** Tensors

    A rank-2 tensor is a list of rows, a rank-3 tensor a list of rank-2
    tensors along its first axis.  The sizes of the inner axes are read
    off the first element; the tensors the program builds have at least
    one element along every axis. *)

Abbreviation tensor2 := (list (list float)).
Abbreviation tensor3 := (list (list (list float))).

Definition shape2 (t : tensor2) : nat * nat :=
  (length t, match t with [] => 0 | r :: _ => length r end).

Definition chan_shape (t : tensor3) : nat * nat :=
  match t with [] => (0, 0) | c :: _ => shape2 c end.

Definition shape3 (t : tensor3) : nat * (nat * nat) :=
  (length t, chan_shape t).

(** [torch.stack(tensors)] along a new first axis. *)
Definition torch_stack (ts : list tensor2) : result tensor3 :=
  match ts with
  | [] => Raise (RuntimeError "stack expects a non-empty TensorList")
  | t :: rest =>
      if forallb (λ u, bool_decide (shape2 u = shape2 t)) rest
      then Ok ts
      else Raise (RuntimeError "stack expects each tensor to be equal size")
  end.

(** [torch.cat(tensors)] along the first axis. *)
Definition torch_cat (ts : list tensor3) : result tensor3 :=
  match ts with
  | [] => Raise (RuntimeError "torch.cat(): expected a non-empty list of Tensors")
  | t :: rest =>
      if forallb (λ u, bool_decide (chan_shape u = chan_shape t)) rest
      then Ok (concat ts)
      else Raise (RuntimeError "Sizes of tensors must match except in dimension 0")
  end.

(** A tensor of statically unknown rank, for the result of [squeeze]. *)
Inductive anytensor : Type :=
| T0 (x : float)
| T1 (v : list float)
| T2 (m : tensor2)
| T3 (t : tensor3).

Definition hd_float (l : list float) : float :=
  match l with [] => NaN | x :: _ => x end.

Definition hd_row (m : tensor2) : list float :=
  match m with [] => [] | r :: _ => r end.

(** [t.squeeze()]: every axis of size one is dropped. *)
Definition squeeze2 (m : tensor2) : anytensor :=
  match shape2 m with
  | (1, 1) => T0 (hd_float (hd_row m))
  | (1, _) => T1 (hd_row m)
  | (_, 1) => T1 (map hd_float m)
  | _ => T2 m
  end.

Definition squeeze (t : tensor3) : anytensor :=
  match t with
  | [m] => squeeze2 m
  | _ =>
      match chan_shape t with
      | (1, 1) => T1 (map (λ m, hd_float (hd_row m)) t)
      | (1, _) => T2 (map hd_row t)
      | (_, 1) => T2 (map (map hd_float) t)
      | _ => T3 t
      end
  end.

(** [t.unsqueeze(0)] *)
Definition unsqueeze0 (m : tensor2) : tensor3 := [m].

(** [t.max()] and [t.min()] over all entries; an empty tensor has none. *)
Definition tensor_max (m : tensor2) : result float :=
  match concat m with
  | [] => Raise (RuntimeError "max(): Expected reduction dim to be specified for input.numel() == 0")
  | x :: xs => Ok (foldl fmax x xs)
  end.

Definition tensor_min (m : tensor2) : result float :=
  match concat m with
  | [] => Raise (RuntimeError "min(): Expected reduction dim to be specified for input.numel() == 0")
  | x :: xs => Ok (foldl fmin x xs)
  end.

(** Entrywise arithmetic of a tensor with a scalar. *)
Definition tensor_sub_scalar (m : tensor2) (c : float) : tensor2 :=
  map (map (λ x, fsub x c)) m.

Definition tensor_div_scalar (m : tensor2) (c : float) : tensor2 :=
  map (map (λ x, fdiv x c)) m.

(** ** Paths and the file system *)

Fixpoint ends_with_slash (a : string) : bool :=
  match a with
  | EmptyString => false
  | String c EmptyString => bool_decide (c = "/"%char)
  | String _ a' => ends_with_slash a'
  end.

(** [os.path.join(a, b)] on a POSIX system. *)
Definition path_join (a b : string) : string :=
  if String.prefix "/" b then b
  else if bool_decide (a = "") || ends_with_slash a then a ++ b
  else a ++ "/" ++ b.

(** A metadata value of a DICOM element: an integer, a decimal, or
    [None], which is what an element without a value holds. *)
Inductive pynum : Type :=
| PyInt (z : Z)
| PyFloat (x : float)
| PyNone.

(** [int(x)]: a float is truncated toward zero; an infinite one raises
    [OverflowError], NaN raises [ValueError], [None] raises
    [TypeError]. *)
Definition py_int (x : pynum) : result Z :=
  match x with
  | PyInt z => Ok z
  | PyFloat (Fin q) => Ok (Z.quot (Qnum q) (Zpos (Qden q)))
  | PyFloat NaN => Raise ValueError
  | PyFloat _ => Raise OverflowError
  | PyNone => Raise TypeError
  end.

(** The [value] of a DICOM element: a plain value or a
    [pydicom.multival.MultiValue]. *)
Inductive dicom_value : Type :=
| Single (v : pynum)
| MultiValue (vs : list pynum).

Record dicom : Type := {
  elements : gmap (string * string) dicom_value;
  pixel_array : list (list Z)
}.

(** What pickle stores for the split: a list of file names or a
    two-dimensional array of labels. *)
Inductive pyobj : Type :=
| PyStrList (l : list string)
| PyArray (a : list (list float)).

Inductive file : Type :=
| DicomFile (d : dicom)
| NiftiFile (v : tensor3)
| CsvFile (rows : list (list string))
| PickleFile (o : pyobj).

Record filesystem : Type := {
  files : gmap string file;
  dirs : gmap string (list string)
}.

(** [os.path.isfile(path)] *)
Definition isfile (fs : filesystem) (path : string) : bool :=
  bool_decide (is_Some (files fs !! path)).

(** [os.listdir(path)] *)
Definition listdir (fs : filesystem) (path : string) : result (list string) :=
  match dirs fs !! path with
  | Some names => Ok names
  | None => Raise (FileNotFoundError path)
  end.

(** A directory never lists a name twice. *)
Definition fs_wf (fs : filesystem) : Prop :=
  ∀ d names, dirs fs !! d = Some names → NoDup names.

(** ** The planar reader *)

(** [data[tag].value] on a pydicom dataset. *)
Definition dicom_field (data : dicom) (tag : string * string) : result dicom_value :=
  match elements data !! tag with
  | Some v => Ok v
  | None => Raise (KeyError (tag.1 ++ "," ++ tag.2))
  end.

Definition _get_first_of_dicom_field_as_int (data : dicom_value) : result Z :=
  match data with
  | MultiValue vs => x ← py_getitem vs 0; py_int x
  | Single v => py_int v
  end.

Definition _get_windowing (data : dicom) : result (list Z) :=
  window_center ← dicom_field data ("0028", "1050");
  window_width ← dicom_field data ("0028", "1051");
  intercept ← dicom_field data ("0028", "1052");
  slope ← dicom_field data ("0028", "1053");
  mapR _get_first_of_dicom_field_as_int
       [window_center; window_width; intercept; slope].

(** What pydicom makes of the values stored in an element: no value is
    read back as [None], one value as the value itself, several values
    as a [MultiValue]. *)
Definition read_value (stored : dicom_value) : dicom_value :=
  match stored with
  | MultiValue [] => Single PyNone
  | MultiValue [x] => Single x
  | _ => stored
  end.

(** [pydicom.read_file(path)] *)
Definition pydicom_read_file (fs : filesystem) (path : string) : result dicom :=
  match files fs !! path with
  | Some (DicomFile d) =>
      Ok {| elements := read_value <$> elements d;
            pixel_array := pixel_array d |}
  | Some _ => Raise (InvalidFileError path)
  | None => Raise (FileNotFoundError path)
  end.

Definition _read_image_2d (fs : filesystem) (file_path : option string)
  : result (tensor2 * list Z) :=
  match file_path with
  | None => Raise (AssertionError "file path is needed")
  | Some path =>
      if isfile fs path then
        image ← pydicom_read_file fs path;
        window_params ← _get_windowing image;
        Ok (map (map float_of_Z) (pixel_array image), window_params)
      else Raise (AssertionError "wrong file path")
  end.

(** ** The volumetric reader *)

Definition get3 (t : tensor3) (i j k : nat) : float :=
  default NaN (m ← t !! i; r ← m !! j; r !! k).

Definition build3 (a b c : nat) (f : nat → nat → nat → float) : tensor3 :=
  map (λ i, map (λ j, map (λ k, f i j k) (seq 0 c)) (seq 0 b)) (seq 0 a).

(** [t.shape[a]] for a rank-3 tensor. *)
Definition size3 (t : tensor3) (a : nat) : nat :=
  match a with
  | 0 => length t
  | 1 => length (default [] (head t))
  | _ => length (hd_row (default [] (head t)))
  end.

(** [t.permute(p0, p1, p2)]: axis [k] of the result is axis [pk] of [t]. *)
Definition permute (t : tensor3) (p0 p1 p2 : nat) : tensor3 :=
  build3 (size3 t p0) (size3 t p1) (size3 t p2)
    (λ i0 i1 i2,
       let ix a :=
         if Nat.eqb a p0 then i0 else if Nat.eqb a p1 then i1 else i2 in
       get3 t (ix 0) (ix 1) (ix 2)).

(** [t[:, :, i]] *)
Definition slice_at (t : tensor3) (i : nat) : tensor2 :=
  map (map (λ r, default NaN (r !! i))) t.

Definition index_last (t : tensor3) (i : nat) : result tensor2 :=
  if Nat.ltb i (size3 t 2) then Ok (slice_at t i) else Raise IndexError.

(** [nibabel.load(filename=path).get_fdata()] *)
Definition nibabel_load (fs : filesystem) (path : string) : result tensor3 :=
  match files fs !! path with
  | Some (NiftiFile v) => Ok v
  | Some _ => Raise (InvalidFileError path)
  | None => Raise (FileNotFoundError path)
  end.

(** ** Tables and dictionaries *)

(** [open(path)] followed by a [csv] reader: the rows of the table. *)
Definition csv_rows (fs : filesystem) (path : string) : result (list (list string)) :=
  match files fs !! path with
  | Some (CsvFile rows) => Ok rows
  | Some _ => Raise (InvalidFileError path)
  | None => Raise (FileNotFoundError path)
  end.

(** [csv.DictReader]: the first row names the columns, every other
    non-empty row becomes a dictionary; a short row is filled with
    [None], and of two columns of one name the later wins. *)
Definition csv_DictReader (rows : list (list string))
  : list (gmap string (option string)) :=
  match rows with
  | [] => []
  | fieldnames :: body =>
      map (λ row : list string,
             list_to_map (reverse
               (zip fieldnames
                    (map Some row ++
                     replicate (length fieldnames - length row) None))))
          (filter (λ row, row ≠ []) body)
  end.

(** [d[key]] on a dictionary with string keys. *)
Definition dict_getitem {V} (d : gmap string V) (key : string) : result V :=
  match d !! key with
  | Some v => Ok v
  | None => Raise (KeyError key)
  end.

(** ** The world of the split builder

    The split builder reads and writes files.  It runs in a state monad
    over the file system and a log of the I/O calls made so far; an
    exception leaves the effects made before it in place. *)

Inductive io_event : Type :=
| EvIsFile (path : string)
| EvListdir (path : string)
| EvRead (path : string)
| EvWrite (path : string).

Record world : Type := {
  w_fs : filesystem;
  w_log : list io_event
}.

Record io (A : Type) : Type := IO { run : world → result A * world }.
Arguments IO {A} run.
Arguments run {A} _ _.

#[global] Instance io_ret : MRet io := fun A a => IO (λ w, (Ok a, w)).
#[global] Instance io_bind : MBind io := fun A B f m =>
  IO (λ w, match run m w with
           | (Ok a, w') => run (f a) w'
           | (Raise e, w') => (Raise e, w')
           end).

Definition log_event (ev : io_event) (w : world) : world :=
  {| w_fs := w_fs w; w_log := (w_log w ++ [ev])%list |}.

(** A call that only reads the file system. *)
Definition io_read {A} (ev : io_event) (f : filesystem → result A) : io A :=
  IO (λ w, (f (w_fs w), log_event ev w)).

(** A pure computation that may raise. *)
Definition io_lift {A} (r : result A) : io A := IO (λ w, (r, w)).

Definition os_path_isfile (path : string) : io bool :=
  io_read (EvIsFile path) (λ fs, Ok (isfile fs path)).

Definition os_listdir (path : string) : io (list string) :=
  io_read (EvListdir path) (λ fs, listdir fs path).

Definition open_csv (path : string) : io (list (list string)) :=
  io_read (EvRead path) (λ fs, csv_rows fs path).

(** [pickle.load(f)] for [f] opened on [path]. *)
Definition pickle_load (path : string) : io pyobj :=
  io_read (EvRead path)
    (λ fs, match files fs !! path with
           | Some (PickleFile o) => Ok o
           | Some _ => Raise (InvalidFileError path)
           | None => Raise (FileNotFoundError path)
           end).

(** A file written under directory [dir] shows up in its listing. *)
Definition fs_write (fs : filesystem) (dir name : string) (f : file) : filesystem :=
  {| files := <[path_join dir name := f]> (files fs);
     dirs := alter (λ names, if bool_decide (name ∈ names) then names
                             else (names ++ [name])%list) dir (dirs fs) |}.

(** [pickle.dump(o, f)] for [f] opened for writing on [dir/name]. *)
Definition pickle_dump (o : pyobj) (dir name : string) : io unit :=
  IO (λ w, (Ok (),
            {| w_fs := fs_write (w_fs w) dir name (PickleFile o);
               w_log := (w_log w ++ [EvWrite (path_join dir name)])%list |})).

(** [a and b] on effectful conditions: [b] runs only if [a] holds. *)
Definition and_then (a b : io bool) : io bool :=
  x ← a; if x : bool then b else mret false.

(** ** The split routine of scikit-learn *)

(** The sizes of a split are computed with Python floats, which are
    binary64 numbers: a product is the exact product rounded to the
    nearest binary64 number, ties to the even significand. *)

(** The integer part of the binary logarithm of a positive rational. *)
Definition Qlog2_floor (x : Q) : Z :=
  let k := (Z.log2 (Qnum x) - Z.log2 (Zpos (Qden x)))%Z in
  if Qle_bool (2 ^ k) x then k else (k - 1)%Z.

(** The integer nearest to [x], of two equally near ones the even. *)
Definition round_half_even (x : Q) : Z :=
  let f := Qfloor x in
  match (x - inject_Z f ?= 1 # 2)%Q with
  | Lt => f
  | Gt => (f + 1)%Z
  | Eq => if Z.even f then f else (f + 1)%Z
  end.

(** The binary64 number nearest to a positive [x]: a significand of 53
    bits, the exponent of the last bit not below -1074. *)
Definition binary64_round_pos (x : Q) : Q :=
  let e := Z.max (-1074) (Qlog2_floor x - 52) in
  (inject_Z (round_half_even (x / 2 ^ e)) * 2 ^ e)%Q.

(** The binary64 number nearest to [x], for [x] of a size below
    [2 ^ 1024]; there is no number to round a larger one to. *)
Definition binary64_round (x : Q) : Q :=
  match Qnum x with
  | Z0 => 0%Q
  | Zpos _ => binary64_round_pos x
  | Zneg _ => (- binary64_round_pos (- x))%Q
  end.

(** [float(n)] for an integer [n], as the product of a float and an
    integer makes it. *)
Definition float_of_int (n : Z) : result Q :=
  let x := binary64_round (inject_Z n) in
  if Qle_bool (2 ^ 1024) x || Qle_bool x (- 2 ^ 1024) then Raise OverflowError
  else Ok x.

(** [test_size]: a number of samples or a fraction of them, the float
    nearest to [q]. *)
Inductive split_size : Type :=
| SizeInt (k : Z)
| SizeFloat (q : Q).

(** [_validate_shuffle_split(n_samples, test_size, None)]: the sizes of
    the train and the test part.  For a fraction the test part has
    [ceil(test_size * n_samples)] samples, the ceiling of the float
    product.  A number of samples asked for is taken as it is: the
    floats the code passes it through are exact below [2 ^ 53], more
    samples than a list can hold. *)
Definition validate_shuffle_split (n_samples : nat) (test_size : split_size)
  : result (nat * nat) :=
  let n := Z.of_nat n_samples in
  n_test ← match test_size with
           | SizeInt k =>
               if (n <=? k)%Z || (k <=? 0)%Z then Raise ValueError else Ok k
           | SizeFloat q =>
               let test_size := binary64_round q in
               if Qle_bool test_size 0 || Qle_bool 1 test_size
               then Raise ValueError
               else
                 n_float ← float_of_int n;
                 Ok (Qceiling (binary64_round (test_size * n_float)))
           end;
  let n_train := (n - n_test)%Z in
  if (n_train =? 0)%Z then Raise ValueError
  else Ok (Z.to_nat n_train, Z.to_nat n_test).

(** [[xs[i] for i in indices]] *)
Definition safe_indexing {A} (xs : list A) (indices : list nat) : result (list A) :=
  mapR (λ i, match xs !! i with
             | Some x => Ok x
             | None => Raise IndexError
             end) indices.

(** [s.split('.')[0]]: the part of [s] before its first dot. *)
Fixpoint split_dot_head (s : string) : string :=
  match s with
  | EmptyString => EmptyString
  | String c s' =>
      if bool_decide (c = "."%char) then EmptyString
      else String c (split_dot_head s')
  end.

(** [l.remove(x)]: the first occurrence of [x] goes. *)
Fixpoint list_remove (x : string) (l : list string) : list string :=
  match l with
  | [] => []
  | y :: l' => if bool_decide (y = x) then l' else y :: list_remove x l'
  end.

(** ** The missing window function and sample library instances *)

(** Modelled from the spec: [window_image] of the [preprocessing] module,
    which is not among the sources.  Section 4.1 of the specification:
    the raw intensity is rescaled with slope and intercept, clamped to
    [center - width/2, center + width/2] and mapped linearly onto
    [0, 1]. *)
Definition spec_window_image (image : tensor2) (window : Z * Z)
    (intercept slope : Z) : tensor2 :=
  let '(center, width) := window in
  let half := fdiv (float_of_Z width) (Fin 2) in
  let low := fsub (float_of_Z center) half in
  let high := fadd (float_of_Z center) half in
  map (map (λ x,
         let hu := fadd (fmul x (float_of_Z slope)) (float_of_Z intercept) in
         let clipped := fmax low (fmin high hu) in
         fdiv (fsub clipped low) (fsub high low))) image.

Definition get2 (m : tensor2) (i j : nat) : float :=
  default NaN (r ← m !! i; r !! j).

Definition build2 (a b : nat) (f : nat → nat → float) : tensor2 :=
  map (λ i, map (λ j, f i j) (seq 0 b)) (seq 0 a).

(** [m] has [a] rows of [b] entries. *)
Definition rect2 (a b : nat) (m : tensor2) : Prop :=
  length m = a ∧ Forall (λ r, length r = b) m.

(** [t] has [a] planes of [b] rows of [c] entries. *)
Definition rect3 (a b c : nat) (t : tensor3) : Prop :=
  length t = a ∧ Forall (rect2 b c) t.

(** A sample plane rotation: a quarter turn counter-clockwise of a
    square plane; any other plane, and any other angle, is left as it
    is. *)
Definition sample_rotate_plane (angle : Z) (m : tensor2) : tensor2 :=
  let n := length m in
  if (angle =? 90)%Z && forallb (λ r, Nat.eqb (length r) n) m
  then build2 n n (λ i j, get2 m j (n - 1 - i))
  else m.

Definition sample_rotate (t : tensor3) (angle : Z) : tensor3 :=
  map (sample_rotate_plane angle) t.

(** A sample reader of numbers: unsigned decimal integers. *)
Fixpoint digits_value (s : string) (acc : Z) : option Z :=
  match s with
  | EmptyString => Some acc
  | String c s' =>
      let d := Z.of_nat (nat_of_ascii c) - 48 in
      if (0 <=? d) && (d <=? 9) then digits_value s' (10 * acc + d) else None
  end%Z.

Definition sample_float_of_string (s : string) : result float :=
  match s with
  | EmptyString => Raise ValueError
  | _ => match digits_value s 0 with
         | Some z => Ok (float_of_Z z)
         | None => Raise ValueError
         end
  end.

(** A sample shuffle: the indices rotated by the seed. *)
Definition sample_permutation (seed : Z) (n : nat) : list nat :=
  let k := Z.to_nat (seed mod Z.of_nat (S n)) in
  (drop k (seq 0 n) ++ take k (seq 0 n))%list.

Section Program.

(** [rotate] of [torchvision.transforms.functional]. *)
Variable rotate : tensor3 → Z → tensor3.

(** [window_image] of the [preprocessing] module. *)
Variable window_image : tensor2 → Z * Z → Z → Z → tensor2.

(** [float(s)] on a string. *)
Variable float_of_string : string → result float.

(** [numpy.random.RandomState(seed).permutation(n)] *)
Variable rng_permutation : Z → nat → list nat.

Definition _read_image_3d (fs : filesystem) (file_path : option string)
    (do_rotate : bool) : result tensor3 :=
  match file_path with
  | None => Raise (AssertionError "file path is needed")
  | Some path =>
      if isfile fs path then
        image ← nibabel_load fs path;
        if do_rotate
        then Ok (permute (rotate (permute image 2 0 1) 90) 1 2 0)
        else Ok image
      else Raise (AssertionError "wrong file path")
  end.

(** ** Window stacking *)

Definition _get_image_windows (image : tensor2) (windows : list (Z * Z))
    (intercept slope : Z) : result tensor3 :=
  let window_images :=
    map (λ window, window_image image window intercept slope) windows in
  torch_stack window_images.

(** ** The RSNA dataset adapter *)

Record RSNAICHDataset : Type := {
  rsna_train_dir : string;
  rsna_filenames : list string;
  rsna_labels : list (list float);
  rsna_transform : option (tensor3 → tensor3);
  rsna_windows : option (list (Z * Z))
}.

Definition RSNAICHDataset_init (root_dir : string) (filenames : list string)
    (labels : list (list float)) (windows : option (list (Z * Z)))
    (transform : option (tensor3 → tensor3)) : RSNAICHDataset :=
  {| rsna_train_dir := path_join root_dir "stage_2_train";
     rsna_filenames := filenames;
     rsna_labels := labels;
     rsna_transform := transform;
     rsna_windows := windows |}.

Definition RSNAICHDataset_len (self : RSNAICHDataset) : nat :=
  length (rsna_filenames self).

Definition RSNAICHDataset_getitem (self : RSNAICHDataset) (fs : filesystem)
    (item : Z) : result (tensor3 * list float) :=
  filename ← py_getitem (rsna_filenames self) item;
  let image_path := path_join (rsna_train_dir self) filename in
  '(image, default_window_params) ← _read_image_2d fs (Some image_path);
  match default_window_params with
  | [window_center; window_width; window_intercept; window_slope] =>
      label ← py_getitem (rsna_labels self) item;
      default_window ← _get_image_windows image
                         [(window_center, window_width)]
                         window_intercept window_slope;
      image ← match rsna_windows self with
              | Some windows =>
                  caller ← _get_image_windows image windows
                             window_intercept window_slope;
                  torch_cat [default_window; caller]
              | None => Ok default_window
              end;
      match rsna_transform self with
      | Some transform => Ok (transform image, label)
      | None => Ok (image, label)
      end
  | _ => Raise ValueError
  end.

(** ** The PhysioNet dataset adapter *)

Record PhysioNetICHDataset : Type := {
  physio_scans_dir : string;
  physio_masks_dir : string;
  physio_filenames : list string;
  physio_slices : list tensor2;
  physio_scans_num_slices : list nat;
  physio_masks : list tensor2;
  physio_labels : list (list float);
  physio_transform : option (tensor3 → tensor3);
  physio_windows : option (list (Z * Z));
  physio_labels_path : string
}.

Definition PHYSIO_SUBTYPES : list string :=
  ["Epidural"; "Intraparenchymal"; "Intraventricular"; "Subarachnoid";
   "Subdural"; "No_Hemorrhage"].

(** [label[-1] = 1 - label[-1]] *)
Definition flip_last (label : list float) : list float :=
  match reverse label with
  | [] => []
  | x :: rest => reverse (fsub (Fin 1) x :: rest)
  end.

Definition read_label (row : gmap string (option string)) : result (list float) :=
  label ← mapR (λ subtype,
                  cell ← dict_getitem row subtype;
                  match cell with
                  | Some s => float_of_string s
                  | None => Raise TypeError
                  end) PHYSIO_SUBTYPES;
  Ok (flip_last label).

(** One round of the loop over the scan files: the scan and its mask
    are read, then cut into slices along the last axis. *)
Definition read_scan_file (scans_dir masks_dir : string) (fs : filesystem)
    (acc : list tensor2 * list nat * list tensor2) (file : string)
  : result (list tensor2 * list nat * list tensor2) :=
  let '(slices, scans_num_slices, masks) := acc in
  scan ← _read_image_3d fs (Some (path_join scans_dir file)) true;
  mask ← _read_image_3d fs (Some (path_join masks_dir file)) true;
  let num_slices := size3 scan 2 in
  foldlR (λ (st : list tensor2 * list nat * list tensor2) (i : nat),
            let '(slices, nums, masks) := st in
            s ← index_last scan i;
            m ← index_last mask i;
            Ok ((slices ++ [s])%list, nums, (masks ++ [m])%list))
         (slices, (scans_num_slices ++ [num_slices])%list, masks)
         (seq 0 num_slices).

Definition read_dataset (self : PhysioNetICHDataset) (fs : filesystem)
  : result PhysioNetICHDataset :=
  rows ← csv_rows fs (physio_labels_path self);
  labels ← mapR read_label (csv_DictReader rows);
  '(slices, nums, masks) ←
    foldlR (read_scan_file (physio_scans_dir self) (physio_masks_dir self) fs)
           (physio_slices self, physio_scans_num_slices self, physio_masks self)
           (physio_filenames self);
  Ok {| physio_scans_dir := physio_scans_dir self;
        physio_masks_dir := physio_masks_dir self;
        physio_filenames := physio_filenames self;
        physio_slices := slices;
        physio_scans_num_slices := nums;
        physio_masks := masks;
        physio_labels := (physio_labels self ++ labels)%list;
        physio_transform := physio_transform self;
        physio_windows := physio_windows self;
        physio_labels_path := physio_labels_path self |}.

Definition PhysioNetICHDataset_init (fs : filesystem) (root_dir : string)
    (windows : option (list (Z * Z))) (transform : option (tensor3 → tensor3))
  : result PhysioNetICHDataset :=
  let scans_dir := path_join root_dir "ct_scans" in
  filenames ← listdir fs scans_dir;
  read_dataset
    {| physio_scans_dir := scans_dir;
       physio_masks_dir := path_join root_dir "masks";
       physio_filenames := filenames;
       physio_slices := [];
       physio_scans_num_slices := [];
       physio_masks := [];
       physio_labels := [];
       physio_transform := transform;
       physio_windows := windows;
       physio_labels_path := path_join root_dir "hemorrhage_diagnosis_raw_ct.csv" |}
    fs.

Definition PhysioNetICHDataset_len (self : PhysioNetICHDataset) : nat :=
  length (physio_slices self).

(** The rescaling of a mask in [__getitem__]:
    [if mask.max() > 0: mask = (mask - mask.min()) / (mask.max() - mask.min())]. *)
Definition normalize_mask (mask : tensor2) : result tensor2 :=
  mx ← tensor_max mask;
  if flt (Fin 0) mx then
    lo ← tensor_min mask;
    hi ← tensor_max mask;
    lo' ← tensor_min mask;
    Ok (tensor_div_scalar (tensor_sub_scalar mask lo) (fsub hi lo'))
  else Ok mask.

Definition PhysioNetICHDataset_getitem (self : PhysioNetICHDataset) (item : Z)
  : result (tensor3 * anytensor * list float) :=
  image ← py_getitem (physio_slices self) item;
  mask ← py_getitem (physio_masks self) item;
  label ← py_getitem (physio_labels self) item;
  mask ← normalize_mask mask;
  default_window ← _get_image_windows image [(40, 120)%Z] 0 1;
  image ← match physio_windows self with
          | Some windows =>
              caller ← _get_image_windows image windows 0 1;
              torch_cat [default_window; caller]
          | None => Ok default_window
          end;
  match physio_transform self with
  | Some transform =>
      Ok (transform image, squeeze (transform (unsqueeze0 mask)), label)
  | None => Ok (image, T2 mask, label)
  end.

(** ** The split builder *)

Definition train_test_split (filenames : list string) (labels : list (list float))
    (test_size : split_size) (random_state : Z)
  : result (list string * list string * list (list float) * list (list float)) :=
  if bool_decide (length filenames = length labels) then
    '(n_train, n_test) ← validate_shuffle_split (length filenames) test_size;
    if (0 <=? random_state)%Z && (random_state <? 2 ^ 32)%Z then
      let permutation := rng_permutation random_state (length filenames) in
      let ind_test := take n_test permutation in
      let ind_train := take n_train (drop n_test permutation) in
      x_train ← safe_indexing filenames ind_train;
      x_test ← safe_indexing filenames ind_test;
      y_train ← safe_indexing labels ind_train;
      y_test ← safe_indexing labels ind_test;
      Ok (x_train, x_test, y_train, y_test)
    else Raise ValueError
  else Raise ValueError.

Definition RSNA_SUBTYPES : list string :=
  ["epidural"; "intraparenchymal"; "intraventricular"; "subarachnoid";
   "subdural"; "any"].

Definition corrupted_files : list string := ["ID_6431af929.dcm"].

(** The loop that drops the known-corrupted files from the listing. *)
Definition remove_corrupted (total_filenames : list string) : list string :=
  foldl (λ total corrupted_file,
           if bool_decide (corrupted_file ∈ total)
           then list_remove corrupted_file total else total)
        total_filenames corrupted_files.

(** The loop over the rows of the label table; the header is skipped. *)
Definition read_labels_dict (rows : list (list string)) : result (gmap string float) :=
  foldlR (λ (labels_dict : gmap string float) (row : list string),
            cell ← py_getitem row 1;
            value ← float_of_string cell;
            key ← py_getitem row 0;
            Ok (<[key := value]> labels_dict))
         ∅ (drop 1 rows).

Definition label_keys (filename : string) : list string :=
  map (λ x, split_dot_head filename ++ "_" ++ x) RSNA_SUBTYPES.

(** The loop that collects the six labels of every file. *)
Definition collect_labels (labels_dict : gmap string float)
    (total_filenames : list string) : result (list (list float)) :=
  mapR (λ filename, mapR (dict_getitem labels_dict) (label_keys filename))
       total_filenames.

Definition rsna_train_valid_split (root_dir : string)
    (validation_size : split_size) (random_state : Z) (override : bool)
  : io (pyobj * pyobj * pyobj * pyobj) :=
  let train_file_split := "train_file_split" in
  let validation_file_split := "validation_file_split" in
  let train_label_split := "train_label_split" in
  let validation_label_split := "validation_label_split" in
  cached ← and_then (os_path_isfile (path_join root_dir train_file_split))
           (and_then (os_path_isfile (path_join root_dir validation_file_split))
           (and_then (os_path_isfile (path_join root_dir train_label_split))
           (and_then (os_path_isfile (path_join root_dir validation_label_split))
                     (mret (negb override)))));
  if cached : bool then
    tf ← pickle_load (path_join root_dir train_file_split);
    tl ← pickle_load (path_join root_dir train_label_split);
    vf ← pickle_load (path_join root_dir validation_file_split);
    vl ← pickle_load (path_join root_dir validation_label_split);
    mret (tf, tl, vf, vl)
  else
    let labels_path := path_join root_dir "stage_2_train.csv" in
    let train_path := path_join root_dir "stage_2_train" in
    total_filenames ← os_listdir train_path;
    let total_filenames := remove_corrupted total_filenames in
    rows ← open_csv labels_path;
    labels_dict ← io_lift (read_labels_dict rows);
    labels ← io_lift (collect_labels labels_dict total_filenames);
    '(train_filenames, validation_filenames, train_labels, validation_labels) ←
      io_lift (train_test_split total_filenames labels validation_size random_state);
    _ ← pickle_dump (PyStrList train_filenames) root_dir train_file_split;
    _ ← pickle_dump (PyArray train_labels) root_dir train_label_split;
    _ ← pickle_dump (PyStrList validation_filenames) root_dir validation_file_split;
    _ ← pickle_dump (PyArray validation_labels) root_dir validation_label_split;
    mret (PyStrList train_filenames, PyArray train_labels,
          PyStrList validation_filenames, PyArray validation_labels).

(** Whether the builder finds the persisted split and may use it. *)
Definition split_is_cached (fs : filesystem) (root_dir : string)
    (override : bool) : bool :=
  isfile fs (path_join root_dir "train_file_split")
  && isfile fs (path_join root_dir "validation_file_split")
  && isfile fs (path_join root_dir "train_label_split")
  && isfile fs (path_join root_dir "validation_label_split")
  && negb override.

(** What the builder computes when it builds the split anew, as a
    function of the file system it starts from. *)
Definition rebuild_value (fs : filesystem) (root_dir : string)
    (validation_size : split_size) (random_state : Z)
  : result (list string * list string * list (list float) * list (list float)) :=
  total_filenames ← listdir fs (path_join root_dir "stage_2_train");
  rows ← csv_rows fs (path_join root_dir "stage_2_train.csv");
  labels_dict ← read_labels_dict rows;
  labels ← collect_labels labels_dict (remove_corrupted total_filenames);
  train_test_split (remove_corrupted total_filenames) labels
                   validation_size random_state.

End Program.

(** ** Batch collation

    A collate function receives the samples of the adapter it is named
    after: pairs of an image and a label tensor from the RSNA adapter,
    triples of an image, a mask and a label from the PhysioNet adapter.
    It returns the list [[data, target]], here a pair.
    [physio_collate_image_label], which stacks the third components, is
    left out: what it does depends on whether they are tensors or numpy
    arrays, which the embedding does not tell apart. *)

(** The sizes of a tensor of any rank. *)
Definition any_shape (t : anytensor) : list nat :=
  match t with
  | T0 _ => []
  | T1 v => [length v]
  | T2 m => [(shape2 m).1; (shape2 m).2]
  | T3 t => [length t; (chan_shape t).1; (chan_shape t).2]
  end.

(** [torch.stack(tensors)] for tensors whose sizes [shape] reads off:
    the list must not be empty and every tensor must have the sizes of
    the first. *)
Definition torch_stack_by {T S : Type} `{EqDecision S} (shape : T → S)
    (ts : list T) : result (list T) :=
  match ts with
  | [] => Raise (RuntimeError "stack expects a non-empty TensorList")
  | t :: rest =>
      if forallb (λ u, bool_decide (shape u = shape t)) rest
      then Ok ts
      else Raise (RuntimeError "stack expects each tensor to be equal size")
  end.

(** [target[:, -1:]] and [target[:, :-1]] on a rank-2 tensor. *)
Definition last_column (target : tensor2) : tensor2 :=
  map (λ row, drop (length row - 1) row) target.

Definition but_last_column (target : tensor2) : tensor2 :=
  map (λ row, take (length row - 1) row) target.

Definition physio_collate_image_mask
    (batch : list (tensor3 * anytensor * list float))
  : result (list tensor3 * list anytensor) :=
  data ← torch_stack_by shape3 (map (λ item, item.1.1) batch);
  mask ← torch_stack_by any_shape (map (λ item, item.1.2) batch);
  Ok (data, mask).

Definition rsna_collate_binary_label (batch : list (tensor3 * list float))
  : result (list tensor3 * tensor2) :=
  data ← torch_stack_by shape3 (map (λ item, item.1) batch);
  target ← torch_stack_by length (map (λ item, item.2) batch);
  let target := last_column target in
  Ok (data, target).

Definition rsna_collate_subtypes_label (batch : list (tensor3 * list float))
  : result (list tensor3 * tensor2) :=
  data ← torch_stack_by shape3 (map (λ item, item.1) batch);
  target ← torch_stack_by length (map (λ item, item.2) batch);
  let target := but_last_column target in
  Ok (data, target).

(** ** The vocabulary of the specification *)

(** The specification names its failures abstractly.  A missing input
    file is the failed assertion of the readers. *)
Definition NotFoundError : exn := AssertionError "wrong file path".

(** A file without labels is the failed lookup in the label
    dictionary. *)
Definition is_MissingLabelError (e : exn) : bool :=
  match e with
  | KeyError _ => true
  | _ => false
  end.

(** The calibration scalar in the words of the specification: of a
    multi-value sequence the first entry, of a single value the value
    itself, converted to an integer. *)
Definition calibration_scalar (v : dicom_value) : result Z :=
  match v with
  | MultiValue (first :: _) => py_int first
  | MultiValue [] => Raise IndexError
  | Single x => py_int x
  end.

(** ** Sample data *)

Definition sample_dicom : dicom :=
  {| elements :=
       <[("0028", "1050") := MultiValue [PyFloat (Fin (inject_Z 40)); PyFloat (Fin (inject_Z 36))]]>
       (<[("0028", "1051") := Single (PyFloat (Fin (inject_Z 80)))]>
       (<[("0028", "1052") := Single (PyInt (-1024))]>
       (<[("0028", "1053") := Single (PyInt 1)]> ∅)));
     pixel_array := [[1000; 1040]; [1064; 1104]]%Z |}.

Definition sample_label_rows : list (list string) :=
  ["ID"; "Label"]
  :: flat_map (λ id, map (λ x, [id ++ "_" ++ x; if bool_decide (x = "any") then "1" else "0"])
                         ["epidural"; "intraparenchymal"; "intraventricular";
                          "subarachnoid"; "subdural"; "any"])
              ["ID_a"; "ID_b"; "ID_c"].

(** A root directory holding three good slices, the known-corrupted one
    and the label table. *)
Definition sample_fs : filesystem :=
  {| files :=
       <["data/stage_2_train/ID_a.dcm" := DicomFile sample_dicom]>
       (<["data/stage_2_train/ID_6431af929.dcm" := DicomFile sample_dicom]>
       (<["data/stage_2_train/ID_b.dcm" := DicomFile sample_dicom]>
       (<["data/stage_2_train/ID_c.dcm" := DicomFile sample_dicom]>
       (<["data/stage_2_train.csv" := CsvFile sample_label_rows]> ∅))));
     dirs :=
       <["data" := ["stage_2_train"; "stage_2_train.csv"]]>
       (<["data/stage_2_train" :=
            ["ID_a.dcm"; "ID_6431af929.dcm"; "ID_b.dcm"; "ID_c.dcm"]]> ∅) |}.

Definition sample_world : world := {| w_fs := sample_fs; w_log := [] |}.

Definition sample_labels : list (list float) :=
  [[Fin 0; Fin 0; Fin 0; Fin 0; Fin 0; Fin 1];
   [Fin 0; Fin 0; Fin 0; Fin 0; Fin 0; Fin 1]].

Definition sample_rsna (windows : option (list (Z * Z))) : RSNAICHDataset :=
  RSNAICHDataset_init "data" ["ID_a.dcm"; "ID_b.dcm"] sample_labels windows None.

Definition sample_scan : tensor3 :=
  [[[Fin 1; Fin 2]; [Fin 3; Fin 4]];
   [[Fin 5; Fin 6]; [Fin 7; Fin 8]]].

Definition sample_mask : tensor3 :=
  [[[Fin 0; Fin 0]; [Fin 0; Fin (inject_Z 255)]];
   [[Fin 0; Fin 0]; [Fin (inject_Z 255); Fin 0]]].

(** A PhysioNet root with one scan of two slices and its mask. *)
Definition sample_physio_fs : filesystem :=
  {| files :=
       <["phys/ct_scans/049.nii" := NiftiFile sample_scan]>
       (<["phys/masks/049.nii" := NiftiFile sample_mask]>
       (<["phys/hemorrhage_diagnosis_raw_ct.csv" :=
            CsvFile [["PatientNumber"; "SliceNumber"; "Intraventricular";
                      "Intraparenchymal"; "Subarachnoid"; "Epidural";
                      "Subdural"; "No_Hemorrhage"];
                     ["49"; "1"; "0"; "1"; "0"; "0"; "0"; "0"];
                     ["49"; "2"; "0"; "0"; "0"; "0"; "0"; "1"]]]> ∅));
     dirs :=
       <["phys/ct_scans" := ["049.nii"]]> (<["phys/masks" := ["049.nii"]]> ∅) |}.

(** A PhysioNet adapter holding two slices: one with a mask of two
    values, one with a mask that is constant and positive. *)
Definition sample_physio : PhysioNetICHDataset :=
  {| physio_scans_dir := "phys/ct_scans";
     physio_masks_dir := "phys/masks";
     physio_filenames := ["049.nii"];
     physio_slices := [[[Fin 1; Fin 2]; [Fin 3; Fin 4]];
                       [[Fin 5; Fin 6]; [Fin 7; Fin 8]]];
     physio_scans_num_slices := [2];
     physio_masks := [[[Fin 0; Fin (inject_Z 255)]; [Fin 0; Fin 0]];
                      [[Fin 1; Fin 1]; [Fin 1; Fin 1]]];
     physio_labels := [[Fin 0; Fin 1; Fin 0; Fin 0; Fin 0; Fin 1];
                       [Fin 0; Fin 0; Fin 0; Fin 0; Fin 0; Fin 0]];
     physio_transform := None;
     physio_windows := None;
     physio_labels_path := "phys/hemorrhage_diagnosis_raw_ct.csv" |}.

(** The label dictionary read from the sample table. *)
Definition sample_labels_dict : gmap string float :=
  match read_labels_dict sample_float_of_string sample_label_rows with
  | Ok labels_dict => labels_dict
  | Raise _ => ∅
  end.

(** The sample root after a first forced build of the split. *)
Definition sample_cached_world : world :=
  (run (rsna_train_valid_split sample_float_of_string sample_permutation
          "data" (SizeFloat (1 # 3)) 42 true) sample_world).2.

(** The sample root with the labels of one slice missing from the
    table. *)
Definition sample_world_missing_label : world :=
  {| w_fs := {| files := <["data/stage_2_train.csv" :=
                             CsvFile (take 13 sample_label_rows)]>
                         (files sample_fs);
                dirs := dirs sample_fs |};
     w_log := [] |}.

(** The sample root with a single usable slice beside the
    known-corrupted one. *)
Definition sample_world_one_file : world :=
  {| w_fs := {| files := files sample_fs;
                dirs := <["data/stage_2_train" :=
                            ["ID_a.dcm"; "ID_6431af929.dcm"]]> (dirs sample_fs) |};
     w_log := [] |}.

(** A slice without its window width, and one whose window center is
    stored with no value. *)
Definition sample_dicom_no_width : dicom :=
  {| elements := delete ("0028", "1051") (elements sample_dicom);
     pixel_array := pixel_array sample_dicom |}.

Definition sample_dicom_empty_center : dicom :=
  {| elements := <[("0028", "1050") := MultiValue []]> (elements sample_dicom);
     pixel_array := pixel_array sample_dicom |}.

Definition sample_fs_bad_dicoms : filesystem :=
  {| files := <["data/stage_2_train/ID_a.dcm" := DicomFile sample_dicom_no_width]>
              (<["data/stage_2_train/ID_b.dcm" := DicomFile sample_dicom_empty_center]> ∅);
     dirs := dirs sample_fs |}.

(** The PhysioNet sample with caller windows and labels of choice. *)
Definition sample_physio_of (windows : option (list (Z * Z)))
    (labels : list (list float)) : PhysioNetICHDataset :=
  {| physio_scans_dir := physio_scans_dir sample_physio;
     physio_masks_dir := physio_masks_dir sample_physio;
     physio_filenames := physio_filenames sample_physio;
     physio_slices := physio_slices sample_physio;
     physio_scans_num_slices := physio_scans_num_slices sample_physio;
     physio_masks := physio_masks sample_physio;
     physio_labels := labels;
     physio_transform := None;
     physio_windows := windows;
     physio_labels_path := physio_labels_path sample_physio |}.

(** A PhysioNet root whose mask has one slice where the scan has two. *)
Definition sample_physio_fs_short_mask : filesystem :=
  {| files := <["phys/masks/049.nii" :=
                  NiftiFile [[[Fin 0]; [Fin 0]]; [[Fin 0]; [Fin 1]]]]>
              (files sample_physio_fs);
     dirs := dirs sample_physio_fs |}.

(** A row of the PhysioNet table as the dictionary reader hands it
    over. *)
Definition sample_physio_row : gmap string (option string) :=
  list_to_map [("PatientNumber", Some "49"); ("SliceNumber", Some "1");
               ("Intraventricular", Some "0"); ("Intraparenchymal", Some "1");
               ("Subarachnoid", Some "0"); ("Epidural", Some "0");
               ("Subdural", Some "0"); ("No_Hemorrhage", Some "0")].

(** Two samples of the RSNA adapter. *)
Definition sample_rsna_batch : list (tensor3 * list float) :=
  [([[[Fin 0; Fin 1]; [Fin 1; Fin 0]]], [Fin 0; Fin 1; Fin 0; Fin 0; Fin 0; Fin 1]);
   ([[[Fin 1; Fin 1]; [Fin 0; Fin 0]]], [Fin 0; Fin 0; Fin 0; Fin 0; Fin 0; Fin 0])].

(** * Properties *)

Section Properties.

Variable rotate : tensor3 → Z → tensor3.
Variable window_image : tensor2 → Z * Z → Z → Z → tensor2.
Variable float_of_string : string → result float.
Variable rng_permutation : Z → nat → list nat.

(** ** Reasoning about results *)

Lemma bind_Ok_inv {A B} (m : result A) (f : A → result B) (b : B) :
  m ≫= f = Ok b → ∃ a, m = Ok a ∧ f a = Ok b.
Proof. destruct m as [a|e]; simpl; [eauto | discriminate]. Qed.

Lemma bind_Ok {A B} (a : A) (f : A → result B) : Ok a ≫= f = f a.
Proof. reflexivity. Qed.

Ltac inv_bind H :=
  let a := fresh "a" in
  let Ha := fresh "Ha" in
  apply bind_Ok_inv in H; destruct H as (a & Ha & H).

Lemma mapR_length {A B} (f : A → result B) (xs : list A) (ys : list B) :
  mapR f xs = Ok ys → length ys = length xs.
Proof.
  revert ys. induction xs as [|x xs IH]; intros ys H; simpl in H.
  - by inversion H.
  - inv_bind H. inv_bind H. inversion H; subst. simpl. f_equal. by apply IH.
Qed.

(** ** Window stacking (C1, C2) *)

(** The window function returns an image of the shape of its input. *)
Hypothesis window_image_shape : ∀ image window intercept slope,
  shape2 (window_image image window intercept slope) = shape2 image.

Lemma torch_stack_same_shape (t : tensor2) (ts : list tensor2) :
  Forall (λ u, shape2 u = shape2 t) ts → torch_stack (t :: ts) = Ok (t :: ts).
Proof.
  intros H. unfold torch_stack.
  replace (forallb _ ts) with true; [done|].
  symmetry. apply forallb_forall. intros u Hu.
  apply bool_decide_eq_true. rewrite Forall_forall in H.
  apply H. by apply list_elem_of_In.
Qed.

Lemma get_image_windows_nonempty image windows intercept slope :
  windows ≠ [] →
  _get_image_windows window_image image windows intercept slope
  = Ok (map (λ window, window_image image window intercept slope) windows).
Proof using window_image_shape.
  intros Hne. unfold _get_image_windows.
  destruct windows as [|w ws]; [done|]. simpl map.
  apply torch_stack_same_shape. apply Forall_forall.
  intros u Hu. apply list_elem_of_In, in_map_iff in Hu.
  destruct Hu as (w' & <- & _). by rewrite !window_image_shape.
Qed.

Lemma get_image_windows_empty image intercept slope :
  _get_image_windows window_image image [] intercept slope
  = Raise (RuntimeError "stack expects a non-empty TensorList").
Proof. reflexivity. Qed.

Lemma cat_default_and_caller raw wc ww wi ws windows :
  windows ≠ [] →
  torch_cat [[window_image raw (wc, ww) wi ws];
             map (λ window, window_image raw window wi ws) windows]
  = Ok (window_image raw (wc, ww) wi ws
        :: map (λ window, window_image raw window wi ws) windows).
Proof using window_image_shape.
  intros Hne. destruct windows as [|w rest]; [done|].
  unfold torch_cat. simpl forallb.
  rewrite !window_image_shape, bool_decide_eq_true_2 by done.
  simpl. by rewrite app_nil_r.
Qed.

Lemma read_image_2d_params fs path raw params :
  _read_image_2d fs path = Ok (raw, params) →
  ∃ wc ww wi ws, params = [wc; ww; wi; ws].
Proof.
  unfold _read_image_2d. destruct path as [path|]; [|discriminate].
  destruct (isfile fs path); [|discriminate].
  intros H. inv_bind H. inv_bind H. inversion H; subst. clear H.
  unfold _get_windowing in Ha0.
  do 4 inv_bind Ha0. apply mapR_length in Ha0.
  destruct params as [|wc [|ww [|wi [|ws [|? ?]]]]]; try discriminate.
  eauto.
Qed.

(** A run of the adapter's indexed access, step by step. *)
Lemma rsna_getitem_steps (self : RSNAICHDataset) (fs : filesystem) (item : Z)
    (image : tensor3) (label : list float) :
  RSNAICHDataset_getitem window_image self fs item = Ok (image, label) ↔
  ∃ filename raw wc ww wi ws channels,
    py_getitem (rsna_filenames self) item = Ok filename ∧
    _read_image_2d fs (Some (path_join (rsna_train_dir self) filename))
    = Ok (raw, [wc; ww; wi; ws]) ∧
    py_getitem (rsna_labels self) item = Ok label ∧
    (default_window ← _get_image_windows window_image raw [(wc, ww)] wi ws;
     match rsna_windows self with
     | Some windows =>
         caller ← _get_image_windows window_image raw windows wi ws;
         torch_cat [default_window; caller]
     | None => Ok default_window
     end) = Ok channels ∧
    image = match rsna_transform self with
            | Some transform => transform channels
            | None => channels
            end.
Proof.
  unfold RSNAICHDataset_getitem. split.
  - intros H. inv_bind H. rename a into filename.
    inv_bind H. destruct a as [raw params].
    destruct (read_image_2d_params _ _ _ _ Ha0) as (wc & ww & wi & ws & ->).
    inv_bind H. inv_bind H. inv_bind H.
    exists filename, raw, wc, ww, wi, ws, a1.
    split; [done|]. split; [done|].
    assert (a = label ∧ image = match rsna_transform self with
                                | Some transform => transform a1
                                | None => a1
                                end) as [-> ->]
      by (destruct (rsna_transform self); by inversion H).
    split; [done|]. split; [|done]. by rewrite Ha2, bind_Ok.
  - intros (filename & raw & wc & ww & wi & ws & channels
            & Hname & Hread & Hlabel & Hchan & ->).
    rewrite Hname, bind_Ok, Hread, bind_Ok, Hlabel, bind_Ok.
    inv_bind Hchan. rewrite Ha, bind_Ok, Hchan, bind_Ok.
    by destruct (rsna_transform self).
Qed.

(** C2: the RSNA adapter built with a non-empty list of [n] caller
    windows returns a sample exactly when the file name, the image and
    the label are there, and the sample then carries, before the
    optional transform, exactly [1 + n] channels: the default window of
    the image's own calibration first, then one channel per caller
    window in the order requested. *)
Theorem getitem_default_then_caller_windows
    (self : RSNAICHDataset) (fs : filesystem) (item : Z)
    (windows : list (Z * Z)) (image : tensor3) (label : list float) :
  rsna_windows self = Some windows →
  windows ≠ [] →
  RSNAICHDataset_getitem window_image self fs item = Ok (image, label) ↔
  ∃ filename raw wc ww wi ws,
    py_getitem (rsna_filenames self) item = Ok filename ∧
    _read_image_2d fs (Some (path_join (rsna_train_dir self) filename))
    = Ok (raw, [wc; ww; wi; ws]) ∧
    py_getitem (rsna_labels self) item = Ok label ∧
    let channels :=
      window_image raw (wc, ww) wi ws
      :: map (λ window, window_image raw window wi ws) windows in
    length channels = 1 + length windows ∧
    image = match rsna_transform self with
            | Some transform => transform channels
            | None => channels
            end.
Proof using window_image_shape.
  intros Hw Hne. rewrite rsna_getitem_steps, Hw.
  assert (∀ raw wc ww wi ws,
            (default_window ← _get_image_windows window_image raw [(wc, ww)] wi ws;
             caller ← _get_image_windows window_image raw windows wi ws;
             torch_cat [default_window; caller])
            = Ok (window_image raw (wc, ww) wi ws
                  :: map (λ window, window_image raw window wi ws) windows))
    as Hchannels.
  { intros raw wc ww wi ws.
    rewrite !get_image_windows_nonempty, !bind_Ok by done.
    by apply cat_default_and_caller. }
  split.
  - intros (filename & raw & wc & ww & wi & ws & channels
            & Hname & Hread & Hlabel & Hchan & ->).
    rewrite Hchannels in Hchan. inversion Hchan; subst channels.
    exists filename, raw, wc, ww, wi, ws.
    split; [done|]. split; [done|]. split; [done|].
    simpl. by rewrite length_map.
  - intros (filename & raw & wc & ww & wi & ws
            & Hname & Hread & Hlabel & _ & ->).
    eexists filename, raw, wc, ww, wi, ws, _.
    split; [done|]. split; [done|]. split; [done|].
    split; [apply Hchannels|done].
Qed.

(** C1 (amended): given no caller windows ([windows] is [None]) the
    adapter returns a sample exactly when the file name, the image and
    the label are there, and the sample's tensor is then, before the
    optional transform, the default window of the image's own
    calibration alone, so it has exactly one channel; an empty list of
    windows is not stacked: [torch.stack] rejects it. *)
Theorem getitem_without_caller_windows
    (self : RSNAICHDataset) (fs : filesystem) (item : Z)
    (image : tensor3) (label : list float) :
  rsna_windows self = None →
  (RSNAICHDataset_getitem window_image self fs item = Ok (image, label) ↔
   ∃ filename raw wc ww wi ws,
     py_getitem (rsna_filenames self) item = Ok filename ∧
     _read_image_2d fs (Some (path_join (rsna_train_dir self) filename))
     = Ok (raw, [wc; ww; wi; ws]) ∧
     py_getitem (rsna_labels self) item = Ok label ∧
     let channels := [window_image raw (wc, ww) wi ws] in
     length channels = 1 ∧
     image = match rsna_transform self with
             | Some transform => transform channels
             | None => channels
             end) ∧
  (∀ raw intercept slope,
     _get_image_windows window_image raw [] intercept slope
     = Raise (RuntimeError "stack expects a non-empty TensorList")).
Proof.
  intros Hw. split; [|done]. rewrite rsna_getitem_steps, Hw. split.
  - intros (filename & raw & wc & ww & wi & ws & channels
            & Hname & Hread & Hlabel & Hchan & ->).
    inversion Hchan; subst channels.
    by exists filename, raw, wc, ww, wi, ws.
  - intros (filename & raw & wc & ww & wi & ws
            & Hname & Hread & Hlabel & _ & ->).
    by eexists filename, raw, wc, ww, wi, ws, _.
Qed.

(** ** The readers (C7, C8) *)

Lemma get_first_refines v :
  _get_first_of_dicom_field_as_int v = calibration_scalar v.
Proof. by destruct v as [x|[|x vs]]. Qed.

Lemma py_int_not_assertion x msg : py_int x ≠ Raise (AssertionError msg).
Proof. by destruct x as [z|[q| | |]|]. Qed.

(** What the reader converts is what the specification converts,
    whenever the latter is defined. *)
Lemma get_first_read_value v z :
  calibration_scalar v = Ok z →
  _get_first_of_dicom_field_as_int (read_value v) = Ok z.
Proof. by destruct v as [x|[|x [|y vs]]]. Qed.

Lemma calibration_scalar_not_assertion v msg :
  calibration_scalar v ≠ Raise (AssertionError msg).
Proof. destruct v as [x|[|x vs]]; simpl; [|done|]; apply py_int_not_assertion. Qed.

Lemma mapR_not_assertion {A B} (f : A → result B) (xs : list A) msg :
  (∀ x, f x ≠ Raise (AssertionError msg)) →
  mapR f xs ≠ Raise (AssertionError msg).
Proof.
  intros Hf. induction xs as [|x xs IH]; simpl; [done|].
  specialize (Hf x). destruct (f x) as [y|e]; simpl; [|congruence].
  destruct (mapR f xs) as [ys|e]; simpl; [done|congruence].
Qed.

Lemma get_windowing_not_assertion data msg :
  _get_windowing data ≠ Raise (AssertionError msg).
Proof.
  unfold _get_windowing, dicom_field.
  destruct (elements data !! ("0028", "1050")) as [c|]; simpl; [|done].
  destruct (elements data !! ("0028", "1051")) as [w|]; simpl; [|done].
  destruct (elements data !! ("0028", "1052")) as [i|]; simpl; [|done].
  destruct (elements data !! ("0028", "1053")) as [s|]; simpl; [|done].
  change (mapR _get_first_of_dicom_field_as_int [c; w; i; s]
          ≠ Raise (AssertionError msg)).
  apply mapR_not_assertion. intros v. rewrite get_first_refines.
  apply calibration_scalar_not_assertion.
Qed.

(** C7: each reader fails with [NotFoundError] exactly when its path
    does not reference an existing file: it raises it for every such
    path and for no path of an existing file. *)
Theorem readers_fail_with_not_found
    (fs : filesystem) (path : string) (do_rotate : bool) :
  (isfile fs path = false
   ↔ _read_image_2d fs (Some path) = Raise NotFoundError) ∧
  (isfile fs path = false
   ↔ _read_image_3d rotate fs (Some path) do_rotate = Raise NotFoundError).
Proof.
  unfold _read_image_2d, _read_image_3d, NotFoundError.
  destruct (isfile fs path); split; split; try done; intros H; exfalso.
  - unfold pydicom_read_file in H.
    destruct (files fs !! path) as [[d|v|rows|o]|]; try done.
    rewrite bind_Ok in H.
    match type of H with
    | context [_get_windowing ?d'] =>
        pose proof (get_windowing_not_assertion d' "wrong file path") as Hd;
        destruct (_get_windowing d'); [done|]
    end.
    simpl in H. congruence.
  - unfold nibabel_load in H.
    destruct (files fs !! path) as [[d|v|rows|o]|]; simpl in H; try done.
    by destruct do_rotate.
Qed.

(** C8: for each of the four calibration fields [_read_image_2d] reads
    (window center, window width, intercept, slope) the scalar handed
    back is the integer conversion of the first entry when the field is
    a multi-value sequence and of the value itself when it is a single
    value. *)
Theorem read_2d_calibration_scalars
    (fs : filesystem) (path : string) (data : dicom)
    (center width intercept slope : dicom_value) (zc zw zi zs : Z) :
  files fs !! path = Some (DicomFile data) →
  elements data !! ("0028", "1050") = Some center →
  elements data !! ("0028", "1051") = Some width →
  elements data !! ("0028", "1052") = Some intercept →
  elements data !! ("0028", "1053") = Some slope →
  calibration_scalar center = Ok zc →
  calibration_scalar width = Ok zw →
  calibration_scalar intercept = Ok zi →
  calibration_scalar slope = Ok zs →
  _read_image_2d fs (Some path)
  = Ok (map (map float_of_Z) (pixel_array data), [zc; zw; zi; zs]).
Proof.
  intros Hf Hc Hw Hi Hs Hzc Hzw Hzi Hzs.
  unfold _read_image_2d, isfile, pydicom_read_file.
  rewrite Hf, bool_decide_eq_true_2 by eauto. rewrite bind_Ok.
  unfold _get_windowing, dicom_field. cbn [elements pixel_array].
  rewrite !lookup_fmap, Hc, Hw, Hi, Hs. cbn [fmap option_fmap option_map].
  rewrite !bind_Ok. cbn [mapR].
  rewrite (get_first_read_value _ _ Hzc), (get_first_read_value _ _ Hzw),
    (get_first_read_value _ _ Hzi), (get_first_read_value _ _ Hzs).
  done.
Qed.

(** ** Mask rescaling *)

Lemma tensor_max_all_zero (mask : tensor2) (mx : float) :
  Forall (Forall (λ x, x = Fin 0)) mask →
  tensor_max mask = Ok mx → mx = Fin 0.
Proof.
  intros Hz Hmax.
  assert (Forall (λ x, x = Fin 0) (concat mask)) as Hc.
  { clear Hmax.
    induction Hz as [|r m Hr _ IH]; simpl; [constructor|by apply Forall_app]. }
  unfold tensor_max in Hmax. destruct (concat mask) as [|x xs]; [done|].
  apply Forall_cons in Hc as [-> Hc]. inversion Hmax; subst mx. clear Hmax.
  induction Hc as [|y ys -> _ IH]; simpl; [done|]. exact IH.
Qed.

Lemma tensor_min_defined (mask : tensor2) (mx : float) :
  tensor_max mask = Ok mx → ∃ lo, tensor_min mask = Ok lo.
Proof.
  unfold tensor_max, tensor_min. destruct (concat mask); [done|eauto].
Qed.

Lemma normalize_mask_cases (mask : tensor2) (mx : float) :
  tensor_max mask = Ok mx →
  ∃ m, normalize_mask mask = Ok m ∧
    (flt (Fin 0) mx = false → m = mask) ∧
    (Forall (Forall (λ x, x = Fin 0)) mask → m = mask) ∧
    (flt (Fin 0) mx = true →
     ∃ lo, tensor_min mask = Ok lo ∧
       m = tensor_div_scalar (tensor_sub_scalar mask lo) (fsub mx lo)).
Proof.
  intros Hmax. destruct (tensor_min_defined _ _ Hmax) as [lo Hmin].
  unfold normalize_mask. rewrite Hmax, bind_Ok.
  destruct (flt (Fin 0) mx) eqn:Hpos.
  - rewrite Hmin, !bind_Ok.
    eexists. split; [done|]. split; [done|]. split.
    + intros Hz. rewrite (tensor_max_all_zero _ _ Hz Hmax) in Hpos. done.
    + intros _. exists lo. done.
  - exists mask. done.
Qed.

(** The guard of the mask rescaling, as the code has it: the mask a
    sample of the PhysioNet adapter carries is rescaled as
    [(mask - min) / (max - min)] exactly when its maximum is strictly
    positive; otherwise, in particular when the mask is entirely zero,
    it goes out unchanged. *)
Lemma getitem_mask_rescaled_when_positive
    (self : PhysioNetICHDataset) (item : Z)
    (image : tensor3) (out_mask : anytensor) (label : list float) :
  PhysioNetICHDataset_getitem window_image self item
  = Ok (image, out_mask, label) →
  ∃ mask mx m,
    py_getitem (physio_masks self) item = Ok mask ∧
    tensor_max mask = Ok mx ∧
    normalize_mask mask = Ok m ∧
    out_mask = match physio_transform self with
               | Some transform => squeeze (transform (unsqueeze0 m))
               | None => T2 m
               end ∧
    (flt (Fin 0) mx = false → m = mask) ∧
    (Forall (Forall (λ x, x = Fin 0)) mask → m = mask) ∧
    (flt (Fin 0) mx = true →
     ∃ lo, tensor_min mask = Ok lo ∧
       m = tensor_div_scalar (tensor_sub_scalar mask lo) (fsub mx lo)).
Proof.
  intros H. unfold PhysioNetICHDataset_getitem in H.
  inv_bind H. inv_bind H. rename a0 into mask. inv_bind H. inv_bind H.
  rename a1 into m. inv_bind H. inv_bind H.
  assert (∃ mx, tensor_max mask = Ok mx) as [mx Hmax].
  { unfold normalize_mask in Ha2. destruct (tensor_max mask); [eauto|done]. }
  destruct (normalize_mask_cases _ _ Hmax) as (m' & Hm' & Hcases).
  rewrite Ha2 in Hm'. inversion Hm'; subst m'.
  exists mask, mx, m. split; [done|]. split; [done|]. split; [done|].
  split; [|exact Hcases].
  destruct (physio_transform self); by inversion H.
Qed.

(** ** The volumetric reader (C9) *)

Lemma map_seq_lookup {A B} (g : option A → B) (l : list A) :
  map (λ i, g (l !! i)) (seq 0 (length l)) = map (λ x, g (Some x)) l.
Proof.
  apply list_eq. intros i. rewrite !list_lookup_fmap.
  destruct (decide (i < length l)) as [Hlt|Hge].
  - rewrite lookup_seq_lt by done. simpl.
    destruct (lookup_lt_is_Some_2 l i Hlt) as [x Hx]. by rewrite Hx.
  - rewrite lookup_seq_ge by lia. by rewrite lookup_ge_None_2 by lia.
Qed.

Lemma build2_get2 (a b : nat) (m : tensor2) :
  rect2 a b m → build2 a b (get2 m) = m.
Proof.
  intros [<- Hrows]. unfold build2, get2.
  rewrite (map_seq_lookup
             (λ o, map (λ j, default NaN (o ≫= λ r, r !! j)) (seq 0 b)) m).
  transitivity (map id m); [|apply map_id]. apply map_ext_Forall.
  eapply Forall_impl; [exact Hrows|]. intros r <-. simpl.
  rewrite (map_seq_lookup (default NaN) r). simpl. apply map_id.
Qed.

Lemma slice_at_rect (h w d : nat) (v : tensor3) (k : nat) :
  rect3 h w d v → rect2 h w (slice_at v k).
Proof.
  intros [Hlen Hv]. unfold slice_at. split; [by rewrite length_map|].
  rewrite Forall_map. eapply Forall_impl; [exact Hv|].
  intros m [Hm _]. simpl. by rewrite length_map.
Qed.

Lemma build2_slice (h w d : nat) (v : tensor3) (k : nat) :
  rect3 h w d v → build2 h w (λ i j, get3 v i j k) = slice_at v k.
Proof.
  intros [<- Hv]. unfold build2, get3, slice_at.
  rewrite (map_seq_lookup
             (λ o, map (λ j, default NaN (o ≫= λ m, m !! j ≫= λ r, r !! k))
                       (seq 0 w)) v).
  apply map_ext_Forall. eapply Forall_impl; [exact Hv|].
  intros m [<- _]. simpl.
  by rewrite (map_seq_lookup (λ o, default NaN (o ≫= λ r, r !! k)) m).
Qed.

Lemma size3_rect (a b c : nat) (t : tensor3) :
  rect3 a b c t → 0 < a → 0 < b →
  size3 t 0 = a ∧ size3 t 1 = b ∧ size3 t 2 = c.
Proof.
  intros [Hlen Ht] Ha Hb. unfold size3.
  destruct t as [|m t]; simpl in *; [lia|].
  apply Forall_cons in Ht as [[Hm Hrows] _].
  destruct m as [|r m]; simpl in *; [lia|].
  apply Forall_cons in Hrows as [Hr _]. done.
Qed.

Lemma permute_201 (h w d : nat) (v : tensor3) :
  rect3 h w d v → 0 < h → 0 < w →
  permute v 2 0 1 = map (slice_at v) (seq 0 d).
Proof.
  intros Hv Hh Hw. unfold permute.
  destruct (size3_rect _ _ _ _ Hv Hh Hw) as (-> & -> & ->). simpl.
  unfold build3. apply map_ext. intros k.
  by apply (build2_slice h w d).
Qed.

Lemma build3_rect (a b c : nat) f : rect3 a b c (build3 a b c f).
Proof.
  unfold build3. split; [by rewrite length_map, length_seq|].
  rewrite Forall_map. apply Forall_forall. intros i _. simpl.
  split; [by rewrite length_map, length_seq|].
  rewrite Forall_map. apply Forall_forall. intros j _. simpl.
  by rewrite length_map, length_seq.
Qed.

Lemma slice_at_build3 (a b c : nat) f (k : nat) :
  k < c → slice_at (build3 a b c f) k = build2 a b (λ i j, f i j k).
Proof.
  intros Hk. unfold slice_at, build3, build2.
  rewrite map_map. apply map_ext. intros i.
  rewrite map_map. apply map_ext. intros j.
  by rewrite list_lookup_fmap, lookup_seq_lt.
Qed.

(** Cutting plane [k] off the last axis of [u.permute(1, 2, 0)] gives
    back plane [k] of [u]. *)
Lemma index_last_permute_120 (d h w : nat) (u : tensor3) (k : nat) (p : tensor2) :
  rect3 d h w u → 0 < h → 0 < w → u !! k = Some p →
  index_last (permute u 1 2 0) k = Ok p.
Proof.
  intros Hu Hh Hw Hk.
  assert (k < d) as Hkd.
  { destruct Hu as [<- _]. by eapply lookup_lt_Some. }
  unfold permute.
  destruct (size3_rect _ _ _ _ Hu ltac:(lia) Hh) as (-> & -> & ->). simpl.
  unfold index_last.
  destruct (size3_rect _ _ _ _ (build3_rect h w d
              (λ i0 i1 i2, get3 u i2 i0 i1)) Hh Hw) as (_ & _ & ->).
  apply Nat.ltb_lt in Hkd as Hlt. rewrite Hlt.
  rewrite slice_at_build3 by done. f_equal.
  destruct Hu as [_ Hplanes]. rewrite Forall_forall in Hplanes.
  assert (rect2 h w p) as Hp.
  { apply Hplanes. by eapply list_elem_of_lookup_2. }
  rewrite <- (build2_get2 h w p Hp).
  unfold build2, get3, get2. by rewrite Hk.
Qed.

(** [rotate] of torchvision turns every plane of a stack the same way
    and keeps its shape. *)
Variable rotate_plane : Z → tensor2 → tensor2.

Hypothesis rotate_planewise : ∀ t angle,
  rotate t angle = map (rotate_plane angle) t.

Hypothesis rotate_plane_rect : ∀ angle a b m,
  rect2 a b m → rect2 a b (rotate_plane angle m).

Lemma read_image_3d_rotated (fs : filesystem) (path : string)
    (v : tensor3) (h w d : nat) :
  files fs !! path = Some (NiftiFile v) →
  rect3 h w d v → 0 < h → 0 < w →
  ∃ v', _read_image_3d rotate fs (Some path) true = Ok v' ∧
    size3 v' 2 = d ∧
    ∀ k, k < d →
      index_last v k = Ok (slice_at v k) ∧
      index_last v' k = Ok (rotate_plane 90 (slice_at v k)).
Proof using rotate_planewise rotate_plane_rect.
  intros Hf Hv Hh Hw.
  unfold _read_image_3d, isfile, nibabel_load.
  rewrite Hf, bool_decide_eq_true_2 by eauto. rewrite bind_Ok.
  eexists. split; [done|]. split.
  { rewrite (permute_201 h w d) by done. rewrite rotate_planewise.
    destruct (Nat.eq_dec d 0) as [->|Hd]; [done|].
    set (u := map (rotate_plane 90) (map (slice_at v) (seq 0 d))).
    assert (rect3 d h w u) as Hu.
    { split; [unfold u; by rewrite !length_map, length_seq|].
      unfold u. rewrite !Forall_map. apply Forall_forall. intros i _. simpl.
      apply rotate_plane_rect. by apply (slice_at_rect h w d). }
    unfold permute.
    destruct (size3_rect _ _ _ _ Hu ltac:(lia) Hh) as (-> & -> & ->).
    apply (size3_rect h w d); [apply build3_rect|done|done]. }
  intros k Hk. split.
  - unfold index_last.
    destruct (size3_rect _ _ _ _ Hv Hh Hw) as (_ & _ & ->).
    apply Nat.ltb_lt in Hk. by rewrite Hk.
  - rewrite (permute_201 h w d) by done. rewrite rotate_planewise.
    apply (index_last_permute_120 d h w); [|done|done|].
    + split; [by rewrite !length_map, length_seq|].
      rewrite !Forall_map. apply Forall_forall. intros i _. simpl.
      apply rotate_plane_rect. by apply (slice_at_rect h w d).
    + rewrite !list_lookup_fmap, lookup_seq_lt by done. done.
Qed.

Lemma slices_loop (scan mask : tensor3) (S M : nat → tensor2) (n : nat) :
  ∀ a sl (ns : list nat) ms,
  (∀ i, a ≤ i < a + n →
        index_last scan i = Ok (S i) ∧ index_last mask i = Ok (M i)) →
  foldlR (λ (st : list tensor2 * list nat * list tensor2) (i : nat),
            let '(slices, nums, masks) := st in
            s ← index_last scan i;
            m ← index_last mask i;
            Ok ((slices ++ [s])%list, nums, (masks ++ [m])%list))
         (sl, ns, ms) (seq a n)
  = Ok ((sl ++ map S (seq a n))%list, ns, (ms ++ map M (seq a n))%list).
Proof.
  induction n as [|n IH]; intros a sl ns ms Hi; simpl.
  - by rewrite !app_nil_r.
  - destruct (Hi a ltac:(lia)) as [-> ->]. rewrite !bind_Ok.
    rewrite IH by (intros i ?; apply Hi; lia).
    by rewrite <- !app_assoc.
Qed.


(** ** The split builder (C3, C4, C5, C6) *)

Lemma string_length_app (a b : string) :
  String.length (a +:+ b) = String.length a + String.length b.
Proof. induction a as [|c a IH]; simpl; [done|]. by rewrite IH. Qed.

Lemma path_join_ne_dir (dir name : string) :
  String.prefix "/" name = false → name ≠ "" → path_join dir name ≠ dir.
Proof.
  intros Hp Hne E. unfold path_join in E. rewrite Hp in E.
  assert (0 < String.length name) by (destruct name; [done|simpl; lia]).
  apply (f_equal String.length) in E.
  destruct (_ || _); rewrite !string_length_app in E; lia.
Qed.

Lemma path_join_inj (dir name1 name2 : string) :
  String.prefix "/" name1 = false → String.prefix "/" name2 = false →
  path_join dir name1 = path_join dir name2 → name1 = name2.
Proof.
  intros H1 H2 E. unfold path_join in E. rewrite H1, H2 in E.
  destruct (_ || _).
  - by apply (inj (String.app dir)) in E.
  - apply (inj (String.app dir)) in E. by apply (inj (String.app "/")) in E.
Qed.

Lemma run_bind {A B} (m : io A) (f : A → io B) (w : world) :
  run (m ≫= f) w
  = match run m w with
    | (Ok a, w') => run (f a) w'
    | (Raise e, w') => (Raise e, w')
    end.
Proof. reflexivity. Qed.

Lemma run_isfile (path : string) (w : world) :
  run (os_path_isfile path) w
  = (Ok (isfile (w_fs w) path), log_event (EvIsFile path) w).
Proof. reflexivity. Qed.

Lemma run_pickle_load (path : string) (w : world) (o : pyobj) :
  files (w_fs w) !! path = Some (PickleFile o) →
  run (pickle_load path) w = (Ok o, log_event (EvRead path) w).
Proof. intros H. unfold pickle_load, io_read. simpl. by rewrite H. Qed.

Lemma w_fs_log_event (ev : io_event) (w : world) :
  w_fs (log_event ev w) = w_fs w.
Proof. reflexivity. Qed.

Lemma list_remove_spec (x : string) (l : list string) :
  NoDup l →
  NoDup (list_remove x l) ∧ (x ∉ list_remove x l) ∧
  ∀ y, y ∈ list_remove x l → y ∈ l.
Proof.
  induction 1 as [|y l Hy Hl IH]; simpl.
  - split; [constructor|]. split; [apply not_elem_of_nil|done].
  - destruct IH as (IH1 & IH2 & IH3). case_bool_decide as E.
    + subst y. split; [done|]. split; [done|]. intros z Hz. by right.
    + split; [|split].
      * constructor; [|done]. intros Hin. apply Hy. by apply IH3.
      * intros Hin. apply elem_of_cons in Hin as [Hin|Hin]; [congruence|done].
      * intros z Hz. apply elem_of_cons in Hz as [->|Hz]; [by left|].
        right. by apply IH3.
Qed.

Lemma remove_corrupted_spec (names : list string) :
  NoDup names →
  NoDup (remove_corrupted names) ∧
  (∀ c, c ∈ corrupted_files → c ∉ remove_corrupted names) ∧
  (∀ y, y ∈ remove_corrupted names → y ∈ names).
Proof.
  intros Hnd. unfold remove_corrupted, corrupted_files. simpl.
  destruct (list_remove_spec "ID_6431af929.dcm" names Hnd) as (H1 & H2 & H3).
  case_bool_decide as Hin.
  - split; [done|]. split; [|done].
    intros c Hc. apply list_elem_of_singleton in Hc. by subst c.
  - split; [done|]. split; [|done].
    intros c Hc. apply list_elem_of_singleton in Hc. by subst c.
Qed.

Lemma safe_indexing_lookup {A} (xs : list A) (indices : list nat) (ys : list A) :
  safe_indexing xs indices = Ok ys →
  ∀ y, y ∈ ys → ∃ i, i ∈ indices ∧ xs !! i = Some y.
Proof.
  unfold safe_indexing. revert ys.
  induction indices as [|i indices IH]; intros ys H y Hy; simpl in H.
  - inversion H; subst. by apply elem_of_nil in Hy.
  - inv_bind H. inv_bind H. inversion H; subst; clear H.
    apply elem_of_cons in Hy as [->|Hy].
    + exists i. split; [by left|]. by destruct (xs !! i); inversion Ha.
    + destruct (IH _ Ha0 y Hy) as (j & Hj & Hlook).
      exists j. split; [by right|done].
Qed.

(** The shuffle of numpy returns the indices below [n], each once. *)
Hypothesis rng_permutation_perm : ∀ seed n,
  rng_permutation seed n ≡ₚ seq 0 n.

Lemma train_test_split_disjoint filenames labels test_size random_state
    x_train x_test y_train y_test :
  NoDup filenames →
  train_test_split rng_permutation filenames labels test_size random_state
  = Ok (x_train, x_test, y_train, y_test) →
  (∀ x, x ∈ x_train → x ∉ x_test) ∧
  (∀ x, x ∈ x_train ∨ x ∈ x_test → x ∈ filenames).
Proof using rng_permutation_perm.
  intros Hnd H. unfold train_test_split in H.
  case_bool_decide; [|done].
  inv_bind H. destruct a as [n_train n_test].
  destruct (_ && _); [|done].
  set (perm := rng_permutation random_state (length filenames)) in *.
  assert (NoDup perm) as Hperm.
  { unfold perm. rewrite rng_permutation_perm. apply NoDup_seq. }
  inv_bind H. inv_bind H. inv_bind H. inv_bind H.
  inversion H; subst; clear H.
  pose proof (safe_indexing_lookup _ _ _ Ha0) as Htrain.
  pose proof (safe_indexing_lookup _ _ _ Ha1) as Htest.
  rewrite <- (take_drop n_test perm) in Hperm.
  apply NoDup_app in Hperm as (_ & Hdisj & _).
  split.
  - intros x Hx Hx'.
    destruct (Htrain x Hx) as (i & Hi & Hix).
    destruct (Htest x Hx') as (j & Hj & Hjx).
    assert (i = j) by (by eapply NoDup_lookup).
    subst j. apply (Hdisj i Hj). eapply subseteq_take, Hi.
  - intros x [Hx|Hx].
    + destruct (Htrain x Hx) as (i & _ & Hix). by eapply list_elem_of_lookup_2.
    + destruct (Htest x Hx) as (i & _ & Hix). by eapply list_elem_of_lookup_2.
Qed.

Lemma run_cached_check (w : world) (root_dir : string) (override : bool) :
  ∃ log',
    run (and_then (os_path_isfile (path_join root_dir "train_file_split"))
        (and_then (os_path_isfile (path_join root_dir "validation_file_split"))
        (and_then (os_path_isfile (path_join root_dir "train_label_split"))
        (and_then (os_path_isfile (path_join root_dir "validation_label_split"))
                  (mret (negb override)))))) w
    = (Ok (split_is_cached (w_fs w) root_dir override),
       {| w_fs := w_fs w; w_log := log' |}).
Proof.
  unfold split_is_cached, and_then, os_path_isfile, io_read. simpl.
  destruct (isfile (w_fs w) (path_join root_dir "train_file_split")); simpl;
    [|eauto].
  destruct (isfile (w_fs w) (path_join root_dir "validation_file_split")); simpl;
    [|eauto].
  destruct (isfile (w_fs w) (path_join root_dir "train_label_split")); simpl;
    [|eauto].
  destruct (isfile (w_fs w) (path_join root_dir "validation_label_split")); simpl;
    eauto.
Qed.

(** The run of the builder on its rebuild path: the value is
    [rebuild_value] of the file system it starts from; the four
    artifacts are written when, and only when, that value is there. *)
Lemma run_rebuild (w : world) (root_dir : string) (validation_size : split_size)
    (random_state : Z) (override : bool) :
  split_is_cached (w_fs w) root_dir override = false →
  ∃ log',
    run (rsna_train_valid_split float_of_string rng_permutation
           root_dir validation_size random_state override) w
    = match rebuild_value float_of_string rng_permutation (w_fs w) root_dir
              validation_size random_state with
      | Ok (x_train, x_test, y_train, y_test) =>
          (Ok (PyStrList x_train, PyArray y_train,
               PyStrList x_test, PyArray y_test),
           {| w_fs :=
                fs_write (fs_write (fs_write (fs_write (w_fs w)
                  root_dir "train_file_split" (PickleFile (PyStrList x_train)))
                  root_dir "train_label_split" (PickleFile (PyArray y_train)))
                  root_dir "validation_file_split" (PickleFile (PyStrList x_test)))
                  root_dir "validation_label_split" (PickleFile (PyArray y_test));
              w_log := log' |})
      | Raise e => (Raise e, {| w_fs := w_fs w; w_log := log' |})
      end.
Proof.
  intros Hc. unfold rsna_train_valid_split. cbv zeta. rewrite run_bind.
  destruct (run_cached_check w root_dir override) as [log0 ->]. rewrite Hc.
  unfold rebuild_value.
  rewrite run_bind. unfold os_listdir at 1, io_read at 1. simpl run at 1.
  simpl w_fs.
  destruct (listdir (w_fs w) (path_join root_dir "stage_2_train"))
    as [names|e]; [|simpl; eauto].
  rewrite bind_Ok, run_bind. unfold open_csv, io_read. simpl run at 1.
  simpl w_fs.
  destruct (csv_rows (w_fs w) (path_join root_dir "stage_2_train.csv"))
    as [rows|e]; [|simpl; eauto].
  rewrite bind_Ok, run_bind. unfold io_lift at 1. simpl run at 1.
  destruct (read_labels_dict float_of_string rows) as [d|e]; [|simpl; eauto].
  rewrite bind_Ok, run_bind. unfold io_lift at 1. simpl run at 1.
  destruct (collect_labels d (remove_corrupted names)) as [labels|e];
    [|simpl; eauto].
  rewrite bind_Ok, run_bind. unfold io_lift at 1. simpl run at 1.
  destruct (train_test_split rng_permutation (remove_corrupted names) labels
              validation_size random_state)
    as [[[[x_train x_test] y_train] y_test]|e]; [|simpl; eauto].
  simpl. eauto.
Qed.

(** C3: whatever the root directory, the validation fraction and the
    seed, a split the builder builds has no file name in both the train
    and the validation part, and no known-corrupted name in either,
    also when such a file is listed on disk. *)
Theorem built_split_disjoint_and_clean
    (w w' : world) (root_dir : string) (validation_size : split_size)
    (random_state : Z) (override : bool) (tf tl vf vl : pyobj) :
  fs_wf (w_fs w) →
  split_is_cached (w_fs w) root_dir override = false →
  run (rsna_train_valid_split float_of_string rng_permutation
         root_dir validation_size random_state override) w
  = (Ok (tf, tl, vf, vl), w') →
  ∃ train_filenames validation_filenames,
    tf = PyStrList train_filenames ∧
    vf = PyStrList validation_filenames ∧
    (∀ x, x ∈ train_filenames → x ∉ validation_filenames) ∧
    (∀ c, c ∈ corrupted_files →
          (c ∉ train_filenames) ∧ (c ∉ validation_filenames)).
Proof using rng_permutation_perm.
  intros Hwf Hc Hrun.
  destruct (run_rebuild w root_dir validation_size random_state override Hc)
    as [log' Hr].
  rewrite Hr in Hrun. clear Hr.
  destruct (rebuild_value _ _ _ _ _ _)
    as [[[[x_train x_test] y_train] y_test]|e] eqn:Hv; [|done].
  inversion Hrun; subst; clear Hrun.
  unfold rebuild_value in Hv.
  inv_bind Hv. rename a into names. do 3 inv_bind Hv.
  assert (NoDup names) as Hnd.
  { unfold listdir in Ha. destruct (dirs (w_fs w) !! _) eqn:Hd; [|done].
    inversion Ha; subst. by eapply Hwf. }
  destruct (remove_corrupted_spec names Hnd) as (Hnd' & Hclean & _).
  destruct (train_test_split_disjoint _ _ _ _ _ _ _ _ Hnd' Hv) as [Hdisj Hsub].
  exists x_train, x_test. split; [done|]. split; [done|]. split; [done|].
  intros c Hcor. split; intros Hin; apply (Hclean c Hcor), Hsub; auto.
Qed.

Lemma fs_write_rebuild_value (fs : filesystem) (root_dir name : string) (f : file)
    (validation_size : split_size) (random_state : Z) :
  String.prefix "/" name = false → name ≠ "stage_2_train.csv" →
  rebuild_value float_of_string rng_permutation
    (fs_write fs root_dir name f) root_dir validation_size random_state
  = rebuild_value float_of_string rng_permutation
      fs root_dir validation_size random_state.
Proof.
  intros Hp Hne. unfold rebuild_value, listdir, csv_rows, fs_write. simpl.
  rewrite lookup_alter_ne by (symmetry; by apply path_join_ne_dir).
  rewrite lookup_insert_ne; [done|].
  intros E. by apply path_join_inj in E.
Qed.

(** C4: a second forced rebuild over the files the first one left
    behind, with the same validation fraction and the same seed,
    returns what the first returned: the same train and validation file
    names (and labels). *)
Theorem forced_rebuild_twice_same_split
    (w : world) (root_dir : string) (validation_size : split_size)
    (random_state : Z) :
  let build := rsna_train_valid_split float_of_string rng_permutation
                 root_dir validation_size random_state true in
  (run build (run build w).2).1 = (run build w).1.
Proof.
  intros build. unfold build.
  assert (∀ fs, split_is_cached fs root_dir true = false) as Hc.
  { intros fs. unfold split_is_cached. apply andb_false_r. }
  destruct (run_rebuild w root_dir validation_size random_state true (Hc _))
    as [log1 ->].
  destruct (rebuild_value _ _ (w_fs w) _ _ _)
    as [[[[x_train x_test] y_train] y_test]|e] eqn:Hv; cbn [fst snd].
  - match goal with
    | |- (run _ ?w1).1 = _ =>
        destruct (run_rebuild w1 root_dir validation_size random_state true
                    (Hc _)) as [log2 ->]
    end.
    simpl w_fs. rewrite !fs_write_rebuild_value by done. by rewrite Hv.
  - match goal with
    | |- (run _ ?w1).1 = _ =>
        destruct (run_rebuild w1 root_dir validation_size random_state true
                    (Hc _)) as [log2 ->]
    end.
    simpl w_fs. by rewrite Hv.
Qed.

(** C5: when the four persisted artifacts are there and no rebuild is
    forced, the builder hands back what they hold, unchanged; it asks
    for the four files and reads them, and does nothing else: it lists
    no directory, reads no label table and writes no file. *)
Theorem cached_split_loaded_unchanged
    (w : world) (root_dir : string) (validation_size : split_size)
    (random_state : Z) (tf tl vf vl : pyobj) :
  files (w_fs w) !! path_join root_dir "train_file_split" = Some (PickleFile tf) →
  files (w_fs w) !! path_join root_dir "train_label_split" = Some (PickleFile tl) →
  files (w_fs w) !! path_join root_dir "validation_file_split" = Some (PickleFile vf) →
  files (w_fs w) !! path_join root_dir "validation_label_split" = Some (PickleFile vl) →
  run (rsna_train_valid_split float_of_string rng_permutation
         root_dir validation_size random_state false) w
  = (Ok (tf, tl, vf, vl),
     {| w_fs := w_fs w;
        w_log := (w_log w ++
                  [EvIsFile (path_join root_dir "train_file_split");
                   EvIsFile (path_join root_dir "validation_file_split");
                   EvIsFile (path_join root_dir "train_label_split");
                   EvIsFile (path_join root_dir "validation_label_split");
                   EvRead (path_join root_dir "train_file_split");
                   EvRead (path_join root_dir "train_label_split");
                   EvRead (path_join root_dir "validation_file_split");
                   EvRead (path_join root_dir "validation_label_split")])%list |}).
Proof.
  intros Htf Htl Hvf Hvl.
  assert (∀ p o, files (w_fs w) !! p = Some (PickleFile o) →
                 isfile (w_fs w) p = true) as Hfile.
  { intros p o Hp. unfold isfile. rewrite Hp. by apply bool_decide_eq_true_2. }
  unfold rsna_train_valid_split, and_then. cbv zeta.
  rewrite !run_bind, run_isfile, (Hfile _ _ Htf).
  rewrite run_bind, run_isfile, !w_fs_log_event, (Hfile _ _ Hvf).
  rewrite run_bind, run_isfile, !w_fs_log_event, (Hfile _ _ Htl).
  rewrite run_bind, run_isfile, !w_fs_log_event, (Hfile _ _ Hvl).
  cbn [negb run mret io_ret].
  rewrite run_bind, (run_pickle_load _ _ tf) by done.
  rewrite run_bind, (run_pickle_load _ _ tl) by done.
  rewrite run_bind, (run_pickle_load _ _ vf) by done.
  rewrite run_bind, (run_pickle_load _ _ vl) by done.
  cbn [run mret io_ret]. unfold log_event. cbn [w_fs w_log].
  by rewrite <- !app_assoc.
Qed.

Lemma mapR_defined {A B} (f : A → result B) (xs : list A) :
  (∀ x, x ∈ xs → ∃ y, f x = Ok y) → ∃ ys, mapR f xs = Ok ys.
Proof.
  induction xs as [|x xs IH]; intros Hf; simpl; [eauto|].
  destruct (Hf x) as [y ->]; [by left|].
  destruct IH as [ys ->]; [|simpl; eauto].
  intros z Hz. apply Hf. by right.
Qed.

Lemma mapR_raises {A B} (P : exn → Prop) (f : A → result B) (xs : list A) :
  (∀ x e, f x = Raise e → P e) →
  (∃ x, x ∈ xs ∧ ∃ e, f x = Raise e) →
  ∃ e, mapR f xs = Raise e ∧ P e.
Proof.
  intros HP (x & Hx & e & He).
  induction xs as [|z xs IH]; [by apply elem_of_nil in Hx|]. simpl.
  destruct (f z) as [y|e'] eqn:Hz.
  - apply elem_of_cons in Hx as [->|Hx]; [congruence|].
    destruct (IH Hx) as (e'' & -> & HP''). simpl. eauto.
  - simpl. exists e'. split; [done|]. by eapply HP.
Qed.

Lemma mapR_Raise_inv {A B} (f : A → result B) (xs : list A) (e : exn) :
  mapR f xs = Raise e → ∃ x, x ∈ xs ∧ f x = Raise e.
Proof.
  induction xs as [|z xs IH]; simpl; [done|].
  destruct (f z) as [y|e'] eqn:Hz; simpl.
  - destruct (mapR f xs) as [ys|e'']; simpl; [done|].
    intros [= ->]. destruct IH as (x & Hx & Hfx); [done|].
    exists x. split; [by right|done].
  - intros [= ->]. exists z. split; [by left|done].
Qed.

Lemma train_test_split_not_missing_label filenames labels test_size
    random_state (e : exn) :
  train_test_split rng_permutation filenames labels test_size random_state
  = Raise e →
  is_MissingLabelError e = false.
Proof.
  assert (∀ A (xs : list A) idx e', safe_indexing xs idx = Raise e' →
                                    is_MissingLabelError e' = false) as Hsafe.
  { intros A xs idx e' H. apply mapR_Raise_inv in H as (i & _ & Hi).
    destruct (xs !! i); by inversion Hi. }
  unfold train_test_split. case_bool_decide; [|by intros [= <-]].
  destruct (validate_shuffle_split _ _) as [[n_train n_test]|e'] eqn:Hv.
  - rewrite bind_Ok. destruct (_ && _); [|by intros [= <-]].
    repeat match goal with
    | |- context [safe_indexing ?xs ?idx] =>
        let E := fresh "E" in
        destruct (safe_indexing xs idx) eqn:E;
        [rewrite bind_Ok | intros [= <-]; by eapply Hsafe]
    end.
    done.
  - intros [= <-]. unfold validate_shuffle_split in Hv.
    destruct test_size as [k|q].
    + destruct (_ || _); [by inversion Hv|]. rewrite bind_Ok in Hv.
      destruct (_ =? _)%Z; by inversion Hv.
    + destruct (_ || _); [by inversion Hv|]. unfold float_of_int in Hv.
      destruct (_ || _); [by inversion Hv|]. rewrite !bind_Ok in Hv.
      destruct (_ =? _)%Z; by inversion Hv.
Qed.

Lemma safe_indexing_defined {A} (xs : list A) (indices : list nat) :
  (∀ i, i ∈ indices → i < length xs) →
  ∃ ys, safe_indexing xs indices = Ok ys.
Proof.
  intros Hi. apply mapR_defined. intros i Hin.
  destruct (lookup_lt_is_Some_2 xs i (Hi i Hin)) as [x ->]. eauto.
Qed.

(** With sizes the split routine accepts and a seed numpy accepts, the
    split is made. *)
Lemma train_test_split_defined filenames labels test_size random_state :
  length filenames = length labels →
  is_ok (validate_shuffle_split (length filenames) test_size) = true →
  (0 ≤ random_state < 2 ^ 32)%Z →
  is_ok (train_test_split rng_permutation filenames labels test_size
           random_state) = true.
Proof using rng_permutation_perm.
  intros Hlen Hsize Hseed. unfold train_test_split.
  rewrite bool_decide_eq_true_2 by done.
  destruct (validate_shuffle_split _ _) as [[n_train n_test]|e]; [|done].
  rewrite bind_Ok.
  replace ((0 <=? random_state)%Z && (random_state <? 2 ^ 32)%Z) with true
    by (symmetry; apply andb_true_iff; split;
        [apply Z.leb_le | apply Z.ltb_lt]; lia).
  set (perm := rng_permutation random_state (length filenames)).
  assert (∀ i, i ∈ perm → i < length filenames) as Hperm.
  { intros i Hi. unfold perm in Hi. rewrite rng_permutation_perm in Hi.
    apply elem_of_seq in Hi. lia. }
  assert (∀ i, i ∈ take n_test perm → i < length filenames) as Htest.
  { intros i Hi. apply Hperm. eapply subseteq_take, Hi. }
  assert (∀ i, i ∈ take n_train (drop n_test perm) → i < length filenames)
    as Htrain.
  { intros i Hi. apply Hperm. eapply subseteq_drop, subseteq_take, Hi. }
  destruct (safe_indexing_defined filenames _ Htrain) as [x_train ->].
  destruct (safe_indexing_defined filenames _ Htest) as [x_test ->].
  rewrite Hlen in Htrain, Htest.
  destruct (safe_indexing_defined labels _ Htrain) as [y_train ->].
  destruct (safe_indexing_defined labels _ Htest) as [y_test ->].
  done.
Qed.

(** C6: on the rebuild path, with the label table read, the builder
    fails with [MissingLabelError] as soon as a listed file (the
    known-corrupted ones apart) lacks a row of the table for its
    identifier; when every such file has its six rows, the labels are
    collected, one row of labels per file, no such error is raised, and
    with sizes and a seed the split routine accepts the builder returns
    the split. *)
Theorem rebuild_fails_on_missing_label
    (w : world) (root_dir : string) (validation_size : split_size)
    (random_state : Z) (override : bool)
    (names : list string) (rows : list (list string))
    (labels_dict : gmap string float) :
  split_is_cached (w_fs w) root_dir override = false →
  listdir (w_fs w) (path_join root_dir "stage_2_train") = Ok names →
  csv_rows (w_fs w) (path_join root_dir "stage_2_train.csv") = Ok rows →
  read_labels_dict float_of_string rows = Ok labels_dict →
  let total_filenames := remove_corrupted names in
  let outcome :=
    (run (rsna_train_valid_split float_of_string rng_permutation
            root_dir validation_size random_state override) w).1 in
  ((∃ filename key, filename ∈ total_filenames ∧
                    key ∈ label_keys filename ∧ labels_dict !! key = None) →
   ∃ e, outcome = Raise e ∧ is_MissingLabelError e = true) ∧
  ((∀ filename key, filename ∈ total_filenames →
                    key ∈ label_keys filename → is_Some (labels_dict !! key)) →
   (∃ labels, collect_labels labels_dict total_filenames = Ok labels ∧
              length labels = length total_filenames) ∧
   (∀ e, outcome = Raise e → is_MissingLabelError e = false) ∧
   (is_ok (validate_shuffle_split (length total_filenames) validation_size)
    = true →
    (0 ≤ random_state < 2 ^ 32)%Z →
    is_ok outcome = true)).
Proof using rng_permutation_perm.
  intros Hc Hnames Hrows Hdict total_filenames outcome.
  destruct (run_rebuild w root_dir validation_size random_state override Hc)
    as [log' Hr].
  unfold outcome. rewrite Hr. clear Hr outcome.
  unfold rebuild_value. rewrite Hnames, bind_Ok, Hrows, bind_Ok, Hdict, bind_Ok.
  fold total_filenames. split.
  - intros (filename & key & Hfile & Hkey & Hnone).
    destruct (mapR_raises (λ e, is_MissingLabelError e = true)
                (λ filename, mapR (dict_getitem labels_dict) (label_keys filename))
                total_filenames) as (e & He & HP).
    + intros x e He. apply mapR_Raise_inv in He as (k & _ & Hk).
      unfold dict_getitem in Hk. destruct (labels_dict !! k); by inversion Hk.
    + exists filename. split; [done|].
      destruct (mapR_raises (λ _, True) (dict_getitem labels_dict)
                  (label_keys filename)) as (e & He & _); [done| |eauto].
      exists key. split; [done|]. unfold dict_getitem. rewrite Hnone. eauto.
    + unfold collect_labels. rewrite He. simpl. eauto.
  - intros Hall.
    destruct (mapR_defined
                (λ filename, mapR (dict_getitem labels_dict) (label_keys filename))
                total_filenames) as [labels Hlabels].
    { intros filename Hfile. apply mapR_defined. intros key Hkey.
      destruct (Hall filename key Hfile Hkey) as [v Hv].
      unfold dict_getitem. rewrite Hv. eauto. }
    unfold collect_labels. rewrite Hlabels, bind_Ok.
    pose proof (mapR_length _ _ _ Hlabels) as Hlen.
    split; [|split].
    + exists labels. by split.
    + intros e.
      destruct (train_test_split _ _ _ _ _)
        as [[[[x_train x_test] y_train] y_test]|e'] eqn:Hsplit; simpl; [done|].
      intros [= <-]. by eapply train_test_split_not_missing_label.
    + intros Hsize Hseed.
      pose proof (train_test_split_defined total_filenames labels
                    validation_size random_state (eq_sym Hlen) Hsize Hseed)
        as Hok.
      by destruct (train_test_split _ _ _ _ _)
        as [[[[x_train x_test] y_train] y_test]|e'].
Qed.

(** ** More on the split builder *)

Lemma mapR_Forall2 {A B} (f : A → result B) (xs : list A) (ys : list B) :
  mapR f xs = Ok ys → Forall2 (λ x y, f x = Ok y) xs ys.
Proof.
  revert ys. induction xs as [|x xs IH]; intros ys H; simpl in H.
  - inversion H. constructor.
  - inv_bind H. inv_bind H. inversion H; subst. constructor; [done|].
    by apply IH.
Qed.

Lemma safe_indexing_Forall2 {A} (xs : list A) (indices : list nat) (ys : list A) :
  safe_indexing xs indices = Ok ys →
  Forall2 (λ i y, xs !! i = Some y) indices ys.
Proof.
  intros H. apply mapR_Forall2 in H.
  eapply Forall2_impl; [exact H|]. intros i y Hi. simpl in Hi.
  destruct (xs !! i); by inversion Hi.
Qed.

Lemma safe_indexing_map {A} (d : A) (xs : list A) (indices : list nat) (ys : list A) :
  safe_indexing xs indices = Ok ys →
  ys = map (λ i, default d (xs !! i)) indices.
Proof.
  intros H. apply safe_indexing_Forall2 in H.
  induction H as [|i y idx ys Hi _ IH]; simpl; [done|].
  by rewrite Hi, IH.
Qed.

(** *** Binary64 rounding *)

Lemma two_power_pos (e : Z) : (0 < 2 ^ e)%Q.
Proof. apply Qpower_0_lt. reflexivity. Qed.

Lemma two_not_0 : ¬ (2 == 0)%Q.
Proof. discriminate. Qed.

Lemma Qnum_pos_iff (x : Q) : (0 < x)%Q ↔ (0 < Qnum x)%Z.
Proof. unfold Qlt. simpl. lia. Qed.

(** The power of two the logarithm names is not above the number. *)
Lemma Qlog2_floor_le (x : Q) : (0 < x)%Q → (2 ^ Qlog2_floor x <= x)%Q.
Proof.
  intros Hx. unfold Qlog2_floor.
  set (a := Qnum x). set (b := Zpos (Qden x)).
  destruct (Qle_bool (2 ^ (Z.log2 a - Z.log2 b)) x) eqn:E.
  - by apply Qle_bool_iff.
  - clear E. apply Qnum_pos_iff in Hx. fold a in Hx.
    assert (0 < b)%Z as Hb by (unfold b; lia).
    destruct (Z.log2_spec a Hx) as [Ha _].
    destruct (Z.log2_spec b Hb) as [_ Hb'].
    pose proof (Z.log2_nonneg a) as Hla. pose proof (Z.log2_nonneg b) as Hlb.
    replace (Z.log2 a - Z.log2 b - 1)%Z
      with (Z.log2 a - Z.succ (Z.log2 b))%Z by lia.
    rewrite Qpower_minus by apply two_not_0.
    apply Qle_shift_div_r; [apply two_power_pos|].
    change 2%Q with (inject_Z 2).
    rewrite <- !Zpower_Qpower by lia.
    assert (x == inject_Z a / inject_Z b)%Q as ->.
    { unfold a, b. rewrite <- Qmake_Qdiv. by destruct x. }
    unfold Qdiv. rewrite <- Qmult_assoc.
    apply Qle_trans with (inject_Z a * 1)%Q.
    + rewrite Qmult_1_r. rewrite <- Zle_Qle. exact Ha.
    + apply Qmult_le_l; [rewrite <- (Zlt_Qlt 0%Z); exact Hx|].
      rewrite Qmult_comm. apply Qle_shift_div_l.
      * rewrite <- (Zlt_Qlt 0%Z). exact Hb.
      * rewrite Qmult_1_l, <- Zle_Qle. lia.
Qed.

Lemma Qlog2_floor_small (x : Q) (k : Z) :
  (0 < x)%Q → (x < 2 ^ k)%Q → (Qlog2_floor x < k)%Z.
Proof.
  intros Hx Hk. apply Qpower_lt_compat_l_inv with (q := 2%Q); [|reflexivity].
  eapply Qle_lt_trans; [apply Qlog2_floor_le, Hx|exact Hk].
Qed.

Lemma round_half_even_cases (y : Q) :
  round_half_even y = Qfloor y ∨ round_half_even y = (Qfloor y + 1)%Z.
Proof.
  unfold round_half_even.
  destruct (y - inject_Z (Qfloor y) ?= 1 # 2)%Q; [destruct (Z.even _)| |]; auto.
Qed.

Lemma round_half_even_ge (y : Q) : (Qfloor y ≤ round_half_even y)%Z.
Proof. destruct (round_half_even_cases y) as [-> | ->]; lia. Qed.

Lemma round_half_even_le (y : Q) (M : Z) :
  (y <= inject_Z M)%Q → (round_half_even y ≤ M)%Z.
Proof.
  intros Hy. pose proof (Qfloor_resp_le _ _ Hy) as Hf. rewrite Qfloor_Z in Hf.
  destruct (Z.eq_dec (Qfloor y) M) as [E|NE].
  - unfold round_half_even.
    assert (y - inject_Z (Qfloor y) <= 0)%Q as H0.
    { rewrite E. unfold Qminus. rewrite <- (Qplus_opp_r (inject_Z M)).
      apply Qplus_le_l. exact Hy. }
    assert (y - inject_Z (Qfloor y) < 1 # 2)%Q as Hlt
      by (eapply Qle_lt_trans; [exact H0|reflexivity]).
    destruct (Qcompare_spec (y - inject_Z (Qfloor y)) (1 # 2)) as [H|H|H].
    + rewrite H in Hlt. by apply Qlt_irrefl in Hlt.
    + lia.
    + exfalso. apply (Qlt_irrefl (1 # 2)).
      by apply Qlt_trans with (y - inject_Z (Qfloor y))%Q.
  - destruct (round_half_even_cases y) as [-> | ->]; lia.
Qed.

Lemma round_half_even_pos (y : Q) : (1 <= y)%Q → (1 ≤ round_half_even y)%Z.
Proof.
  intros Hy. pose proof (Qfloor_resp_le _ _ Hy) as Hf.
  change 1%Q with (inject_Z 1) in Hf. rewrite Qfloor_Z in Hf.
  pose proof (round_half_even_ge y). lia.
Qed.

Lemma round_half_even_nonneg (y : Q) : (0 <= y)%Q → (0 ≤ round_half_even y)%Z.
Proof.
  intros Hy. pose proof (Qfloor_resp_le _ _ Hy) as Hf.
  change 0%Q with (inject_Z 0) in Hf. rewrite Qfloor_Z in Hf.
  pose proof (round_half_even_ge y). lia.
Qed.

Lemma binary64_round_pos_nonneg (x : Q) :
  (0 < x)%Q → (0 <= binary64_round_pos x)%Q.
Proof.
  intros Hx. unfold binary64_round_pos.
  apply Qmult_le_0_compat; [|apply Qlt_le_weak, two_power_pos].
  change 0%Q with (inject_Z 0). rewrite <- Zle_Qle.
  apply round_half_even_nonneg. apply Qle_shift_div_l; [apply two_power_pos|].
  rewrite Qmult_0_l. by apply Qlt_le_weak.
Qed.

(** A number not below the smallest positive binary64 number is not
    rounded below it. *)
Lemma binary64_round_pos_low (x : Q) :
  (2 ^ (-1074) <= x)%Q → (2 ^ (-1074) <= binary64_round_pos x)%Q.
Proof.
  intros Hx.
  assert (0 < x)%Q as Hpos
    by (eapply Qlt_le_trans; [apply two_power_pos|exact Hx]).
  unfold binary64_round_pos.
  set (e := Z.max (-1074) (Qlog2_floor x - 52)).
  assert (1 <= x / 2 ^ e)%Q as Hy.
  { apply Qle_shift_div_l; [apply two_power_pos|]. rewrite Qmult_1_l.
    destruct (Z.max_spec (-1074) (Qlog2_floor x - 52)) as [[_ E]|[_ E]];
      fold e in E; rewrite E.
    - eapply Qle_trans; [|apply Qlog2_floor_le, Hpos].
      apply Qpower_le_compat_l; [lia|discriminate].
    - exact Hx. }
  apply round_half_even_pos in Hy.
  apply Qle_trans with (1 * 2 ^ e)%Q.
  - rewrite Qmult_1_l. apply Qpower_le_compat_l; [unfold e; lia|discriminate].
  - apply Qmult_le_compat_r; [|apply Qlt_le_weak, two_power_pos].
    change 1%Q with (inject_Z 1). by rewrite <- Zle_Qle.
Qed.

(** A positive result of rounding is a binary64 number, so not below
    the smallest positive one. *)
Lemma binary64_round_pos_positive (x : Q) :
  (0 < x)%Q → (0 < binary64_round_pos x)%Q →
  (2 ^ (-1074) <= binary64_round_pos x)%Q.
Proof.
  intros Hx Hr. unfold binary64_round_pos in *.
  set (e := Z.max (-1074) (Qlog2_floor x - 52)) in *.
  set (m := round_half_even (x / 2 ^ e)) in *.
  assert (1 ≤ m)%Z as Hm.
  { destruct (Z.le_gt_cases 1 m) as [|Hle]; [done|]. exfalso.
    assert (m ≤ 0)%Z as Hm0 by lia. apply (Qlt_irrefl 0).
    eapply Qlt_le_trans; [exact Hr|].
    rewrite Zle_Qle in Hm0.
    assert (inject_Z m * 2 ^ e <= 0 * 2 ^ e)%Q as Hprod
      by (apply Qmult_le_compat_r;
          [exact Hm0|apply Qlt_le_weak, two_power_pos]).
    by rewrite Qmult_0_l in Hprod. }
  apply Qle_trans with (1 * 2 ^ e)%Q.
  - rewrite Qmult_1_l. apply Qpower_le_compat_l; [unfold e; lia|discriminate].
  - apply Qmult_le_compat_r; [|apply Qlt_le_weak, two_power_pos].
    change 1%Q with (inject_Z 1). by rewrite <- Zle_Qle.
Qed.

(** Rounding does not cross an integer: below [2 ^ 53] every integer
    is a binary64 number. *)
Lemma binary64_round_pos_le (x : Q) (N : Z) :
  (0 < x)%Q → (x < 2 ^ 53)%Q → (x <= inject_Z N)%Q →
  (binary64_round_pos x <= inject_Z N)%Q.
Proof.
  intros Hpos H53 HN. unfold binary64_round_pos.
  set (e := Z.max (-1074) (Qlog2_floor x - 52)).
  assert (e ≤ 0)%Z as He.
  { pose proof (Qlog2_floor_small x 53 Hpos H53). unfold e. lia. }
  assert (2 ^ e == / inject_Z (2 ^ (- e)))%Q as Epow.
  { rewrite Zpower_Qpower by lia. change (inject_Z 2) with 2%Q.
    rewrite <- Qpower_opp. by rewrite Z.opp_involutive. }
  assert (0 < inject_Z (2 ^ (- e)))%Q as Hp.
  { rewrite <- (Zlt_Qlt 0%Z). apply Z.pow_pos_nonneg; lia. }
  assert (round_half_even (x / 2 ^ e) ≤ N * 2 ^ (- e))%Z as Hm.
  { apply round_half_even_le. rewrite Epow. unfold Qdiv.
    rewrite Qinv_involutive, inject_Z_mult.
    apply Qmult_le_compat_r; [exact HN|by apply Qlt_le_weak]. }
  apply Qle_trans with (inject_Z (N * 2 ^ (- e)) * 2 ^ e)%Q.
  - apply Qmult_le_compat_r;
      [by rewrite <- Zle_Qle|apply Qlt_le_weak, two_power_pos].
  - rewrite Epow, inject_Z_mult. rewrite <- Qmult_assoc, Qmult_inv_r.
    + rewrite Qmult_1_r. apply Qle_refl.
    + intros E. rewrite E in Hp. by apply Qlt_irrefl in Hp.
Qed.

Lemma binary64_round_of_pos (x : Q) :
  (0 < x)%Q → binary64_round x = binary64_round_pos x.
Proof.
  intros Hx. apply Qnum_pos_iff in Hx. unfold binary64_round.
  destruct (Qnum x); [lia|done|lia].
Qed.

Lemma binary64_round_nonneg (x : Q) : (0 <= x)%Q → (0 <= binary64_round x)%Q.
Proof.
  intros Hx. unfold binary64_round. destruct (Qnum x) eqn:E.
  - apply Qle_refl.
  - apply binary64_round_pos_nonneg. apply Qnum_pos_iff. lia.
  - exfalso. unfold Qle in Hx. simpl in Hx. lia.
Qed.

(** A float the split routine takes for a fraction is the rounding of
    a positive number and a binary64 number between zero and one. *)
Lemma test_size_fraction (q : Q) :
  Qle_bool (binary64_round q) 0 || Qle_bool 1 (binary64_round q) = false →
  (0 < q)%Q ∧ (2 ^ (-1074) <= binary64_round q)%Q ∧ (binary64_round q < 1)%Q.
Proof.
  intros H. apply orb_false_iff in H as [H0 H1].
  assert (0 < binary64_round q)%Q as Hpos.
  { apply Qnot_le_lt. intros Hle. apply Qle_bool_iff in Hle. congruence. }
  assert (binary64_round q < 1)%Q as Hlt.
  { apply Qnot_le_lt. intros Hle. apply Qle_bool_iff in Hle. congruence. }
  assert (0 < q)%Q as Hq.
  { apply Qnum_pos_iff. unfold binary64_round in Hpos.
    destruct (Qnum q) eqn:E; [by apply Qlt_irrefl in Hpos|lia|].
    exfalso. assert (0 < - q)%Q as Hneg.
    { apply Qnum_pos_iff. simpl. lia. }
    apply binary64_round_pos_nonneg in Hneg.
    apply (Qlt_irrefl 0). eapply Qlt_le_trans; [exact Hpos|].
    apply (Qopp_le_compat 0) in Hneg. exact Hneg. }
  split; [done|]. split; [|done].
  rewrite binary64_round_of_pos in * by done.
  by apply binary64_round_pos_positive.
Qed.

(** [float(n)] of a count below [2 ^ 53] is not above the count. *)
Lemma binary64_round_count (n : Z) :
  (0 ≤ n < 2 ^ 53)%Z →
  (0 <= binary64_round (inject_Z n) <= inject_Z n)%Q.
Proof.
  intros [H0 H53]. split.
  - apply binary64_round_nonneg. by rewrite <- (Zle_Qle 0%Z).
  - destruct (Z.eq_dec n 0%Z) as [->|Hn]; [apply Qle_refl|].
    assert (0 < inject_Z n)%Q as Hpos by (rewrite <- (Zlt_Qlt 0%Z); lia).
    rewrite binary64_round_of_pos by done.
    apply binary64_round_pos_le; [done| |apply Qle_refl].
    change 2%Q with (inject_Z 2). rewrite <- Zpower_Qpower by lia.
    by rewrite <- Zlt_Qlt.
Qed.

(** The float product of a fraction and a count below [2 ^ 53] lies
    between zero and the count. *)
Lemma float_product_bounds (t : Q) (n : Z) :
  (0 < t)%Q → (t < 1)%Q → (0 ≤ n < 2 ^ 53)%Z →
  (0 ≤ Qceiling (binary64_round (t * binary64_round (inject_Z n))) ≤ n)%Z.
Proof.
  intros Ht0 Ht1 Hn.
  destruct (binary64_round_count n Hn) as [Hr0 Hrn].
  set (r := binary64_round (inject_Z n)) in *.
  assert (0 <= t * r)%Q as Hx0
    by (apply Qmult_le_0_compat; [by apply Qlt_le_weak|done]).
  assert (t * r <= inject_Z n)%Q as Hxn.
  { apply Qle_trans with (1 * r)%Q; [|by rewrite Qmult_1_l].
    apply Qmult_le_compat_r; [by apply Qlt_le_weak|done]. }
  split.
  - rewrite <- (Qceiling_Z 0). apply Qceiling_resp_le.
    by apply binary64_round_nonneg.
  - apply Z.le_trans with (Qceiling (inject_Z n)); [|by rewrite Qceiling_Z].
    apply Qceiling_resp_le.
    unfold binary64_round. destruct (Qnum (t * r)) eqn:E.
    + rewrite <- (Zle_Qle 0%Z). lia.
    + assert (0 < t * r)%Q as Hpos by (apply Qnum_pos_iff; lia).
      apply binary64_round_pos_le; [done| |done].
      eapply Qle_lt_trans; [exact Hxn|].
      change 2%Q with (inject_Z 2). rewrite <- Zpower_Qpower by lia.
      rewrite <- Zlt_Qlt. lia.
    + exfalso. unfold Qle in Hx0. simpl in Hx0. simpl in E. lia.
Qed.

Lemma float_of_int_Ok (n : Z) (r : Q) :
  float_of_int n = Ok r → r = binary64_round (inject_Z n).
Proof.
  unfold float_of_int. destruct (_ || _); [done|]. by intros [= <-].
Qed.

(** The sizes the split routine accepts for fewer than [2 ^ 53] samples
    add up to the number of samples and leave at least one sample to
    train on; the test part has the number of samples asked for, or the
    ceiling of the float product of the fraction and the number of
    samples. *)
Lemma validate_shuffle_split_sizes (n : nat) (test_size : split_size)
    (n_train n_test : nat) :
  validate_shuffle_split n test_size = Ok (n_train, n_test) →
  (Z.of_nat n < 2 ^ 53)%Z →
  n_train + n_test = n ∧ 0 < n_train ∧
  match test_size with
  | SizeInt k => Z.of_nat n_test = k
  | SizeFloat q =>
      Z.of_nat n_test
      = Qceiling (binary64_round
                    (binary64_round q
                     * binary64_round (inject_Z (Z.of_nat n))))
  end.
Proof.
  unfold validate_shuffle_split. intros H H53.
  destruct test_size as [k|q].
  - destruct (_ || _) eqn:Hk; [done|]. rewrite bind_Ok in H.
    apply orb_false_iff in Hk as [Hk1 Hk2].
    apply Z.leb_gt in Hk1. apply Z.leb_gt in Hk2.
    destruct (_ =? _)%Z; [done|]. inversion H; subst. lia.
  - cbv zeta in H. destruct (_ || _) eqn:Hq; [done|].
    destruct (test_size_fraction q Hq) as (_ & Hlow & Hlt).
    assert (0 < binary64_round q)%Q as Hpos
      by (eapply Qlt_le_trans; [apply two_power_pos|exact Hlow]).
    destruct (float_of_int (Z.of_nat n)) as [r|e] eqn:Hr; [|done].
    apply float_of_int_Ok in Hr. subst r. rewrite !bind_Ok in H.
    pose proof (float_product_bounds (binary64_round q) (Z.of_nat n)
                  Hpos Hlt ltac:(lia)) as Hb.
    destruct (_ =? _)%Z eqn:Hz; [done|]. apply Z.eqb_neq in Hz.
    inversion H; subst. lia.
Qed.

(** Whatever sizes the split routine accepts, the train part takes at
    least what the test part leaves. *)
Lemma validate_shuffle_split_rest (n : nat) (test_size : split_size)
    (n_train n_test : nat) :
  validate_shuffle_split n test_size = Ok (n_train, n_test) →
  (n - n_test ≤ n_train)%nat.
Proof.
  unfold validate_shuffle_split. intros H. inv_bind H.
  destruct (_ =? _)%Z; [done|]. inversion H; subst. lia.
Qed.

(** What a successful call of the split routine hands back. *)
Lemma train_test_split_inv filenames labels test_size random_state
    x_train x_test y_train y_test :
  train_test_split rng_permutation filenames labels test_size random_state
  = Ok (x_train, x_test, y_train, y_test) →
  ∃ n_train n_test,
    validate_shuffle_split (length filenames) test_size = Ok (n_train, n_test) ∧
    length filenames = length labels ∧
    let permutation := rng_permutation random_state (length filenames) in
    safe_indexing filenames (drop n_test permutation) = Ok x_train ∧
    safe_indexing filenames (take n_test permutation) = Ok x_test ∧
    safe_indexing labels (drop n_test permutation) = Ok y_train ∧
    safe_indexing labels (take n_test permutation) = Ok y_test.
Proof using rng_permutation_perm.
  intros H. unfold train_test_split in H.
  case_bool_decide as Hlen; [|done].
  destruct (validate_shuffle_split _ _) as [[n_train n_test]|e] eqn:Hv; [|done].
  rewrite bind_Ok in H. destruct (_ && _); [|done].
  pose proof (validate_shuffle_split_rest _ _ _ _ Hv) as Hrest.
  assert (take n_train (drop n_test (rng_permutation random_state
                                        (length filenames)))
          = drop n_test (rng_permutation random_state (length filenames)))
    as Htake.
  { apply take_ge. rewrite length_drop, rng_permutation_perm, length_seq. lia. }
  rewrite Htake in H.
  inv_bind H. inv_bind H. inv_bind H. inv_bind H. inversion H; subst.
  exists n_train, n_test. done.
Qed.

(** What a successful rebuild has gone through. *)
Lemma run_rebuild_Ok_inv (w w' : world) (root_dir : string)
    (validation_size : split_size) (random_state : Z) (override : bool)
    (tf tl vf vl : pyobj) :
  split_is_cached (w_fs w) root_dir override = false →
  run (rsna_train_valid_split float_of_string rng_permutation
         root_dir validation_size random_state override) w
  = (Ok (tf, tl, vf, vl), w') →
  ∃ names rows labels_dict labels x_train x_test y_train y_test,
    listdir (w_fs w) (path_join root_dir "stage_2_train") = Ok names ∧
    csv_rows (w_fs w) (path_join root_dir "stage_2_train.csv") = Ok rows ∧
    read_labels_dict float_of_string rows = Ok labels_dict ∧
    collect_labels labels_dict (remove_corrupted names) = Ok labels ∧
    train_test_split rng_permutation (remove_corrupted names) labels
      validation_size random_state = Ok (x_train, x_test, y_train, y_test) ∧
    tf = PyStrList x_train ∧ tl = PyArray y_train ∧
    vf = PyStrList x_test ∧ vl = PyArray y_test ∧
    w_fs w'
    = fs_write (fs_write (fs_write (fs_write (w_fs w)
        root_dir "train_file_split" (PickleFile (PyStrList x_train)))
        root_dir "train_label_split" (PickleFile (PyArray y_train)))
        root_dir "validation_file_split" (PickleFile (PyStrList x_test)))
        root_dir "validation_label_split" (PickleFile (PyArray y_test)).
Proof.
  intros Hc Hrun.
  destruct (run_rebuild w root_dir validation_size random_state override Hc)
    as [log' Hr].
  rewrite Hr in Hrun. clear Hr.
  destruct (rebuild_value _ _ _ _ _ _)
    as [[[[x_train x_test] y_train] y_test]|e] eqn:Hv; [|done].
  inversion Hrun; subst; clear Hrun.
  unfold rebuild_value in Hv.
  inv_bind Hv. inv_bind Hv. inv_bind Hv. inv_bind Hv.
  by exists a, a0, a1, a2, x_train, x_test, y_train, y_test.
Qed.

(** X1: a split the builder builds from fewer than [2 ^ 53] usable
    files has the validation names asked for: their number itself, or
    for a fraction the ceiling of the float product of the fraction
    and the number of usable files; the other names, at least one, are
    the train part, and each part has as many label rows as names. *)
Theorem built_split_sizes
    (w w' : world) (root_dir : string) (validation_size : split_size)
    (random_state : Z) (override : bool) (names : list string)
    (tf tl vf vl : pyobj) :
  split_is_cached (w_fs w) root_dir override = false →
  listdir (w_fs w) (path_join root_dir "stage_2_train") = Ok names →
  (Z.of_nat (length (remove_corrupted names)) < 2 ^ 53)%Z →
  run (rsna_train_valid_split float_of_string rng_permutation
         root_dir validation_size random_state override) w
  = (Ok (tf, tl, vf, vl), w') →
  ∃ train_filenames train_labels validation_filenames validation_labels,
    tf = PyStrList train_filenames ∧ tl = PyArray train_labels ∧
    vf = PyStrList validation_filenames ∧ vl = PyArray validation_labels ∧
    length train_filenames + length validation_filenames
    = length (remove_corrupted names) ∧
    0 < length train_filenames ∧
    length train_labels = length train_filenames ∧
    length validation_labels = length validation_filenames ∧
    match validation_size with
    | SizeInt k => Z.of_nat (length validation_filenames) = k
    | SizeFloat q =>
        Z.of_nat (length validation_filenames)
        = Qceiling
            (binary64_round
               (binary64_round q
                * binary64_round
                    (inject_Z (Z.of_nat (length (remove_corrupted names))))))
    end.
Proof using rng_permutation_perm.
  intros Hc Hnames H53 Hrun.
  destruct (run_rebuild_Ok_inv _ _ _ _ _ _ _ _ _ _ Hc Hrun)
    as (names' & rows & d & labels & x_train & x_test & y_train & y_test
        & Hn & _ & _ & _ & Hsplit & -> & -> & -> & -> & _).
  rewrite Hnames in Hn. inversion Hn; subst names'. clear Hn.
  destruct (train_test_split_inv _ _ _ _ _ _ _ _ Hsplit)
    as (n_train & n_test & Hv & Hlen & Hxtr & Hxte & Hytr & Hyte).
  destruct (validate_shuffle_split_sizes _ _ _ _ Hv H53)
    as (Hsum & Hpos & Hsize).
  apply mapR_length in Hxtr, Hxte, Hytr, Hyte.
  rewrite length_drop, rng_permutation_perm, length_seq in Hxtr, Hytr.
  rewrite length_take, rng_permutation_perm, length_seq in Hxte, Hyte.
  exists x_train, y_train, x_test, y_test.
  repeat (split; [done|]).
  assert (length x_test = n_test) as Hte by lia.
  rewrite Hte. repeat (split; [lia|]). done.
Qed.

Lemma safe_indexing_all {A} (xs : list A) :
  safe_indexing xs (seq 0 (length xs)) = Ok xs.
Proof.
  unfold safe_indexing.
  assert (∀ pre : list A,
            mapR (λ i, match (pre ++ xs)%list !! i with
                       | Some x => Ok x
                       | None => Raise IndexError
                       end) (seq (length pre) (length xs))
            = Ok xs) as H.
  { induction xs as [|x xs IH]; intros pre; simpl; [done|].
    rewrite lookup_app_r, Nat.sub_diag by lia. simpl.
    replace (pre ++ x :: xs)%list with ((pre ++ [x]) ++ xs)%list
      by (by rewrite <- app_assoc).
    replace (S (length pre)) with (length (pre ++ [x])%list)
      by (rewrite length_app; simpl; lia).
    by rewrite IH. }
  exact (H []).
Qed.

(** X2: the split is a split of everything: the train names and the
    validation names together are the listed files without the
    known-corrupted ones, each once, none lost. *)
Theorem built_split_covers_listing
    (w w' : world) (root_dir : string) (validation_size : split_size)
    (random_state : Z) (override : bool) (names : list string)
    (tf tl vf vl : pyobj) :
  split_is_cached (w_fs w) root_dir override = false →
  listdir (w_fs w) (path_join root_dir "stage_2_train") = Ok names →
  run (rsna_train_valid_split float_of_string rng_permutation
         root_dir validation_size random_state override) w
  = (Ok (tf, tl, vf, vl), w') →
  ∃ train_filenames validation_filenames,
    tf = PyStrList train_filenames ∧ vf = PyStrList validation_filenames ∧
    (train_filenames ++ validation_filenames)%list ≡ₚ remove_corrupted names.
Proof using rng_permutation_perm.
  intros Hc Hnames Hrun.
  destruct (run_rebuild_Ok_inv _ _ _ _ _ _ _ _ _ _ Hc Hrun)
    as (names' & rows & d & labels & x_train & x_test & y_train & y_test
        & Hn & _ & _ & _ & Hsplit & -> & -> & -> & -> & _).
  rewrite Hnames in Hn. inversion Hn; subst names'. clear Hn.
  destruct (train_test_split_inv _ _ _ _ _ _ _ _ Hsplit)
    as (n_train & n_test & _ & _ & Hxtr & Hxte & _ & _).
  exists x_train, x_test. split; [done|]. split; [done|].
  set (total := remove_corrupted names) in *.
  rewrite (safe_indexing_map "" _ _ _ Hxtr), (safe_indexing_map "" _ _ _ Hxte).
  rewrite (safe_indexing_map "" total (seq 0 (length total)) total
             (safe_indexing_all total)) at 3.
  rewrite <- map_app. apply Permutation_map.
  rewrite Permutation_app_comm, take_drop. apply rng_permutation_perm.
Qed.

Lemma safe_indexing_related {A B} (R : A → B → Prop) (xs : list A) (ys : list B)
    (indices : list nat) (xs' : list A) (ys' : list B) :
  Forall2 R xs ys →
  safe_indexing xs indices = Ok xs' →
  safe_indexing ys indices = Ok ys' →
  Forall2 R xs' ys'.
Proof.
  intros HR Hx Hy.
  apply safe_indexing_Forall2 in Hx. apply safe_indexing_Forall2 in Hy.
  revert ys' Hy. induction Hx as [|i x idx xs' Hi _ IH]; intros ys' Hy.
  - inversion Hy. constructor.
  - inversion Hy as [|? y ? ys'' Hj Hrest]; subst. constructor; [|by apply IH].
    destruct (Forall2_lookup_l _ _ _ _ _ HR Hi) as (y' & Hy' & Hxy).
    congruence.
Qed.

(** X3: labels stay with their files through the shuffle: in both
    parts the label row at an index holds the six table values of the
    file name at that index. *)
Theorem built_split_labels_follow_files
    (w w' : world) (root_dir : string) (validation_size : split_size)
    (random_state : Z) (override : bool) (rows : list (list string))
    (labels_dict : gmap string float) (tf tl vf vl : pyobj) :
  split_is_cached (w_fs w) root_dir override = false →
  csv_rows (w_fs w) (path_join root_dir "stage_2_train.csv") = Ok rows →
  read_labels_dict float_of_string rows = Ok labels_dict →
  run (rsna_train_valid_split float_of_string rng_permutation
         root_dir validation_size random_state override) w
  = (Ok (tf, tl, vf, vl), w') →
  ∃ train_filenames train_labels validation_filenames validation_labels,
    tf = PyStrList train_filenames ∧ tl = PyArray train_labels ∧
    vf = PyStrList validation_filenames ∧ vl = PyArray validation_labels ∧
    Forall2 (λ filename label,
               mapR (dict_getitem labels_dict) (label_keys filename) = Ok label)
            train_filenames train_labels ∧
    Forall2 (λ filename label,
               mapR (dict_getitem labels_dict) (label_keys filename) = Ok label)
            validation_filenames validation_labels.
Proof using rng_permutation_perm.
  intros Hc Hrows Hdict Hrun.
  destruct (run_rebuild_Ok_inv _ _ _ _ _ _ _ _ _ _ Hc Hrun)
    as (names & rows' & d & labels & x_train & x_test & y_train & y_test
        & _ & Hr & Hd & Hlabels & Hsplit & -> & -> & -> & -> & _).
  rewrite Hrows in Hr. inversion Hr; subst rows'. clear Hr.
  rewrite Hdict in Hd. inversion Hd; subst d. clear Hd.
  destruct (train_test_split_inv _ _ _ _ _ _ _ _ Hsplit)
    as (n_train & n_test & _ & _ & Hxtr & Hxte & Hytr & Hyte).
  apply mapR_Forall2 in Hlabels.
  exists x_train, y_train, x_test, y_test.
  repeat (split; [done|]).
  split; eapply safe_indexing_related; eauto.
Qed.

(** A call that finds the four artifacts and may use them: what it
    returns and what it leaves. *)
Lemma run_cached (w : world) (root_dir : string) (validation_size : split_size)
    (random_state : Z) (tf tl vf vl : pyobj) :
  files (w_fs w) !! path_join root_dir "train_file_split" = Some (PickleFile tf) →
  files (w_fs w) !! path_join root_dir "train_label_split" = Some (PickleFile tl) →
  files (w_fs w) !! path_join root_dir "validation_file_split" = Some (PickleFile vf) →
  files (w_fs w) !! path_join root_dir "validation_label_split" = Some (PickleFile vl) →
  let outcome := run (rsna_train_valid_split float_of_string rng_permutation
                        root_dir validation_size random_state false) w in
  outcome.1 = Ok (tf, tl, vf, vl) ∧ w_fs outcome.2 = w_fs w.
Proof.
  intros Htf Htl Hvf Hvl.
  assert (∀ p o, files (w_fs w) !! p = Some (PickleFile o) →
                 isfile (w_fs w) p = true) as Hfile.
  { intros p o Hp. unfold isfile. rewrite Hp. by apply bool_decide_eq_true_2. }
  unfold rsna_train_valid_split, and_then. cbv zeta.
  rewrite !run_bind, run_isfile, (Hfile _ _ Htf).
  rewrite run_bind, run_isfile, !w_fs_log_event, (Hfile _ _ Hvf).
  rewrite run_bind, run_isfile, !w_fs_log_event, (Hfile _ _ Htl).
  rewrite run_bind, run_isfile, !w_fs_log_event, (Hfile _ _ Hvl).
  cbn [negb run mret io_ret].
  rewrite run_bind, (run_pickle_load _ _ tf) by done.
  rewrite run_bind, (run_pickle_load _ _ tl) by done.
  rewrite run_bind, (run_pickle_load _ _ vf) by done.
  rewrite run_bind, (run_pickle_load _ _ vl) by done.
  done.
Qed.

Lemma artifact_paths_differ (root_dir name1 name2 : string) :
  String.prefix "/" name1 = false → String.prefix "/" name2 = false →
  name1 ≠ name2 → path_join root_dir name1 ≠ path_join root_dir name2.
Proof. intros H1 H2 Hne E. by apply path_join_inj in E. Qed.

(** X4: what a build persists is what a later call loads: after a
    successful build, a call without override returns the very same
    four collections, whatever validation size and seed it is given,
    and writes nothing. *)
Theorem build_then_load_round_trip
    (w w' : world) (root_dir : string) (validation_size size' : split_size)
    (random_state seed' : Z) (override : bool)
    (built : pyobj * pyobj * pyobj * pyobj) :
  split_is_cached (w_fs w) root_dir override = false →
  run (rsna_train_valid_split float_of_string rng_permutation
         root_dir validation_size random_state override) w
  = (Ok built, w') →
  let later := run (rsna_train_valid_split float_of_string rng_permutation
                      root_dir size' seed' false) w' in
  later.1 = Ok built ∧ w_fs later.2 = w_fs w'.
Proof.
  intros Hc Hrun. destruct built as [[[tf tl] vf] vl].
  destruct (run_rebuild_Ok_inv _ _ _ _ _ _ _ _ _ _ Hc Hrun)
    as (names & rows & d & labels & x_train & x_test & y_train & y_test
        & _ & _ & _ & _ & _ & -> & -> & -> & -> & Hfs).
  apply run_cached; rewrite Hfs; unfold fs_write; simpl.
  - rewrite !lookup_insert_ne by (by apply artifact_paths_differ).
    apply lookup_insert_eq.
  - rewrite !lookup_insert_ne by (by apply artifact_paths_differ).
    apply lookup_insert_eq.
  - rewrite !lookup_insert_ne by (by apply artifact_paths_differ).
    apply lookup_insert_eq.
  - apply lookup_insert_eq.
Qed.

Lemma run_cached_branch_fs (w : world) (root_dir : string)
    (validation_size : split_size) (random_state : Z) (override : bool) :
  split_is_cached (w_fs w) root_dir override = true →
  w_fs (run (rsna_train_valid_split float_of_string rng_permutation
               root_dir validation_size random_state override) w).2
  = w_fs w.
Proof.
  intros Hc. unfold rsna_train_valid_split. cbv zeta. rewrite run_bind.
  destruct (run_cached_check w root_dir override) as [log0 ->]. rewrite Hc.
  unfold pickle_load, io_read. rewrite !run_bind. simpl.
  repeat (case_match; simpl; try done).
Qed.

(** X5: a call that fails has written nothing: the file system is as
    it was before the call, so no half-written split is left behind. *)
Theorem failed_call_writes_nothing
    (w : world) (root_dir : string) (validation_size : split_size)
    (random_state : Z) (override : bool) (e : exn) :
  let outcome := run (rsna_train_valid_split float_of_string rng_permutation
                        root_dir validation_size random_state override) w in
  outcome.1 = Raise e → w_fs outcome.2 = w_fs w.
Proof.
  intros outcome. unfold outcome.
  destruct (split_is_cached (w_fs w) root_dir override) eqn:Hc.
  - intros _. by apply run_cached_branch_fs.
  - destruct (run_rebuild w root_dir validation_size random_state override Hc)
      as [log' ->].
    by destruct (rebuild_value _ _ _ _ _ _)
      as [[[[x_train x_test] y_train] y_test]|e'].
Qed.

(** X6: the builder touches no file but its four artifacts: whatever
    the call does, every other path holds afterwards what it held
    before, and every directory but the root lists what it listed. *)
Theorem builder_touches_only_its_artifacts
    (w : world) (root_dir : string) (validation_size : split_size)
    (random_state : Z) (override : bool) (path dir : string) :
  path ≠ path_join root_dir "train_file_split" →
  path ≠ path_join root_dir "train_label_split" →
  path ≠ path_join root_dir "validation_file_split" →
  path ≠ path_join root_dir "validation_label_split" →
  dir ≠ root_dir →
  let after :=
    w_fs (run (rsna_train_valid_split float_of_string rng_permutation
                 root_dir validation_size random_state override) w).2 in
  files after !! path = files (w_fs w) !! path ∧
  dirs after !! dir = dirs (w_fs w) !! dir.
Proof.
  intros H1 H2 H3 H4 Hd after. unfold after. clear after.
  destruct (split_is_cached (w_fs w) root_dir override) eqn:Hc.
  - by rewrite run_cached_branch_fs.
  - destruct (run_rebuild w root_dir validation_size random_state override Hc)
      as [log' ->].
    destruct (rebuild_value _ _ _ _ _ _)
      as [[[[x_train x_test] y_train] y_test]|e']; [|done].
    unfold fs_write. simpl. split.
    + by rewrite !lookup_insert_ne.
    + by rewrite !lookup_alter_ne.
Qed.

Lemma float_of_int_0 : float_of_int 0 = Ok 0%Q.
Proof. vm_compute. reflexivity. Qed.

Lemma float_of_int_1 : ∃ r, float_of_int 1 = Ok r ∧ (r == 1)%Q.
Proof. eexists. split; [vm_compute; reflexivity|reflexivity]. Qed.

(** A float in (0, 1] has ceiling one. *)
Lemma Qceiling_unit (y : Q) : (0 < y)%Q → (y <= 1)%Q → Qceiling y = 1%Z.
Proof.
  intros H0 H1.
  pose proof (Qceiling_resp_le _ _ H1) as Hup.
  change 1%Q with (inject_Z 1) in Hup. rewrite Qceiling_Z in Hup.
  pose proof (Qlt_le_trans _ _ _ H0 (Qle_ceiling y)) as Hlow.
  rewrite <- (Zlt_Qlt 0%Z) in Hlow. lia.
Qed.

(** One sample or none cannot be split: the float product of a
    fraction with zero is zero and with one the fraction itself, so
    nothing is left to train on. *)
Lemma validate_shuffle_split_small (n : nat) (test_size : split_size) :
  (n ≤ 1)%nat → validate_shuffle_split n test_size = Raise ValueError.
Proof.
  intros Hn. unfold validate_shuffle_split.
  destruct test_size as [k|q].
  - destruct (_ || _) eqn:Hk; [done|]. rewrite bind_Ok.
    apply orb_false_iff in Hk as [Hk1 Hk2].
    apply Z.leb_gt in Hk1. apply Z.leb_gt in Hk2. lia.
  - cbv zeta. destruct (_ || _) eqn:Hq; [done|].
    destruct (test_size_fraction q Hq) as (_ & Hlow & Hlt).
    set (t := binary64_round q) in *.
    assert (n = 0 ∨ n = 1) as [-> | ->] by lia.
    + change (Z.of_nat 0) with 0%Z. rewrite float_of_int_0, !bind_Ok.
      assert (binary64_round (t * 0) = 0%Q) as ->; [|done].
      unfold binary64_round. simpl. by rewrite Z.mul_0_r.
    + destruct float_of_int_1 as (r & Hr & Er).
      change (Z.of_nat 1) with 1%Z. rewrite Hr, !bind_Ok.
      assert (t * r == t)%Q as Ex by (by rewrite Er, Qmult_1_r).
      assert (2 ^ (-1074) <= t * r)%Q as Hxlow by (by rewrite Ex).
      assert (0 < t * r)%Q as Hxpos
        by (eapply Qlt_le_trans; [apply two_power_pos|exact Hxlow]).
      assert (Qceiling (binary64_round (t * r)) = 1%Z) as ->; [|done].
      rewrite binary64_round_of_pos by done. apply Qceiling_unit.
      * eapply Qlt_le_trans;
          [apply two_power_pos|by apply binary64_round_pos_low].
      * change 1%Q with (inject_Z 1). apply binary64_round_pos_le; [done| |].
        -- rewrite Ex. eapply Qlt_trans; [exact Hlt|reflexivity].
        -- rewrite Ex. by apply Qlt_le_weak.
Qed.

(** X7: the builder needs two usable files: with the listing, the
    table and the labels all in order but at most one file left after
    the known-corrupted ones are dropped, it raises [ValueError] for
    every validation size and every seed, and writes nothing. *)
Theorem too_few_files_cannot_be_split
    (w : world) (root_dir : string) (validation_size : split_size)
    (random_state : Z) (override : bool)
    (names : list string) (rows : list (list string))
    (labels_dict : gmap string float) (labels : list (list float)) :
  split_is_cached (w_fs w) root_dir override = false →
  listdir (w_fs w) (path_join root_dir "stage_2_train") = Ok names →
  csv_rows (w_fs w) (path_join root_dir "stage_2_train.csv") = Ok rows →
  read_labels_dict float_of_string rows = Ok labels_dict →
  collect_labels labels_dict (remove_corrupted names) = Ok labels →
  (length (remove_corrupted names) ≤ 1)%nat →
  let outcome := run (rsna_train_valid_split float_of_string rng_permutation
                        root_dir validation_size random_state override) w in
  outcome.1 = Raise ValueError ∧ w_fs outcome.2 = w_fs w.
Proof.
  intros Hc Hnames Hrows Hdict Hlabels Hfew outcome. unfold outcome.
  destruct (run_rebuild w root_dir validation_size random_state override Hc)
    as [log' ->].
  unfold rebuild_value.
  rewrite Hnames, bind_Ok, Hrows, bind_Ok, Hdict, bind_Ok, Hlabels, bind_Ok.
  unfold train_test_split.
  rewrite bool_decide_eq_true_2
    by (symmetry; by eapply mapR_length).
  by rewrite validate_shuffle_split_small.
Qed.

Lemma filter_all {A} (P : A → Prop) `{∀ x, Decision (P x)} (l : list A) :
  Forall P l → filter P l = l.
Proof.
  induction 1 as [|x l Hx _ IH]; [done|].
  by rewrite filter_cons_True, IH.
Qed.

Lemma list_remove_filter (x : string) (l : list string) :
  NoDup l → list_remove x l = filter (λ y, y ≠ x) l.
Proof.
  induction 1 as [|y l Hy Hl IH]; simpl; [done|].
  case_bool_decide as E.
  - subst y. rewrite filter_cons_False by (intros Hne; by apply Hne).
    symmetry. apply filter_all. apply Forall_forall. intros z Hz ->. done.
  - by rewrite filter_cons_True, IH.
Qed.

(** X8: dropping the known-corrupted files keeps every other listed
    file, in the order of the listing. *)
Theorem remove_corrupted_keeps_the_rest (names : list string) :
  NoDup names →
  remove_corrupted names = filter (λ name, name ∉ corrupted_files) names.
Proof.
  intros Hnd. unfold remove_corrupted, corrupted_files. simpl.
  rewrite (list_filter_iff (λ name, name ∉ ["ID_6431af929.dcm"])
             (λ name, name ≠ "ID_6431af929.dcm"))
    by (intros name; by rewrite list_elem_of_singleton).
  case_bool_decide as Hin.
  - by apply list_remove_filter.
  - symmetry. apply filter_all. apply Forall_forall. intros z Hz ->. done.
Qed.

Lemma foldlR_app {A B} (f : A → B → result A) (a : A) (xs ys : list B) :
  foldlR f a (xs ++ ys) = a' ← foldlR f a xs; foldlR f a' ys.
Proof.
  revert a. induction xs as [|x xs IH]; intros a; simpl; [done|].
  destruct (f a x) as [a'|e]; simpl; [apply IH|done].
Qed.

(** X9: in the label table a later row overrides an earlier one of the
    same key, and columns past the second are ignored: a row appended
    to a table that reads well sets its key to its own value. *)
Theorem later_label_row_overrides
    (rows : list (list string)) (labels_dict : gmap string float)
    (key cell : string) (more : list string) (value : float) :
  rows ≠ [] →
  read_labels_dict float_of_string rows = Ok labels_dict →
  float_of_string cell = Ok value →
  read_labels_dict float_of_string (rows ++ [key :: cell :: more])
  = Ok (<[key := value]> labels_dict).
Proof.
  intros Hne Hd Hcell. unfold read_labels_dict in *.
  destruct rows as [|header body]; [done|].
  rewrite <- app_comm_cons. simpl drop in *. rewrite drop_0 in *.
  rewrite foldlR_app, Hd, bind_Ok. simpl.
  unfold py_getitem. simpl. by rewrite Hcell.
Qed.

(** ** More on the readers *)

Lemma mapR_raises_in {A B} (P : exn → Prop) (f : A → result B) (xs : list A) :
  (∀ x e, x ∈ xs → f x = Raise e → P e) →
  (∃ x, x ∈ xs ∧ ∃ e, f x = Raise e) →
  ∃ e, mapR f xs = Raise e ∧ P e.
Proof.
  intros HP (x & Hx & e & He).
  induction xs as [|z xs IH]; [by apply elem_of_nil in Hx|]. simpl.
  destruct (f z) as [y|e'] eqn:Hz.
  - apply elem_of_cons in Hx as [->|Hx]; [congruence|].
    destruct IH as (e'' & -> & HP''); [|done|simpl; eauto].
    intros x' e0 Hx' He0. eapply HP; [by right|done].
  - simpl. exists e'. split; [done|]. eapply HP; [by left|done].
Qed.

(** X10: an existing DICOM file that lacks one of the four calibration
    elements makes the planar reader raise [KeyError] for a missing
    element, whatever the other elements and the pixels hold. *)
Theorem read_2d_missing_calibration_element
    (fs : filesystem) (path : string) (data : dicom) (missing : string * string) :
  files fs !! path = Some (DicomFile data) →
  missing ∈ [("0028", "1050"); ("0028", "1051");
             ("0028", "1052"); ("0028", "1053")] →
  elements data !! missing = None →
  ∃ tag,
    tag ∈ [("0028", "1050"); ("0028", "1051");
           ("0028", "1052"); ("0028", "1053")] ∧
    elements data !! tag = None ∧
    _read_image_2d fs (Some path) = Raise (KeyError (tag.1 ++ "," ++ tag.2)).
Proof.
  intros Hf Hin Hnone.
  unfold _read_image_2d, isfile, pydicom_read_file.
  rewrite Hf, bool_decide_eq_true_2 by eauto. rewrite bind_Ok.
  unfold _get_windowing, dicom_field. cbn [elements]. rewrite !lookup_fmap.
  destruct (elements data !! ("0028", "1050")) as [c|] eqn:Hc;
    [|exists ("0028", "1050"); repeat split; [repeat constructor|done..]].
  destruct (elements data !! ("0028", "1051")) as [w|] eqn:Hw;
    [|exists ("0028", "1051"); repeat split; [repeat constructor|done..]].
  destruct (elements data !! ("0028", "1052")) as [i|] eqn:Hi;
    [|exists ("0028", "1052"); repeat split; [repeat constructor|done..]].
  destruct (elements data !! ("0028", "1053")) as [sl|] eqn:Hs;
    [|exists ("0028", "1053"); repeat split; [repeat constructor|done..]].
  exfalso.
  repeat (apply elem_of_cons in Hin as [->|Hin]; [congruence|]).
  by apply elem_of_nil in Hin.
Qed.

(** X11: a calibration element stored with no value is read back as
    [None]: with all four elements there and the others converting,
    the planar reader raises [TypeError], the failure of
    [int(None)]. *)
Theorem read_2d_element_without_value
    (fs : filesystem) (path : string) (data : dicom)
    (center width intercept slope : dicom_value) :
  files fs !! path = Some (DicomFile data) →
  elements data !! ("0028", "1050") = Some center →
  elements data !! ("0028", "1051") = Some width →
  elements data !! ("0028", "1052") = Some intercept →
  elements data !! ("0028", "1053") = Some slope →
  MultiValue [] ∈ [center; width; intercept; slope] →
  (∀ v, v ∈ [center; width; intercept; slope] → v ≠ MultiValue [] →
        is_ok (_get_first_of_dicom_field_as_int (read_value v)) = true) →
  _read_image_2d fs (Some path) = Raise TypeError.
Proof.
  intros Hf Hc Hw Hi Hs Hempty Hothers.
  unfold _read_image_2d, isfile, pydicom_read_file.
  rewrite Hf, bool_decide_eq_true_2 by eauto. rewrite bind_Ok.
  unfold _get_windowing, dicom_field. cbn [elements].
  rewrite !lookup_fmap, Hc, Hw, Hi, Hs.
  cbn [fmap option_fmap option_map]. rewrite !bind_Ok.
  change [read_value center; read_value width; read_value intercept;
          read_value slope]
    with (map read_value [center; width; intercept; slope]).
  destruct (mapR_raises_in (λ e, e = TypeError)
              _get_first_of_dicom_field_as_int
              (map read_value [center; width; intercept; slope]))
    as (e & -> & ->); [| |done].
  - intros x e Hx He.
    apply list_elem_of_fmap in Hx as (v & -> & Hv).
    destruct v as [y|[|y vs]]; [|by inversion He|].
    + specialize (Hothers _ Hv ltac:(discriminate)). by rewrite He in Hothers.
    + specialize (Hothers _ Hv ltac:(discriminate)). by rewrite He in Hothers.
  - exists (Single PyNone). split; [|by exists TypeError].
    apply list_elem_of_fmap. by exists (MultiValue []).
Qed.

Lemma build3_get3 (a b c : nat) (t : tensor3) :
  rect3 a b c t → build3 a b c (get3 t) = t.
Proof.
  intros [<- Hplanes]. unfold build3, get3.
  rewrite (map_seq_lookup
             (λ o, map (λ j, map (λ k, default NaN
                                        (o ≫= λ m, m !! j ≫= λ r, r !! k))
                                 (seq 0 c)) (seq 0 b)) t).
  transitivity (map id t); [|apply map_id]. apply map_ext_Forall.
  eapply Forall_impl; [exact Hplanes|]. intros m Hm. simpl.
  exact (build2_get2 b c m Hm).
Qed.

Lemma get3_build3 (a b c : nat) f (i j k : nat) :
  i < a → j < b → k < c → get3 (build3 a b c f) i j k = f i j k.
Proof.
  intros Hi Hj Hk. unfold get3, build3.
  rewrite list_lookup_fmap, lookup_seq_lt by done. simpl.
  rewrite list_lookup_fmap, lookup_seq_lt by done. simpl.
  by rewrite list_lookup_fmap, lookup_seq_lt.
Qed.

Lemma build3_ext (a b c : nat) f g :
  (∀ i j k, i < a → j < b → k < c → f i j k = g i j k) →
  build3 a b c f = build3 a b c g.
Proof.
  intros H. unfold build3.
  apply map_ext_in. intros i Hi. apply in_seq in Hi.
  apply map_ext_in. intros j Hj. apply in_seq in Hj.
  apply map_ext_in. intros k Hk. apply in_seq in Hk.
  apply H; lia.
Qed.

(** X12: the two axis permutations the volumetric reader puts around
    the rotation undo each other: on a volume with no empty axis,
    [permute(2, 0, 1)] followed by [permute(1, 2, 0)] gives the volume
    back, so the reader changes the slices and nothing else. *)
Theorem permutes_of_reader_cancel (a b c : nat) (v : tensor3) :
  rect3 a b c v → 0 < a → 0 < b → 0 < c →
  permute (permute v 2 0 1) 1 2 0 = v.
Proof.
  intros Hv Ha Hb Hc.
  assert (permute v 2 0 1 = build3 c a b (λ k i j, get3 v i j k)) as ->.
  { unfold permute.
    by destruct (size3_rect _ _ _ _ Hv Ha Hb) as (-> & -> & ->). }
  unfold permute.
  destruct (size3_rect _ _ _ _ (build3_rect c a b (λ k i j, get3 v i j k))
              Hc Ha) as (-> & -> & ->).
  simpl. transitivity (build3 a b c (get3 v)); [|by apply build3_get3].
  apply build3_ext. intros i j k Hi Hj Hk. by rewrite get3_build3.
Qed.

(** X13: read with [do_rotate], a volume with no empty axis comes back
    in the shape it was stored in. *)
Theorem read_3d_rotated_keeps_shape
    (fs : filesystem) (path : string) (v : tensor3) (h w d : nat) :
  files fs !! path = Some (NiftiFile v) →
  rect3 h w d v → 0 < h → 0 < w → 0 < d →
  ∃ v', _read_image_3d rotate fs (Some path) true = Ok v' ∧ rect3 h w d v'.
Proof using rotate_planewise rotate_plane_rect.
  intros Hf Hv Hh Hw Hd.
  unfold _read_image_3d, isfile, nibabel_load.
  rewrite Hf, bool_decide_eq_true_2 by eauto. rewrite bind_Ok.
  eexists. split; [done|].
  rewrite (permute_201 h w d) by done. rewrite rotate_planewise.
  set (u := map (rotate_plane 90) (map (slice_at v) (seq 0 d))).
  assert (rect3 d h w u) as Hu.
  { split; [unfold u; by rewrite !length_map, length_seq|].
    unfold u. rewrite !Forall_map. apply Forall_forall. intros i _. simpl.
    apply rotate_plane_rect. by apply (slice_at_rect h w d). }
  unfold permute.
  destruct (size3_rect _ _ _ _ Hu Hd Hh) as (-> & -> & ->).
  apply build3_rect.
Qed.

(** ** More on the dataset adapters *)

Lemma py_getitem_out_of_range {A} (l : list A) (i : Z) :
  (i < - Z.of_nat (length l) ∨ Z.of_nat (length l) ≤ i)%Z →
  py_getitem l i = Raise IndexError.
Proof.
  intros Hi. unfold py_getitem. cbv zeta.
  destruct (i <? 0)%Z eqn:Hneg.
  - apply Z.ltb_lt in Hneg.
    replace (i + Z.of_nat (length l) <? 0)%Z with true; [done|].
    symmetry. apply Z.ltb_lt. lia.
  - rewrite Hneg. apply Z.ltb_ge in Hneg.
    by rewrite lookup_ge_None_2 by lia.
Qed.

Lemma py_getitem_in_range {A} (l : list A) (i : Z) :
  (0 ≤ i < Z.of_nat (length l))%Z → ∃ x, py_getitem l i = Ok x.
Proof.
  intros Hi. unfold py_getitem. cbv zeta.
  assert ((i <? 0)%Z = false) as Hneg by (apply Z.ltb_ge; lia).
  rewrite Hneg, Hneg.
  destruct (lookup_lt_is_Some_2 l (Z.to_nat i) ltac:(lia)) as [x ->]. eauto.
Qed.

Lemma py_getitem_negative {A} (l : list A) (i : Z) :
  (- Z.of_nat (length l) ≤ i < 0)%Z →
  py_getitem l i = py_getitem l (i + Z.of_nat (length l)).
Proof.
  intros Hi. unfold py_getitem. cbv zeta.
  assert ((i <? 0)%Z = true) as Hneg by (apply Z.ltb_lt; lia).
  assert ((i + Z.of_nat (length l) <? 0)%Z = false) as Hpos
    by (apply Z.ltb_ge; lia).
  by rewrite Hneg, !Hpos.
Qed.

(** X14: indexed access of the RSNA adapter past either end of the
    file names raises [IndexError], whatever the file system holds: no
    file is looked at. *)
Theorem rsna_getitem_index_out_of_range
    (self : RSNAICHDataset) (fs : filesystem) (item : Z) :
  (item < - Z.of_nat (RSNAICHDataset_len self)
   ∨ Z.of_nat (RSNAICHDataset_len self) ≤ item)%Z →
  RSNAICHDataset_getitem window_image self fs item = Raise IndexError.
Proof.
  intros Hi. unfold RSNAICHDataset_getitem.
  by rewrite (py_getitem_out_of_range (rsna_filenames self) item Hi).
Qed.

(** X15: with as many labels as file names, a negative index reads
    from the end: the sample at [item] is the sample at
    [item + len]. *)
Theorem rsna_getitem_negative_index
    (self : RSNAICHDataset) (fs : filesystem) (item : Z) :
  length (rsna_labels self) = length (rsna_filenames self) →
  (- Z.of_nat (RSNAICHDataset_len self) ≤ item < 0)%Z →
  RSNAICHDataset_getitem window_image self fs item
  = RSNAICHDataset_getitem window_image self fs
      (item + Z.of_nat (RSNAICHDataset_len self)).
Proof.
  intros Hlen Hi. unfold RSNAICHDataset_getitem, RSNAICHDataset_len in *.
  rewrite (py_getitem_negative (rsna_filenames self)) by done.
  rewrite (py_getitem_negative (rsna_labels self)) by (rewrite Hlen; done).
  by rewrite Hlen.
Qed.

(** X16: the adapter checks no file when it is built; a listed name
    whose file is not in the train directory surfaces at access, as
    the reader's failed assertion. *)
Theorem rsna_getitem_missing_file
    (self : RSNAICHDataset) (fs : filesystem) (item : Z) (filename : string) :
  py_getitem (rsna_filenames self) item = Ok filename →
  isfile fs (path_join (rsna_train_dir self) filename) = false →
  RSNAICHDataset_getitem window_image self fs item
  = Raise (AssertionError "wrong file path").
Proof.
  intros Hname Hfile. unfold RSNAICHDataset_getitem, _read_image_2d.
  by rewrite Hname, bind_Ok, Hfile.
Qed.

Lemma slices_loop_lengths (scan mask : tensor3) (xs : list nat) :
  ∀ sl (ns : list nat) ms sl' ns' ms',
  foldlR (λ (st : list tensor2 * list nat * list tensor2) (i : nat),
            let '(slices, nums, masks) := st in
            s ← index_last scan i;
            m ← index_last mask i;
            Ok ((slices ++ [s])%list, nums, (masks ++ [m])%list))
         (sl, ns, ms) xs
  = Ok (sl', ns', ms') →
  length sl' = length sl + length xs ∧
  length ms' = length ms + length xs ∧ ns' = ns.
Proof.
  induction xs as [|x xs IH]; intros sl ns ms sl' ns' ms' H; simpl in H.
  - inversion H; subst. simpl. repeat split; lia.
  - inv_bind H. inv_bind Ha. inv_bind Ha. inversion Ha; subst; clear Ha.
    apply IH in H as (-> & -> & ->). rewrite !length_app. simpl.
    repeat split; lia.
Qed.

Lemma read_scan_file_lengths (scans_dir masks_dir : string) (fs : filesystem)
    (file : string) sl (ns : list nat) ms sl' ns' ms' :
  read_scan_file rotate scans_dir masks_dir fs (sl, ns, ms) file
  = Ok (sl', ns', ms') →
  ∃ k, length sl' = length sl + k ∧ length ms' = length ms + k ∧
       ns' = (ns ++ [k])%list.
Proof.
  unfold read_scan_file. intros H. inv_bind H. inv_bind H.
  apply slices_loop_lengths in H as (-> & -> & ->).
  rewrite length_seq. eauto.
Qed.

Lemma read_files_lengths (scans_dir masks_dir : string) (fs : filesystem)
    (files : list string) :
  ∀ sl (ns : list nat) ms sl' ns' ms',
  foldlR (read_scan_file rotate scans_dir masks_dir fs) (sl, ns, ms) files
  = Ok (sl', ns', ms') →
  length sl = length ms → length sl = sum_list ns →
  length sl' = length ms' ∧ length sl' = sum_list ns' ∧
  length ns' = length ns + length files.
Proof.
  induction files as [|file files IH]; intros sl ns ms sl' ns' ms' H Hm Hs;
    simpl in H.
  - inversion H; subst. simpl. lia.
  - inv_bind H. destruct a as [[sl1 ns1] ms1].
    apply read_scan_file_lengths in Ha as (k & Hsl & Hms & ->).
    apply IH in H as (H1 & H2 & H3).
    + rewrite length_app in H3. simpl in *. lia.
    + lia.
    + rewrite sum_list_with_app. simpl. lia.
Qed.

(** X17: an adapter the PhysioNet constructor returns holds as many
    masks as slices, one count per scan file of the directory, and the
    counts add up to its length. *)
Theorem physionet_init_counts
    (fs : filesystem) (root_dir : string) (windows : option (list (Z * Z)))
    (transform : option (tensor3 → tensor3)) (self : PhysioNetICHDataset) :
  PhysioNetICHDataset_init rotate float_of_string fs root_dir windows transform
  = Ok self →
  listdir fs (path_join root_dir "ct_scans") = Ok (physio_filenames self) ∧
  length (physio_masks self) = PhysioNetICHDataset_len self ∧
  sum_list (physio_scans_num_slices self) = PhysioNetICHDataset_len self ∧
  length (physio_scans_num_slices self) = length (physio_filenames self).
Proof.
  unfold PhysioNetICHDataset_init, read_dataset, PhysioNetICHDataset_len.
  intros H. inv_bind H. simpl in H. inv_bind H. inv_bind H. inv_bind H.
  destruct a2 as [[sl ns] ms]. inversion H; subst; clear H. simpl.
  apply read_files_lengths in Ha2 as (H1 & H2 & H3); [|done..].
  simpl in H3. by rewrite Ha.
Qed.

(** X18: a sample of the PhysioNet adapter built with a non-empty list
    of [n] caller windows carries, before the optional transform,
    [1 + n] channels of its slice: the fixed window (40, 120) with
    intercept 0 and slope 1 first, then the caller's in the order
    requested. *)
Theorem physionet_getitem_channels
    (self : PhysioNetICHDataset) (item : Z) (windows : list (Z * Z))
    (image : tensor3) (mask : anytensor) (label : list float) :
  physio_windows self = Some windows →
  windows ≠ [] →
  PhysioNetICHDataset_getitem window_image self item = Ok (image, mask, label) →
  ∃ slice,
    py_getitem (physio_slices self) item = Ok slice ∧
    let channels :=
      window_image slice (40, 120)%Z 0 1
      :: map (λ window, window_image slice window 0 1) windows in
    length channels = 1 + length windows ∧
    image = match physio_transform self with
            | Some transform => transform channels
            | None => channels
            end.
Proof using window_image_shape.
  intros Hw Hne H. unfold PhysioNetICHDataset_getitem in H.
  inv_bind H. rename a into slice. inv_bind H. inv_bind H. inv_bind H.
  rewrite get_image_windows_nonempty, bind_Ok, Hw in H by done.
  rewrite get_image_windows_nonempty, bind_Ok in H by done.
  simpl map in H. rewrite cat_default_and_caller, bind_Ok in H by done.
  exists slice. split; [done|]. simpl. split; [by rewrite length_map|].
  destruct (physio_transform self); by inversion H.
Qed.

(** X19: the PhysioNet adapter counts slices, but takes its labels
    from the rows of the table: at an index that has a slice and a
    mask but lies past the last label, indexed access raises
    [IndexError]. *)
Theorem physionet_getitem_past_labels
    (self : PhysioNetICHDataset) (item : Z) :
  length (physio_masks self) = length (physio_slices self) →
  (Z.of_nat (length (physio_labels self)) ≤ item
   < Z.of_nat (PhysioNetICHDataset_len self))%Z →
  PhysioNetICHDataset_getitem window_image self item = Raise IndexError.
Proof.
  intros Hm Hi. unfold PhysioNetICHDataset_getitem, PhysioNetICHDataset_len in *.
  destruct (py_getitem_in_range (physio_slices self) item ltac:(lia)) as [s ->].
  destruct (py_getitem_in_range (physio_masks self) item ltac:(lia)) as [m ->].
  rewrite !bind_Ok.
  by rewrite (py_getitem_out_of_range (physio_labels self) item) by lia.
Qed.

(** X20: a mask with fewer slices than its scan stops the read of the
    dataset: cutting the mask past its last slice raises
    [IndexError]. *)
Theorem mask_with_fewer_slices_raises
    (fs : filesystem) (scans_dir masks_dir file : string)
    (scan mask : tensor3) (h w d h' w' d' : nat)
    (acc : list tensor2 * list nat * list tensor2) :
  files fs !! path_join scans_dir file = Some (NiftiFile scan) →
  files fs !! path_join masks_dir file = Some (NiftiFile mask) →
  rect3 h w d scan → rect3 h' w' d' mask →
  0 < h → 0 < w → 0 < h' → 0 < w' → d' < d →
  read_scan_file rotate scans_dir masks_dir fs acc file = Raise IndexError.
Proof using rotate_planewise rotate_plane_rect.
  intros Hfs Hfm Hs Hm Hh Hw Hh' Hw' Hd.
  destruct (read_image_3d_rotated fs _ scan h w d Hfs Hs Hh Hw)
    as (scan' & Hscan & Hsize & Hslices).
  destruct (read_image_3d_rotated fs _ mask h' w' d' Hfm Hm Hh' Hw')
    as (mask' & Hmask & Hmsize & Hmslices).
  destruct acc as [[slices nums] masks].
  unfold read_scan_file. rewrite Hscan, bind_Ok, Hmask, bind_Ok, Hsize.
  replace d with (d' + S (d - d' - 1)) at 2 by lia.
  rewrite seq_app, foldlR_app.
  rewrite (slices_loop scan' mask'
             (λ k, rotate_plane 90 (slice_at scan k))
             (λ k, rotate_plane 90 (slice_at mask k)))
    by (intros i [_ Hi]; simpl in Hi; split;
        [apply Hslices; lia | by apply Hmslices]).
  rewrite bind_Ok. simpl.
  destruct (Hslices d' Hd) as [_ ->]. rewrite bind_Ok.
  assert (index_last mask' d' = Raise IndexError) as ->; [|done].
  unfold index_last. by rewrite Hmsize, Nat.ltb_irrefl.
Qed.

(** X21: a label of the PhysioNet adapter holds the five subtype
    values of its row in the adapter's own order, whatever the order
    of the columns in the table, and last one minus the value of the
    [No_Hemorrhage] column. *)
Theorem physio_label_layout
    (row : gmap string (option string)) (label : list float) :
  read_label float_of_string row = Ok label →
  ∃ subtypes no_hemorrhage,
    Forall2 (λ name value,
               ∃ cell, row !! name = Some (Some cell) ∧
                       float_of_string cell = Ok value)
            PHYSIO_SUBTYPES (subtypes ++ [no_hemorrhage])%list ∧
    label = (subtypes ++ [fsub (Fin 1) no_hemorrhage])%list.
Proof.
  unfold read_label. intros H. inv_bind H. inversion H; subst; clear H.
  apply mapR_Forall2 in Ha.
  assert (Forall2 (λ name value,
                     ∃ cell, row !! name = Some (Some cell) ∧
                             float_of_string cell = Ok value)
                  PHYSIO_SUBTYPES a) as Hvalues.
  { eapply Forall2_impl; [exact Ha|]. intros name value Hv. simpl in Hv.
    unfold dict_getitem in Hv.
    destruct (row !! name) as [[cell|]|]; try done. by exists cell. }
  clear Ha. pose proof (Forall2_length _ _ _ Hvalues) as Hlen.
  destruct a as [|e [|ip [|iv [|sa [|sd [|nh [|x a]]]]]]]; try done.
  by exists [e; ip; iv; sa; sd], nh.
Qed.

Lemma torch_stack_by_Ok {T S : Type} `{EqDecision S} (shape : T → S)
    (ts ts' : list T) :
  torch_stack_by shape ts = Ok ts' → ts' = ts ∧ ts ≠ [].
Proof.
  unfold torch_stack_by. destruct ts as [|t rest]; [done|].
  destruct (forallb _ rest); [|done]. intros H. by inversion H.
Qed.

Lemma torch_stack_by_same {T S : Type} `{EqDecision S} (shape : T → S)
    (s : S) (ts : list T) :
  ts ≠ [] → Forall (λ u, shape u = s) ts → torch_stack_by shape ts = Ok ts.
Proof.
  intros Hne Hs. destruct ts as [|t rest]; [done|]. unfold torch_stack_by.
  apply Forall_cons in Hs as [Ht Hrest].
  replace (forallb _ rest) with true; [done|].
  symmetry. apply forallb_forall. intros u Hu.
  apply bool_decide_eq_true. rewrite Forall_forall in Hrest.
  rewrite Ht. apply Hrest. by apply list_elem_of_In.
Qed.

Lemma columns_recompose (target : tensor2) :
  zip_with app (but_last_column target) (last_column target) = target.
Proof.
  unfold but_last_column, last_column.
  induction target as [|row target IH]; simpl; [done|].
  by rewrite take_drop, IH.
Qed.

Lemma last_column_last (row : list float) (x : float) :
  last row = Some x → drop (length row - 1) row = [x].
Proof.
  intros H. apply last_Some in H as [row' ->].
  rewrite length_app. simpl.
  replace (length row' + 1 - 1) with (length row') by lia.
  by rewrite drop_app_length.
Qed.

(** X22: the two RSNA collate functions cut the stacked labels in two
    without loss: on a batch the binary one accepts, the subtypes one
    returns the same stacked images, every label is its subtypes row
    followed by its binary row, and the binary row of a label is its
    last entry alone. *)
Theorem rsna_collates_split_the_labels
    (batch : list (tensor3 * list float)) (data : list tensor3)
    (binary : tensor2) :
  rsna_collate_binary_label batch = Ok (data, binary) →
  ∃ subtypes,
    rsna_collate_subtypes_label batch = Ok (data, subtypes) ∧
    data = map (λ item, item.1) batch ∧
    zip_with app subtypes binary = map (λ item, item.2) batch ∧
    length subtypes = length batch ∧ length binary = length batch ∧
    Forall2 (λ item b, ∀ x, last item.2 = Some x → b = [x]) batch binary.
Proof.
  unfold rsna_collate_binary_label, rsna_collate_subtypes_label.
  intros H. inv_bind H. inv_bind H. inversion H; subst; clear H.
  rewrite Ha, bind_Ok, Ha0, bind_Ok.
  apply torch_stack_by_Ok in Ha as [-> _].
  apply torch_stack_by_Ok in Ha0 as [-> _].
  eexists. split; [done|]. split; [done|].
  split; [apply columns_recompose|].
  unfold but_last_column, last_column. rewrite !length_map.
  split; [done|]. split; [done|].
  rewrite map_map. apply Forall2_fmap_r, Forall_Forall2_diag, Forall_forall.
  intros item _ x Hx. by apply last_column_last.
Qed.

Lemma py_getitem_elem_of {A} (l : list A) (i : Z) (x : A) :
  py_getitem l i = Ok x → x ∈ l.
Proof.
  unfold py_getitem. cbv zeta. destruct (_ <? 0)%Z; [done|].
  destruct (l !! _) as [y|] eqn:Hy; [|done].
  intros H. inversion H; subst. by eapply list_elem_of_lookup_2.
Qed.

Lemma shape2_map_map (f : float → float) (m : tensor2) :
  shape2 (map (map f) m) = shape2 m.
Proof.
  unfold shape2. rewrite length_map. destruct m as [|r m]; simpl; [done|].
  by rewrite length_map.
Qed.

Lemma normalize_mask_shape (mask m : tensor2) :
  normalize_mask mask = Ok m → shape2 m = shape2 mask.
Proof.
  unfold normalize_mask. intros H. inv_bind H.
  destruct (flt (Fin 0) a); [|by inversion H].
  inv_bind H. inv_bind H. inv_bind H. inversion H; subst.
  unfold tensor_div_scalar, tensor_sub_scalar. by rewrite !shape2_map_map.
Qed.

(** The sizes of what indexed access of the PhysioNet adapter hands
    over when no transform is set. *)
Lemma physionet_getitem_shapes (self : PhysioNetICHDataset) (item : Z)
    (image : tensor3) (mask : anytensor) (label : list float)
    (sh sh' : nat * nat) :
  physio_transform self = None →
  Forall (λ s, shape2 s = sh) (physio_slices self) →
  Forall (λ m, shape2 m = sh') (physio_masks self) →
  PhysioNetICHDataset_getitem window_image self item = Ok (image, mask, label) →
  shape3 image
  = (1 + match physio_windows self with
         | Some windows => length windows
         | None => 0
         end, sh) ∧
  any_shape mask = [sh'.1; sh'.2].
Proof using window_image_shape.
  intros Ht Hs Hm H. unfold PhysioNetICHDataset_getitem in H.
  inv_bind H. rename a into slice, Ha into Hslice.
  inv_bind H. rename a into mask0, Ha into Hmask0.
  inv_bind H. inv_bind H. rename a0 into m, Ha0 into Hnorm.
  rewrite get_image_windows_nonempty, bind_Ok in H by done.
  apply py_getitem_elem_of in Hslice, Hmask0.
  rewrite Forall_forall in Hs, Hm.
  specialize (Hs _ Hslice). specialize (Hm _ Hmask0).
  apply normalize_mask_shape in Hnorm. rewrite Ht in H.
  destruct (physio_windows self) as [windows|].
  - destruct windows as [|w0 windows]; [done|].
    rewrite get_image_windows_nonempty, bind_Ok in H by done.
    change (map (λ window, window_image slice window 0 1) [(40, 120)%Z])
      with [window_image slice (40, 120)%Z 0 1] in H.
    rewrite cat_default_and_caller, bind_Ok in H by done.
    inversion H; subst; clear H. split.
    + unfold shape3, chan_shape. rewrite window_image_shape. simpl.
      by rewrite length_map.
    + change ([(shape2 m).1; (shape2 m).2]
              = [(shape2 mask0).1; (shape2 mask0).2]).
      by rewrite Hnorm.
  - rewrite bind_Ok in H. inversion H; subst; clear H. split.
    + unfold shape3, chan_shape. by rewrite window_image_shape.
    + change ([(shape2 m).1; (shape2 m).2]
              = [(shape2 mask0).1; (shape2 mask0).2]).
      by rewrite Hnorm.
Qed.

(** X23: samples of one PhysioNet adapter collate: with no transform
    set and slices of one size and masks of one size, every non-empty
    batch of samples the adapter hands over is stacked by
    [physio_collate_image_mask], images and masks in the order of the
    batch. *)
Theorem physionet_batch_collates
    (self : PhysioNetICHDataset) (items : list Z)
    (batch : list (tensor3 * anytensor * list float)) (sh sh' : nat * nat) :
  physio_transform self = None →
  Forall (λ s, shape2 s = sh) (physio_slices self) →
  Forall (λ m, shape2 m = sh') (physio_masks self) →
  items ≠ [] →
  mapR (PhysioNetICHDataset_getitem window_image self) items = Ok batch →
  physio_collate_image_mask batch
  = Ok (map (λ item, item.1.1) batch, map (λ item, item.1.2) batch) ∧
  length batch = length items.
Proof using window_image_shape.
  intros Ht Hs Hm Hne Hbatch.
  pose proof (mapR_length _ _ _ Hbatch) as Hlen.
  apply mapR_Forall2 in Hbatch.
  assert (Forall (λ sample,
                    shape3 sample.1.1
                    = (1 + match physio_windows self with
                           | Some windows => length windows
                           | None => 0
                           end, sh) ∧
                    any_shape sample.1.2 = [sh'.1; sh'.2]) batch) as Hshapes.
  { apply Forall_forall. intros [[image mask] label] Hin.
    apply list_elem_of_lookup_1 in Hin as [i Hi].
    destruct (Forall2_lookup_r _ _ _ _ _ Hbatch Hi) as (item & _ & Hitem).
    by apply (physionet_getitem_shapes self item image mask label). }
  split; [|done]. unfold physio_collate_image_mask.
  assert (batch ≠ []) as Hne'.
  { intros ->. destruct items; [done|]. simpl in Hlen. lia. }
  rewrite (torch_stack_by_same shape3
             (1 + match physio_windows self with
                  | Some windows => length windows
                  | None => 0
                  end, sh)).
  - rewrite bind_Ok.
    rewrite (torch_stack_by_same any_shape [sh'.1; sh'.2]); [done| |].
    + by destruct batch.
    + rewrite Forall_map. eapply Forall_impl; [exact Hshapes|].
      by intros sample [_ ?].
  - by destruct batch.
  - rewrite Forall_map. eapply Forall_impl; [exact Hshapes|].
    by intros sample [? _].
Qed.

End Properties.

(** * Instances, witnesses and counterexamples *)

Lemma spec_window_image_shape image window intercept slope :
  shape2 (spec_window_image image window intercept slope) = shape2 image.
Proof.
  unfold spec_window_image, shape2. destruct window as [center width].
  rewrite length_map. destruct image as [|r image]; simpl; [done|].
  by rewrite length_map.
Qed.

Lemma getitem_default_then_caller_windows_witness :
  ∃ image label,
    RSNAICHDataset_getitem spec_window_image
      (sample_rsna (Some [(40, 120); (80, 200)]%Z)) sample_fs 0
    = Ok (image, label) ∧ length image = 3.
Proof.
  eexists _, _. split; [vm_compute; reflexivity|].
  destruct (proj1 (getitem_default_then_caller_windows spec_window_image
              spec_window_image_shape
              (sample_rsna (Some [(40, 120); (80, 200)]%Z)) sample_fs 0
              [(40, 120); (80, 200)]%Z _ _ eq_refl ltac:(discriminate)) eq_refl)
    as (filename & raw & wc & ww & wi & ws & _ & _ & _ & Hlen & Himg).
  exact (eq_trans (f_equal length Himg) Hlen).
Defined.

Lemma getitem_without_caller_windows_witness :
  ∃ image label,
    RSNAICHDataset_getitem spec_window_image (sample_rsna None) sample_fs 0
    = Ok (image, label) ∧ length image = 1.
Proof.
  eexists _, _. split; [vm_compute; reflexivity|].
  destruct (proj1 (proj1 (getitem_without_caller_windows spec_window_image
              (sample_rsna None) sample_fs 0 _ _ eq_refl)) eq_refl)
    as (filename & raw & wc & ww & wi & ws & _ & _ & _ & Hlen & Himg).
  exact (eq_trans (f_equal length Himg) Hlen).
Defined.

(** With an empty list of caller windows the adapter returns no tensor:
    the stacking step raises. *)
Lemma getitem_empty_windows_raises :
  rsna_windows (sample_rsna (Some [])) = Some [] ∧
  RSNAICHDataset_getitem spec_window_image (sample_rsna (Some [])) sample_fs 0
  = Raise (RuntimeError "stack expects a non-empty TensorList").
Proof. split; [reflexivity | vm_compute; reflexivity]. Qed.

Lemma sample_permutation_perm (seed : Z) (n : nat) :
  sample_permutation seed n ≡ₚ seq 0 n.
Proof.
  unfold sample_permutation. rewrite Permutation_app_comm.
  by rewrite take_drop.
Qed.

Lemma sample_fs_wf : fs_wf sample_fs.
Proof.
  intros d names H. unfold sample_fs in H. simpl in H.
  apply lookup_insert_Some in H as [[_ <-]|[_ H]].
  { compute_done. }
  apply lookup_insert_Some in H as [[_ <-]|[_ H]].
  { compute_done. }
  by rewrite lookup_empty in H.
Qed.

Lemma built_split_disjoint_and_clean_witness :
  ∃ train_filenames validation_filenames tl vl,
    (run (rsna_train_valid_split sample_float_of_string sample_permutation
            "data" (SizeFloat (1 # 3)) 42 false) sample_world).1
    = Ok (PyStrList train_filenames, tl, PyStrList validation_filenames, vl) ∧
    (∀ x, x ∈ train_filenames → x ∉ validation_filenames) ∧
    ("ID_6431af929.dcm" ∉ train_filenames) ∧
    ("ID_6431af929.dcm" ∉ validation_filenames).
Proof.
  assert ((run (rsna_train_valid_split sample_float_of_string
                  sample_permutation "data" (SizeFloat (1 # 3)) 42 false)
               sample_world).1
          = Ok (PyStrList ["ID_a.dcm"; "ID_b.dcm"],
                PyArray [[Fin 0; Fin 0; Fin 0; Fin 0; Fin 0; Fin 1];
                         [Fin 0; Fin 0; Fin 0; Fin 0; Fin 0; Fin 1]],
                PyStrList ["ID_c.dcm"],
                PyArray [[Fin 0; Fin 0; Fin 0; Fin 0; Fin 0; Fin 1]])) as Hrun
    by (vm_compute; reflexivity).
  assert (split_is_cached (w_fs sample_world) "data" false = false) as Hc
    by (vm_compute; reflexivity).
  destruct (built_split_disjoint_and_clean sample_float_of_string
              sample_permutation sample_permutation_perm sample_world
              (run (rsna_train_valid_split sample_float_of_string
                      sample_permutation "data" (SizeFloat (1 # 3)) 42 false)
                   sample_world).2
              "data" (SizeFloat (1 # 3)) 42 false _ _ _ _
              sample_fs_wf Hc
              (eq_trans (surjective_pairing _) (f_equal (λ r, (r, _)) Hrun)))
    as (train & valid & [= <-] & [= <-] & Hdisj & Hclean).
  eexists _, _, _, _. split; [exact Hrun|].
  split; [exact Hdisj|]. apply Hclean. by left.
Defined.

Lemma cached_split_loaded_unchanged_witness :
  ∃ tf tl vf vl,
    run (rsna_train_valid_split sample_float_of_string sample_permutation
           "data" (SizeFloat (1 # 3)) 42 false) sample_cached_world
    = (Ok (tf, tl, vf, vl),
       {| w_fs := w_fs sample_cached_world;
          w_log := (w_log sample_cached_world ++
                    [EvIsFile "data/train_file_split";
                     EvIsFile "data/validation_file_split";
                     EvIsFile "data/train_label_split";
                     EvIsFile "data/validation_label_split";
                     EvRead "data/train_file_split";
                     EvRead "data/train_label_split";
                     EvRead "data/validation_file_split";
                     EvRead "data/validation_label_split"])%list |}).
Proof.
  eexists _, _, _, _.
  apply (cached_split_loaded_unchanged sample_float_of_string
           sample_permutation sample_cached_world "data");
    vm_compute; reflexivity.
Defined.

Lemma all_keys_decide (labels_dict : gmap string float) (l : list string) :
  forallb (λ filename,
             forallb (λ key, bool_decide (is_Some (labels_dict !! key)))
                     (label_keys filename)) l = true →
  ∀ filename key, filename ∈ l → key ∈ label_keys filename →
                  is_Some (labels_dict !! key).
Proof.
  intros H filename key Hfile Hkey.
  rewrite forallb_forall in H.
  specialize (H filename (proj1 (list_elem_of_In _ _) Hfile)).
  rewrite forallb_forall in H.
  specialize (H key (proj1 (list_elem_of_In _ _) Hkey)).
  by apply bool_decide_eq_true in H.
Qed.

Lemma rebuild_fails_on_missing_label_witness :
  ∃ labels,
    collect_labels sample_labels_dict
      (remove_corrupted ["ID_a.dcm"; "ID_6431af929.dcm"; "ID_b.dcm"; "ID_c.dcm"])
    = Ok labels ∧
    length labels
    = length (remove_corrupted
                ["ID_a.dcm"; "ID_6431af929.dcm"; "ID_b.dcm"; "ID_c.dcm"]).
Proof.
  refine (proj1 (proj2 (rebuild_fails_on_missing_label sample_float_of_string
            sample_permutation sample_permutation_perm sample_world "data" (SizeFloat (1 # 3)) 42 false
            ["ID_a.dcm"; "ID_6431af929.dcm"; "ID_b.dcm"; "ID_c.dcm"]
            sample_label_rows sample_labels_dict _ _ _ _) _));
    [vm_compute; reflexivity | vm_compute; reflexivity
     | vm_compute; reflexivity | | ].
  - assert (is_ok (read_labels_dict sample_float_of_string sample_label_rows)
            = true) as Hok by (vm_compute; reflexivity).
    unfold sample_labels_dict.
    by destruct (read_labels_dict sample_float_of_string sample_label_rows).
  - apply all_keys_decide. vm_compute. reflexivity.
Defined.

(** A slice whose labels are missing from the table stops the build. *)
Lemma rebuild_missing_label_example :
  (run (rsna_train_valid_split sample_float_of_string sample_permutation
          "data" (SizeFloat (1 # 3)) 42 false) sample_world_missing_label).1
  = Raise (KeyError "ID_c_epidural").
Proof. vm_compute. reflexivity. Qed.

Lemma read_2d_calibration_scalars_witness :
  _read_image_2d sample_fs (Some "data/stage_2_train/ID_a.dcm")
  = Ok (map (map float_of_Z) (pixel_array sample_dicom), [40; 80; -1024; 1]%Z).
Proof.
  apply (read_2d_calibration_scalars sample_fs "data/stage_2_train/ID_a.dcm"
           sample_dicom
           (MultiValue [PyFloat (Fin (inject_Z 40)); PyFloat (Fin (inject_Z 36))])
           (Single (PyFloat (Fin (inject_Z 80))))
           (Single (PyInt (-1024))) (Single (PyInt 1)));
    vm_compute; reflexivity.
Defined.

Lemma build2_rect (a b : nat) f : rect2 a b (build2 a b f).
Proof.
  unfold build2. split; [by rewrite length_map, length_seq|].
  rewrite Forall_map. apply Forall_forall. intros i _. simpl.
  by rewrite length_map, length_seq.
Qed.

Lemma sample_rotate_plane_rect (angle : Z) (a b : nat) (m : tensor2) :
  rect2 a b m → rect2 a b (sample_rotate_plane angle m).
Proof.
  intros Hm. unfold sample_rotate_plane.
  destruct (_ && _) eqn:Hsq; [|done].
  apply andb_true_iff in Hsq as [_ Hsq].
  destruct Hm as [Hlen Hrows]. rewrite Hlen.
  destruct m as [|r m].
  - simpl in Hlen. subst a. split; [done|constructor].
  - apply andb_true_iff in Hsq as [Hr _].
    apply Nat.eqb_eq in Hr. apply Forall_cons in Hrows as [Hb _].
    replace b with a by congruence.
    apply build2_rect.
Qed.


(** C10: the claim fails on a mask that is constant and positive.
    Such a mask is constant at its minimum, but its maximum passes the
    guard [mask.max() > 0], so it is not handed back unchanged: the
    rescaling divides zero by [max - min = 0], and every entry of the
    mask the sample carries is NaN. *)
Theorem constant_positive_mask_divided_by_zero :
  py_getitem (physio_masks sample_physio) 1
  = Ok [[Fin 1; Fin 1]; [Fin 1; Fin 1]] ∧
  tensor_max [[Fin 1; Fin 1]; [Fin 1; Fin 1]] = Ok (Fin 1) ∧
  tensor_min [[Fin 1; Fin 1]; [Fin 1; Fin 1]] = Ok (Fin 1) ∧
  flt (Fin 0) (Fin 1) = true ∧
  normalize_mask [[Fin 1; Fin 1]; [Fin 1; Fin 1]]
  = Ok [[NaN; NaN]; [NaN; NaN]] ∧
  ∃ image label,
    PhysioNetICHDataset_getitem spec_window_image sample_physio 1
    = Ok (image, T2 [[NaN; NaN]; [NaN; NaN]], label).
Proof.
  repeat split; try (vm_compute; reflexivity).
  eexists _, _. vm_compute. reflexivity.
Qed.

(** The sample root read by the PhysioNet adapter: both slices turned
    alike, the mask cut at the same depths. *)
Example physionet_init_example :
  (ds ← PhysioNetICHDataset_init sample_rotate sample_float_of_string
          sample_physio_fs "phys" None None;
   Ok (physio_slices ds, physio_masks ds, physio_scans_num_slices ds))
  = Ok ([[[Fin 3; Fin 7]; [Fin 1; Fin 5]]; [[Fin 4; Fin 8]; [Fin 2; Fin 6]]],
        [[[Fin 0; Fin (inject_Z 255)]; [Fin 0; Fin 0]];
         [[Fin (inject_Z 255); Fin 0]; [Fin 0; Fin 0]]],
        [2]).
Proof. vm_compute. reflexivity. Qed.

(** The float product decides the sizes: [0.07 * 100] is rounded to a
    float above seven, [0.05 * 20] to one. *)
Example validate_shuffle_split_float_product :
  validate_shuffle_split 100 (SizeFloat (7 # 100)) = Ok (92, 8) ∧
  validate_shuffle_split 20 (SizeFloat (1 # 20)) = Ok (19, 1) ∧
  validate_shuffle_split 1000 (SizeFloat (1 # 20)) = Ok (950, 50).
Proof. repeat split; vm_compute; reflexivity. Qed.

(** A forced rebuild run twice on the sample root. *)
Example forced_rebuild_twice_example :
  let build := rsna_train_valid_split sample_float_of_string sample_permutation
                 "data" (SizeFloat (1 # 3)) 42 true in
  (run build (run build sample_world).2).1
  = Ok (PyStrList ["ID_a.dcm"; "ID_b.dcm"],
        PyArray [[Fin 0; Fin 0; Fin 0; Fin 0; Fin 0; Fin 1];
                 [Fin 0; Fin 0; Fin 0; Fin 0; Fin 0; Fin 1]],
        PyStrList ["ID_c.dcm"],
        PyArray [[Fin 0; Fin 0; Fin 0; Fin 0; Fin 0; Fin 1]]).
Proof. vm_compute. reflexivity. Qed.

(** ** Witnesses of the further properties *)

Lemma built_split_sizes_witness :
  ∃ train_filenames train_labels validation_filenames validation_labels,
    (run (rsna_train_valid_split sample_float_of_string sample_permutation
            "data" (SizeFloat (1 # 3)) 42 false) sample_world).1
    = Ok (PyStrList train_filenames, PyArray train_labels,
          PyStrList validation_filenames, PyArray validation_labels) ∧
    length train_filenames + length validation_filenames = 3 ∧
    0 < length train_filenames ∧
    length train_labels = length train_filenames ∧
    length validation_labels = length validation_filenames ∧
    Z.of_nat (length validation_filenames) = 1%Z.
Proof.
  assert ((run (rsna_train_valid_split sample_float_of_string
                  sample_permutation "data" (SizeFloat (1 # 3)) 42 false)
               sample_world).1
          = Ok (PyStrList ["ID_a.dcm"; "ID_b.dcm"],
                PyArray [[Fin 0; Fin 0; Fin 0; Fin 0; Fin 0; Fin 1];
                         [Fin 0; Fin 0; Fin 0; Fin 0; Fin 0; Fin 1]],
                PyStrList ["ID_c.dcm"],
                PyArray [[Fin 0; Fin 0; Fin 0; Fin 0; Fin 0; Fin 1]])) as Hrun
    by (vm_compute; reflexivity).
  assert (split_is_cached (w_fs sample_world) "data" false = false) as Hc
    by (vm_compute; reflexivity).
  assert (listdir (w_fs sample_world) (path_join "data" "stage_2_train")
          = Ok ["ID_a.dcm"; "ID_6431af929.dcm"; "ID_b.dcm"; "ID_c.dcm"])
    as Hnames by (vm_compute; reflexivity).
  destruct (built_split_sizes sample_float_of_string sample_permutation
              sample_permutation_perm sample_world
              (run (rsna_train_valid_split sample_float_of_string
                      sample_permutation "data" (SizeFloat (1 # 3)) 42 false)
                   sample_world).2
              "data" (SizeFloat (1 # 3)) 42 false _ _ _ _ _ Hc Hnames
              ltac:(vm_compute; reflexivity)
              (eq_trans (surjective_pairing _) (f_equal (λ r, (r, _)) Hrun)))
    as (train & train_labels & valid & valid_labels
        & [= <-] & [= <-] & [= <-] & [= <-] & Hsum & Hpos & Htl & Hvl & Hsize).
  eexists _, _, _, _. split; [exact Hrun|].
  split; [exact Hsum|]. split; [exact Hpos|]. split; [exact Htl|].
  split; [exact Hvl|]. reflexivity.
Defined.

Lemma built_split_covers_listing_witness :
  ∃ train_filenames validation_filenames tl vl,
    (run (rsna_train_valid_split sample_float_of_string sample_permutation
            "data" (SizeFloat (1 # 3)) 42 false) sample_world).1
    = Ok (PyStrList train_filenames, tl, PyStrList validation_filenames, vl) ∧
    (train_filenames ++ validation_filenames)%list
    ≡ₚ ["ID_a.dcm"; "ID_b.dcm"; "ID_c.dcm"].
Proof.
  assert ((run (rsna_train_valid_split sample_float_of_string
                  sample_permutation "data" (SizeFloat (1 # 3)) 42 false)
               sample_world).1
          = Ok (PyStrList ["ID_a.dcm"; "ID_b.dcm"],
                PyArray [[Fin 0; Fin 0; Fin 0; Fin 0; Fin 0; Fin 1];
                         [Fin 0; Fin 0; Fin 0; Fin 0; Fin 0; Fin 1]],
                PyStrList ["ID_c.dcm"],
                PyArray [[Fin 0; Fin 0; Fin 0; Fin 0; Fin 0; Fin 1]])) as Hrun
    by (vm_compute; reflexivity).
  assert (split_is_cached (w_fs sample_world) "data" false = false) as Hc
    by (vm_compute; reflexivity).
  assert (listdir (w_fs sample_world) (path_join "data" "stage_2_train")
          = Ok ["ID_a.dcm"; "ID_6431af929.dcm"; "ID_b.dcm"; "ID_c.dcm"])
    as Hnames by (vm_compute; reflexivity).
  destruct (built_split_covers_listing sample_float_of_string
              sample_permutation sample_permutation_perm sample_world
              (run (rsna_train_valid_split sample_float_of_string
                      sample_permutation "data" (SizeFloat (1 # 3)) 42 false)
                   sample_world).2
              "data" (SizeFloat (1 # 3)) 42 false _ _ _ _ _ Hc Hnames
              (eq_trans (surjective_pairing _) (f_equal (λ r, (r, _)) Hrun)))
    as (train & valid & [= <-] & [= <-] & Hperm).
  eexists _, _, _, _. split; [exact Hrun|]. exact Hperm.
Defined.

Lemma sample_labels_dict_read :
  read_labels_dict sample_float_of_string sample_label_rows
  = Ok sample_labels_dict.
Proof.
  assert (is_ok (read_labels_dict sample_float_of_string sample_label_rows)
          = true) as Hok by (vm_compute; reflexivity).
  unfold sample_labels_dict.
  by destruct (read_labels_dict sample_float_of_string sample_label_rows).
Qed.

Lemma built_split_labels_follow_files_witness :
  ∃ train_filenames train_labels validation_filenames validation_labels,
    (run (rsna_train_valid_split sample_float_of_string sample_permutation
            "data" (SizeFloat (1 # 3)) 42 false) sample_world).1
    = Ok (PyStrList train_filenames, PyArray train_labels,
          PyStrList validation_filenames, PyArray validation_labels) ∧
    Forall2 (λ filename label,
               mapR (dict_getitem sample_labels_dict) (label_keys filename)
               = Ok label)
            train_filenames train_labels ∧
    Forall2 (λ filename label,
               mapR (dict_getitem sample_labels_dict) (label_keys filename)
               = Ok label)
            validation_filenames validation_labels.
Proof.
  assert ((run (rsna_train_valid_split sample_float_of_string
                  sample_permutation "data" (SizeFloat (1 # 3)) 42 false)
               sample_world).1
          = Ok (PyStrList ["ID_a.dcm"; "ID_b.dcm"],
                PyArray [[Fin 0; Fin 0; Fin 0; Fin 0; Fin 0; Fin 1];
                         [Fin 0; Fin 0; Fin 0; Fin 0; Fin 0; Fin 1]],
                PyStrList ["ID_c.dcm"],
                PyArray [[Fin 0; Fin 0; Fin 0; Fin 0; Fin 0; Fin 1]])) as Hrun
    by (vm_compute; reflexivity).
  assert (split_is_cached (w_fs sample_world) "data" false = false) as Hc
    by (vm_compute; reflexivity).
  assert (csv_rows (w_fs sample_world) (path_join "data" "stage_2_train.csv")
          = Ok sample_label_rows)
    as Hrows by (vm_compute; reflexivity).
  destruct (built_split_labels_follow_files sample_float_of_string
              sample_permutation sample_permutation_perm sample_world
              (run (rsna_train_valid_split sample_float_of_string
                      sample_permutation "data" (SizeFloat (1 # 3)) 42 false)
                   sample_world).2
              "data" (SizeFloat (1 # 3)) 42 false _ _ _ _ _ _ Hc Hrows
              sample_labels_dict_read
              (eq_trans (surjective_pairing _) (f_equal (λ r, (r, _)) Hrun)))
    as (train & train_labels & valid & valid_labels
        & [= <-] & [= <-] & [= <-] & [= <-] & Htrain & Hvalid).
  eexists _, _, _, _. split; [exact Hrun|]. split; [exact Htrain|exact Hvalid].
Defined.

Lemma build_then_load_round_trip_witness :
  (run (rsna_train_valid_split sample_float_of_string sample_permutation
          "data" (SizeInt 1) 7 false) sample_cached_world).1
  = Ok (PyStrList ["ID_a.dcm"; "ID_b.dcm"],
        PyArray [[Fin 0; Fin 0; Fin 0; Fin 0; Fin 0; Fin 1];
                 [Fin 0; Fin 0; Fin 0; Fin 0; Fin 0; Fin 1]],
        PyStrList ["ID_c.dcm"],
        PyArray [[Fin 0; Fin 0; Fin 0; Fin 0; Fin 0; Fin 1]]).
Proof.
  assert ((run (rsna_train_valid_split sample_float_of_string
                  sample_permutation "data" (SizeFloat (1 # 3)) 42 true)
               sample_world).1
          = Ok (PyStrList ["ID_a.dcm"; "ID_b.dcm"],
                PyArray [[Fin 0; Fin 0; Fin 0; Fin 0; Fin 0; Fin 1];
                         [Fin 0; Fin 0; Fin 0; Fin 0; Fin 0; Fin 1]],
                PyStrList ["ID_c.dcm"],
                PyArray [[Fin 0; Fin 0; Fin 0; Fin 0; Fin 0; Fin 1]])) as Hrun
    by (vm_compute; reflexivity).
  assert (split_is_cached (w_fs sample_world) "data" true = false) as Hc
    by (vm_compute; reflexivity).
  exact (proj1 (build_then_load_round_trip sample_float_of_string
                  sample_permutation sample_world sample_cached_world
                  "data" (SizeFloat (1 # 3)) (SizeInt 1) 42 7 true _ Hc
                  (eq_trans (surjective_pairing _)
                            (f_equal (λ r, (r, _)) Hrun)))).
Defined.

Lemma failed_call_writes_nothing_witness :
  w_fs (run (rsna_train_valid_split sample_float_of_string sample_permutation
               "data" (SizeFloat (1 # 3)) 42 false)
            sample_world_missing_label).2
  = w_fs sample_world_missing_label.
Proof.
  apply (failed_call_writes_nothing sample_float_of_string sample_permutation
           sample_world_missing_label "data" (SizeFloat (1 # 3)) 42 false
           (KeyError "ID_c_epidural")).
  vm_compute. reflexivity.
Defined.

Lemma builder_touches_only_its_artifacts_witness :
  let after :=
    w_fs (run (rsna_train_valid_split sample_float_of_string sample_permutation
                 "data" (SizeFloat (1 # 3)) 42 false) sample_world).2 in
  files after !! "data/stage_2_train.csv"
  = files (w_fs sample_world) !! "data/stage_2_train.csv" ∧
  dirs after !! "data/stage_2_train"
  = dirs (w_fs sample_world) !! "data/stage_2_train".
Proof.
  apply (builder_touches_only_its_artifacts sample_float_of_string
           sample_permutation sample_world "data" (SizeFloat (1 # 3)) 42 false
           "data/stage_2_train.csv" "data/stage_2_train");
    vm_compute; discriminate.
Defined.

Lemma too_few_files_cannot_be_split_witness :
  let outcome :=
    run (rsna_train_valid_split sample_float_of_string sample_permutation
           "data" (SizeFloat (1 # 3)) 42 false) sample_world_one_file in
  outcome.1 = Raise ValueError ∧ w_fs outcome.2 = w_fs sample_world_one_file.
Proof.
  apply (too_few_files_cannot_be_split sample_float_of_string
           sample_permutation sample_world_one_file "data" (SizeFloat (1 # 3))
           42 false ["ID_a.dcm"; "ID_6431af929.dcm"] sample_label_rows
           sample_labels_dict [[Fin 0; Fin 0; Fin 0; Fin 0; Fin 0; Fin 1]]).
  - vm_compute. reflexivity.
  - vm_compute. reflexivity.
  - vm_compute. reflexivity.
  - exact sample_labels_dict_read.
  - vm_compute. reflexivity.
  - vm_compute. lia.
Defined.

Lemma remove_corrupted_keeps_the_rest_witness :
  remove_corrupted ["ID_a.dcm"; "ID_6431af929.dcm"; "ID_b.dcm"; "ID_c.dcm"]
  = filter (λ name, name ∉ corrupted_files)
           ["ID_a.dcm"; "ID_6431af929.dcm"; "ID_b.dcm"; "ID_c.dcm"].
Proof.
  apply remove_corrupted_keeps_the_rest.
  compute_done.
Defined.

Lemma later_label_row_overrides_witness :
  read_labels_dict sample_float_of_string
    ([["ID"; "Label"]; ["ID_a_any"; "1"]] ++ [["ID_a_any"; "0"; "late"]])
  = Ok (<["ID_a_any" := Fin 0]> (<["ID_a_any" := Fin 1]> ∅)).
Proof.
  apply (later_label_row_overrides sample_float_of_string
           [["ID"; "Label"]; ["ID_a_any"; "1"]]
           (<["ID_a_any" := Fin 1]> ∅) "ID_a_any" "0" ["late"] (Fin 0)).
  - discriminate.
  - vm_compute. reflexivity.
  - vm_compute. reflexivity.
Defined.

Lemma read_2d_missing_calibration_element_witness :
  ∃ tag,
    elements sample_dicom_no_width !! tag = None ∧
    _read_image_2d sample_fs_bad_dicoms (Some "data/stage_2_train/ID_a.dcm")
    = Raise (KeyError (tag.1 ++ "," ++ tag.2)).
Proof.
  destruct (read_2d_missing_calibration_element sample_fs_bad_dicoms
              "data/stage_2_train/ID_a.dcm" sample_dicom_no_width
              ("0028", "1051"))
    as (tag & _ & Hnone & Hraise).
  - vm_compute. reflexivity.
  - right. left.
  - vm_compute. reflexivity.
  - exists tag. split; [exact Hnone|exact Hraise].
Defined.

Lemma read_2d_element_without_value_witness :
  _read_image_2d sample_fs_bad_dicoms (Some "data/stage_2_train/ID_b.dcm")
  = Raise TypeError.
Proof.
  apply (read_2d_element_without_value sample_fs_bad_dicoms
           "data/stage_2_train/ID_b.dcm" sample_dicom_empty_center
           (MultiValue []) (Single (PyFloat (Fin (inject_Z 80))))
           (Single (PyInt (-1024))) (Single (PyInt 1))).
  - vm_compute. reflexivity.
  - vm_compute. reflexivity.
  - vm_compute. reflexivity.
  - vm_compute. reflexivity.
  - vm_compute. reflexivity.
  - left.
  - intros v Hv Hne.
    repeat (apply elem_of_cons in Hv as [->|Hv]; [done || reflexivity|]).
    by apply elem_of_nil in Hv.
Defined.

Lemma permutes_of_reader_cancel_witness :
  permute (permute sample_scan 2 0 1) 1 2 0 = sample_scan.
Proof.
  apply (permutes_of_reader_cancel 2 2 2 sample_scan); try lia.
  split; [reflexivity|]. repeat constructor.
Defined.

Lemma read_3d_rotated_keeps_shape_witness :
  ∃ v', _read_image_3d sample_rotate sample_physio_fs
          (Some "phys/ct_scans/049.nii") true = Ok v' ∧
        rect3 2 2 2 v'.
Proof.
  apply (read_3d_rotated_keeps_shape sample_rotate sample_rotate_plane
           (λ _ _, eq_refl) sample_rotate_plane_rect sample_physio_fs
           "phys/ct_scans/049.nii" sample_scan 2 2 2); try lia.
  - vm_compute. reflexivity.
  - split; [reflexivity|]. repeat constructor.
Defined.

Lemma rsna_getitem_index_out_of_range_witness :
  RSNAICHDataset_getitem spec_window_image (sample_rsna None) sample_fs 2
  = Raise IndexError.
Proof.
  apply (rsna_getitem_index_out_of_range spec_window_image (sample_rsna None)
           sample_fs 2).
  right. vm_compute. discriminate.
Defined.

Lemma rsna_getitem_negative_index_witness :
  RSNAICHDataset_getitem spec_window_image (sample_rsna None) sample_fs (-1)
  = RSNAICHDataset_getitem spec_window_image (sample_rsna None) sample_fs
      (-1 + Z.of_nat (RSNAICHDataset_len (sample_rsna None))).
Proof.
  apply (rsna_getitem_negative_index spec_window_image (sample_rsna None)
           sample_fs (-1)).
  - reflexivity.
  - split; vm_compute; [discriminate|reflexivity].
Defined.

Lemma rsna_getitem_missing_file_witness :
  RSNAICHDataset_getitem spec_window_image (sample_rsna None)
    sample_physio_fs 0
  = Raise (AssertionError "wrong file path").
Proof.
  apply (rsna_getitem_missing_file spec_window_image (sample_rsna None)
           sample_physio_fs 0 "ID_a.dcm").
  - reflexivity.
  - vm_compute. reflexivity.
Defined.

Lemma physionet_init_counts_witness :
  ∃ self,
    PhysioNetICHDataset_init sample_rotate sample_float_of_string
      sample_physio_fs "phys" None None = Ok self ∧
    length (physio_masks self) = PhysioNetICHDataset_len self ∧
    sum_list (physio_scans_num_slices self) = PhysioNetICHDataset_len self ∧
    length (physio_scans_num_slices self) = length (physio_filenames self).
Proof.
  assert (is_ok (PhysioNetICHDataset_init sample_rotate sample_float_of_string
                   sample_physio_fs "phys" None None) = true) as Hok
    by (vm_compute; reflexivity).
  destruct (PhysioNetICHDataset_init sample_rotate sample_float_of_string
              sample_physio_fs "phys" None None) as [self|e] eqn:Hinit;
    [|discriminate].
  exists self. split; [reflexivity|].
  exact (proj2 (physionet_init_counts sample_rotate sample_float_of_string
                  sample_physio_fs "phys" None None self Hinit)).
Defined.

Lemma physionet_getitem_channels_witness :
  ∃ image mask label,
    PhysioNetICHDataset_getitem spec_window_image
      (sample_physio_of (Some [(80, 200)%Z]) (physio_labels sample_physio)) 0
    = Ok (image, mask, label) ∧
    length image = 2.
Proof.
  eexists _, _, _. split; [vm_compute; reflexivity|].
  destruct (physionet_getitem_channels spec_window_image
              spec_window_image_shape
              (sample_physio_of (Some [(80, 200)%Z]) (physio_labels sample_physio))
              0 [(80, 200)%Z] _ _ _ eq_refl ltac:(discriminate) eq_refl)
    as (slice & _ & Hlen & Himage).
  exact (eq_trans (f_equal length Himage) Hlen).
Defined.

Lemma physionet_getitem_past_labels_witness :
  PhysioNetICHDataset_getitem spec_window_image
    (sample_physio_of None [[Fin 0; Fin 1; Fin 0; Fin 0; Fin 0; Fin 1]]) 1
  = Raise IndexError.
Proof.
  apply (physionet_getitem_past_labels spec_window_image
           (sample_physio_of None [[Fin 0; Fin 1; Fin 0; Fin 0; Fin 0; Fin 1]])
           1).
  - reflexivity.
  - split; vm_compute; [discriminate|reflexivity].
Defined.

Lemma mask_with_fewer_slices_raises_witness :
  read_scan_file sample_rotate "phys/ct_scans" "phys/masks"
    sample_physio_fs_short_mask ([], [], []) "049.nii"
  = Raise IndexError.
Proof.
  apply (mask_with_fewer_slices_raises sample_rotate sample_rotate_plane
           (λ _ _, eq_refl) sample_rotate_plane_rect
           sample_physio_fs_short_mask "phys/ct_scans" "phys/masks" "049.nii"
           sample_scan [[[Fin 0]; [Fin 0]]; [[Fin 0]; [Fin 1]]]
           2 2 2 2 2 1);
    try (vm_compute; reflexivity); try lia;
    (split; [reflexivity|]; repeat constructor).
Defined.

Lemma physio_label_layout_witness :
  ∃ label subtypes no_hemorrhage,
    read_label sample_float_of_string sample_physio_row = Ok label ∧
    Forall2 (λ name value,
               ∃ cell, sample_physio_row !! name = Some (Some cell) ∧
                       sample_float_of_string cell = Ok value)
            PHYSIO_SUBTYPES (subtypes ++ [no_hemorrhage])%list ∧
    label = (subtypes ++ [fsub (Fin 1) no_hemorrhage])%list.
Proof.
  assert (read_label sample_float_of_string sample_physio_row
          = Ok [Fin 0; Fin 1; Fin 0; Fin 0; Fin 0; Fin 1]) as Hread
    by (vm_compute; reflexivity).
  destruct (physio_label_layout sample_float_of_string sample_physio_row
              _ Hread) as (subtypes & no_hemorrhage & Hcells & Hlabel).
  exists [Fin 0; Fin 1; Fin 0; Fin 0; Fin 0; Fin 1], subtypes, no_hemorrhage.
  split; [exact Hread|]. split; [exact Hcells|exact Hlabel].
Defined.

Lemma rsna_collates_split_the_labels_witness :
  ∃ data binary subtypes,
    rsna_collate_binary_label sample_rsna_batch = Ok (data, binary) ∧
    rsna_collate_subtypes_label sample_rsna_batch = Ok (data, subtypes) ∧
    binary = [[Fin 1]; [Fin 0]] ∧
    zip_with app subtypes binary = map (λ item, item.2) sample_rsna_batch.
Proof.
  assert (rsna_collate_binary_label sample_rsna_batch
          = Ok (map (λ item, item.1) sample_rsna_batch, [[Fin 1]; [Fin 0]]))
    as Hbinary by (vm_compute; reflexivity).
  destruct (rsna_collates_split_the_labels sample_rsna_batch _ _ Hbinary)
    as (subtypes & Hsub & _ & Hzip & _).
  eexists _, _, subtypes. split; [exact Hbinary|]. split; [exact Hsub|].
  split; [reflexivity|exact Hzip].
Defined.

Lemma physionet_batch_collates_witness :
  ∃ batch,
    mapR (PhysioNetICHDataset_getitem spec_window_image sample_physio) [0; 1]%Z
    = Ok batch ∧
    physio_collate_image_mask batch
    = Ok (map (λ item, item.1.1) batch, map (λ item, item.1.2) batch) ∧
    length batch = 2.
Proof.
  assert (is_ok (mapR (PhysioNetICHDataset_getitem spec_window_image
                         sample_physio) [0; 1]%Z) = true) as Hok
    by (vm_compute; reflexivity).
  destruct (mapR (PhysioNetICHDataset_getitem spec_window_image sample_physio)
              [0; 1]%Z) as [batch|e] eqn:Hbatch; [|discriminate].
  exists batch. split; [reflexivity|].
  apply (physionet_batch_collates spec_window_image spec_window_image_shape
           sample_physio [0; 1]%Z batch (2, 2) (2, 2)).
  - reflexivity.
  - repeat constructor.
  - repeat constructor.
  - discriminate.
  - exact Hbatch.
Defined.
